(** * Wallet chatbot: address handling, intent routing, gateway and formatters

    A shallow embedding of [services/chat_service.py],
    [services/data_processor.py], [bitscrunch/api_client.py] and
    [bitscrunch/schemas.py].

    Conventions of the embedding.
    - A Python [str] is a [string], one [ascii] per character: the code points
      below 256.  [isspace] and [lower] are CPython's on that range.
    - Exceptions are values: a computation that may raise returns a [result].
    - Outbound calls (HTTP GET, chat completion) are answered by an
      [environment] and recorded, in order, in a trace.
    - What pydantic, requests and the Python runtime decide outside the
      repository (field coercion, exception texts, float formatting, Unicode
      upper and title case) is a [runtime], over which every statement is
      universal.
    - Logging is left out: it has no effect on what is returned or raised. *)

From Stdlib Require Import String Ascii List Bool Arith Lia ZArith PrimFloat DecimalString.
Import ListNotations.
Open Scope string_scope.

(* ================================================================= *)
(** ** Python strings *)

(** The double quote and the line feed, which a literal cannot hold. *)
Definition dq : ascii := "034"%char.
Definition lf : ascii := "010"%char.

(** Templates are written with a backquote where the source has a double
    quote (no template of the source holds a backquote); [tpl] puts the
    double quotes back. *)
Fixpoint tpl (s : string) : string :=
  match s with
  | "" => ""
  | String c t => String (if Ascii.eqb c "`" then dq else c) (tpl t)
  end.

Definition code (c : ascii) : nat := nat_of_ascii c.

Definition in_range (lo hi : nat) (c : ascii) : bool :=
  (lo <=? code c)%nat && (code c <=? hi)%nat.

(** [str.isspace] on one character: U+0009..U+000D, U+001C..U+001F, U+0020,
    U+0085 and U+00A0. *)
Definition isspace (c : ascii) : bool :=
  in_range 9 13 c || in_range 28 32 c || (code c =? 133)%nat || (code c =? 160)%nat.

(** [str.lower] on one character: A..Z and the Latin-1 capitals U+00C0..U+00DE
    (the multiplication sign U+00D7 apart) move up by 32. *)
Definition lower_char (c : ascii) : ascii :=
  if in_range 65 90 c || (in_range 192 222 c && negb (code c =? 215)%nat)
  then ascii_of_nat (code c + 32) else c.

Fixpoint lower (s : string) : string :=
  match s with
  | "" => ""
  | String c t => String (lower_char c) (lower t)
  end.

Fixpoint lstrip_by (p : ascii -> bool) (s : string) : string :=
  match s with
  | "" => ""
  | String c t => if p c then lstrip_by p t else s
  end.

Fixpoint rstrip_by (p : ascii -> bool) (s : string) : string :=
  match s with
  | "" => ""
  | String c t =>
      match rstrip_by p t with
      | "" => if p c then "" else String c ""
      | r => String c r
      end
  end.

(** [s.strip()] *)
Definition strip (s : string) : string := rstrip_by isspace (lstrip_by isspace s).

(** [s.rstrip(c)] for a one-character argument. *)
Definition rstrip_char (c : ascii) (s : string) : string :=
  rstrip_by (Ascii.eqb c) s.

(** [s.startswith(p)] *)
Fixpoint startswith (p s : string) : bool :=
  match p, s with
  | "", _ => true
  | String a p', String b s' => Ascii.eqb a b && startswith p' s'
  | String _ _, "" => false
  end.

(** [needle in s] on strings *)
Fixpoint contains (needle s : string) : bool :=
  startswith needle s ||
  match s with
  | "" => false
  | String _ t => contains needle t
  end.

(** [s[:n]] *)
Fixpoint take (n : nat) (s : string) : string :=
  match n, s with
  | S n', String c t => String c (take n' t)
  | _, _ => ""
  end.

(** [s[n:]] *)
Fixpoint drop (n : nat) (s : string) : string :=
  match n, s with
  | S n', String _ t => drop n' t
  | _, _ => s
  end.

(** [s[-n:]] for [n > 0] *)
Definition take_last (n : nat) (s : string) : string :=
  drop (String.length s - n) s.

(** [any(keyword in s for keyword in keywords)] *)
Definition any_keyword_in (keywords : list string) (s : string) : bool :=
  existsb (fun keyword => contains keyword s) keywords.

(** [str(n)] for a non-negative [int] *)
Definition str_nat (n : nat) : string :=
  NilEmpty.string_of_uint (Nat.to_uint n).

(* ================================================================= *)
(** ** The two regular expressions *)

(** The class [[a-fA-F0-9]] *)
Definition hex_class (c : ascii) : bool :=
  in_range 97 102 c || in_range 65 70 c || in_range 48 57 c.

(** [[a-fA-F0-9]{n}] at the head of [s]: the matched text and what follows. *)
Fixpoint match_hex (n : nat) (s : string) : option (string * string) :=
  match n with
  | 0 => Some ("", s)
  | S n' =>
      match s with
      | "" => None
      | String c t =>
          if hex_class c then
            match match_hex n' t with
            | Some (h, rest) => Some (String c h, rest)
            | None => None
            end
          else None
      end
  end.

(** [0x[a-fA-F0-9]{40}] at the head of [s] *)
Definition match_eth (s : string) : option (string * string) :=
  match s with
  | String "0" (String "x" t) =>
      match match_hex 40 t with
      | Some (h, rest) => Some (String "0" (String "x" h), rest)
      | None => None
      end
  | _ => None
  end.

(** [re.search(r'0x[a-fA-F0-9]{40}', s)]: the text of the match at the
    leftmost position that has one. *)
Fixpoint re_search_eth (s : string) : option string :=
  match match_eth s with
  | Some (m, _) => Some m
  | None =>
      match s with
      | "" => None
      | String _ t => re_search_eth t
      end
  end.

(** [$] without [re.MULTILINE]: the end of the string, or just before a line
    feed that ends the string. *)
Definition at_dollar (rest : string) : bool :=
  match rest with
  | "" => true
  | String c "" => Ascii.eqb c lf
  | _ => false
  end.

(** [bool(re.match(r'^0x[a-fA-F0-9]{40}$', s))] *)
Definition re_match_eth_anchored (s : string) : bool :=
  match match_eth s with
  | Some (_, rest) => at_dollar rest
  | None => false
  end.

(* ================================================================= *)
(** ** [DataProcessor.is_valid_wallet_address] and
       [ChatService._extract_wallet_address] *)

Definition is_valid_wallet_address (address : string) : bool :=
  match address with
  | "" => false
  | _ =>
      let address := strip address in
      re_match_eth_anchored address
  end.

Definition _extract_wallet_address (message : string) : option string :=
  re_search_eth message.

(* ================================================================= *)
(** ** What the specification calls a wallet address *)

(** A hexadecimal digit, by enumeration. *)
Definition hex_digit (c : ascii) : Prop :=
  In c (list_ascii_of_string "0123456789abcdefABCDEF").

(** [0x] followed by exactly 40 hexadecimal digits. *)
Definition eth_address (a : string) : Prop :=
  exists h, a = "0x" ++ h /\ String.length h = 40 /\
            Forall hex_digit (list_ascii_of_string h).

(** [a] occurs in [s] after [n] characters. *)
Definition occurs_at (n : nat) (a s : string) : Prop :=
  exists pre post, s = pre ++ a ++ post /\ String.length pre = n.

(* ================================================================= *)
(** ** Exceptions, results and the trace of outbound calls *)

(** An exception, as far as this code looks at one: whether an
    [except requests.exceptions.RequestException] clause catches it, and
    [str(e)]. *)
Record exn : Type := Exn { is_request_exception : bool; exn_str : string }.

Inductive result (A : Type) : Type :=
| Ok (a : A)
| Raise (e : exn).
Arguments Ok {A} a.
Arguments Raise {A} e.

(** JSON as [json.loads] and [response.json()] give it. *)
#[warnings="-register-all"]
Inductive json : Type :=
| JNull
| JBool (b : bool)
| JInt (z : Z)
| JFloat (f : float)
| JStr (s : string)
| JList (l : list json)
| JDict (d : list (string * json)).

(** One outbound call. [timeout = None] is a call made without a timeout
    argument. *)
Inductive call : Type :=
| HttpGet (url : string) (headers : list (string * string))
          (params : list (string * json)) (timeout : option nat)
| ChatCompletion (model system user : string).

(** A computation: the calls it made, then its value or the exception it
    raised. *)
Definition M (A : Type) : Type := (list call * result A)%type.

Definition ret {A} (a : A) : M A := ([], Ok a).
Definition raise {A} (e : exn) : M A := ([], Raise e).
Definition lift {A} (r : result A) : M A := ([], r).

Definition bind {A B} (m : M A) (k : A -> M B) : M B :=
  match m with
  | (t, Ok a) => let (t', r) := k a in ((t ++ t')%list, r)
  | (t, Raise e) => (t, Raise e)
  end.

(** [try: body  except Exception as e: handler e] *)
Definition try_except {A} (body : M A) (handler : exn -> M A) : M A :=
  match body with
  | (t, Raise e) => let (t', r) := handler e in ((t ++ t')%list, r)
  | (t, Ok a) => (t, Ok a)
  end.

(** [try: body  except requests.exceptions.RequestException as e: handler e] *)
Definition try_except_request {A} (body : M A) (handler : exn -> M A) : M A :=
  match body with
  | (t, Raise e) =>
      if is_request_exception e
      then let (t', r) := handler e in ((t ++ t')%list, r)
      else (t, Raise e)
  | (t, Ok a) => (t, Ok a)
  end.

Declare Scope monad_scope.
Delimit Scope monad_scope with monad.
Notation "x <- m ;; k" := (bind m (fun x => k))
  (at level 61, m at next level, right associativity) : monad_scope.
Open Scope monad_scope.

Definition trace {A} (m : M A) : list call := fst m.
Definition outcome {A} (m : M A) : result A := snd m.

(** What [requests.get] hands back: the status code and what
    [response.json()] does. *)
Record http_response : Type :=
  Response { status_code : nat; response_json : result json }.

(** The world outside: how the data provider answers a GET (a response, or
    an exception out of [requests.get]) and how the completion provider
    answers ([message.content], which may be [None], or an exception). *)
Record environment : Type := Environment {
  requests_get : string -> list (string * json) -> option nat -> result http_response;
  chat_completions_create : string -> string -> string -> result (option string)
}.

(* ================================================================= *)
(** ** Python operations on JSON values *)

(** [type(v).__name__] *)
Definition type_name (v : json) : string :=
  match v with
  | JNull => "NoneType"
  | JBool _ => "bool"
  | JInt _ => "int"
  | JFloat _ => "float"
  | JStr _ => "str"
  | JList _ => "list"
  | JDict _ => "dict"
  end.

(** Exceptions of the interpreter ([TypeError], [KeyError],
    [AttributeError]): none is a [RequestException]; the texts are
    CPython's. *)
Definition builtin_error (msg : string) : exn := Exn false msg.

Fixpoint lookup (key : string) (d : list (string * json)) : option json :=
  match d with
  | [] => None
  | (k, v) :: d' => if String.eqb k key then Some v else lookup key d'
  end.

Definition is_str (key : string) (v : json) : bool :=
  match v with
  | JStr s => String.eqb s key
  | _ => false
  end.

(** [key in v] for a string [key] *)
Definition py_in (key : string) (v : json) : result bool :=
  match v with
  | JDict d => Ok (match lookup key d with Some _ => true | None => false end)
  | JList l => Ok (existsb (is_str key) l)
  | JStr s => Ok (contains key s)
  | _ => Raise (builtin_error
                  ("argument of type '" ++ type_name v ++ "' is not iterable"))
  end.

(** [v[key]] for a string [key] *)
Definition py_getitem (v : json) (key : string) : result json :=
  match v with
  | JDict d =>
      match lookup key d with
      | Some x => Ok x
      | None => Raise (builtin_error ("'" ++ key ++ "'"))
      end
  | JList _ => Raise (builtin_error "list indices must be integers or slices, not str")
  | JStr _ => Raise (builtin_error "string indices must be integers, not 'str'")
  | _ => Raise (builtin_error ("'" ++ type_name v ++ "' object is not subscriptable"))
  end.

(** [len(v)] *)
Definition py_len (v : json) : result nat :=
  match v with
  | JList l => Ok (List.length l)
  | JDict d => Ok (List.length d)
  | JStr s => Ok (String.length s)
  | _ => Raise (builtin_error ("object of type '" ++ type_name v ++ "' has no len()"))
  end.

(** [bool(v)] *)
Definition py_truthy (v : json) : bool :=
  match v with
  | JNull => false
  | JBool b => b
  | JInt z => negb (Z.eqb z 0)
  | JFloat f => negb (PrimFloat.eqb f 0%float)
  | JStr s => negb (String.eqb s "")
  | JList l => match l with [] => false | _ => true end
  | JDict d => match d with [] => false | _ => true end
  end.

Definition is_list (v : json) : bool :=
  match v with JList _ => true | _ => false end.

Definition is_dict (v : json) : bool :=
  match v with JDict _ => true | _ => false end.

(** [v.get(key, default)]: only a dict has the method. *)
Definition py_get (v : json) (key : string) (default : json) : result json :=
  match v with
  | JDict d => Ok (match lookup key d with Some x => x | None => default end)
  | _ => Raise (builtin_error
                  ("'" ++ type_name v ++ "' object has no attribute 'get'"))
  end.

(** [v[:n]], then the items a [for] loop walks through. *)
Definition py_slice_items (n : nat) (v : json) : result (list json) :=
  match v with
  | JList l => Ok (firstn n l)
  | JStr s => Ok (map (fun c => JStr (String c "")) (list_ascii_of_string (take n s)))
  | JDict _ => Raise (builtin_error "unhashable type: 'slice'")
  | _ => Raise (builtin_error ("'" ++ type_name v ++ "' object is not subscriptable"))
  end.

(* ================================================================= *)
(** ** [bitscrunch/schemas.py] *)

Record TokenBalance : Type := {
  blockchain : string;
  chain_id : Z;
  decimal : Z;
  quantity : float;
  token_address : string;
  token_name : string;
  token_symbol : string
}.

Record Pagination : Type := {
  total_items : Z;
  offset : Z;
  limit : Z;
  has_next : bool
}.

Record WalletBalanceResponse : Type := {
  token : list TokenBalance;
  pagination : Pagination
}.

(** The dict [get_nft_holdings] returns: keys [nfts], [total_count],
    [address]. *)
Record nft_holdings : Type := {
  nfts : json;
  nft_total_count : nat;
  nft_address : string
}.

(** The dict [get_transaction_history] returns: keys [transactions],
    [total_count], [address]. *)
Record tx_history : Type := {
  transactions : json;
  tx_total_count : nat;
  tx_address : string
}.

(** The document [generate_response] returns: a dict with the key [html]. *)
Record document : Type := Document { html : string }.

Definition opt_bind {A B} (o : option A) (k : A -> option B) : option B :=
  match o with
  | Some a => k a
  | None => None
  end.

Fixpoint opt_all {A B} (f : A -> option B) (l : list A) : option (list B) :=
  match l with
  | [] => Some []
  | a :: l' =>
      opt_bind (f a) (fun b => opt_bind (opt_all f l') (fun bs => Some (b :: bs)))
  end.

(** What the libraries under the code decide and the repository does not:
    the development holds whatever these are. *)
Record runtime : Type := Runtime {
  (** [settings.bitscrunch_api_key] *)
  bitscrunch_api_key : string;
  (** [str.upper] and [str.title] *)
  py_upper : string -> string;
  py_title : string -> string;
  (** [f"{q:,.2f}"] and [f"{q:.6f}"] on a float *)
  format_2f_grouped : float -> string;
  format_6f : float -> string;
  (** [str(v)] where [v] is a float, a list or a dict *)
  py_repr : json -> string;
  (** [str] of the [HTTPError] that [raise_for_status] raises, from the
      status code and the URL *)
  http_error_str : nat -> string -> string;
  (** pydantic's reading of one field of each declared type *)
  coerce_str : json -> option string;
  coerce_int : json -> option Z;
  coerce_float : json -> option float;
  coerce_bool : json -> option bool;
  (** [str] of pydantic's [ValidationError], from the keyword arguments *)
  validation_error_str : list (string * json) -> string
}.

Section Runtime.

Variable rt : runtime.

(** A required field: absent, or of the wrong type, fails validation. *)
Definition required {A} (coerce : json -> option A) (name : string)
    (kwargs : list (string * json)) : option A :=
  opt_bind (lookup name kwargs) coerce.

Definition coerce_TokenBalance (v : json) : option TokenBalance :=
  match v with
  | JDict d =>
      opt_bind (required (coerce_str rt) "blockchain" d) (fun blockchain =>
      opt_bind (required (coerce_int rt) "chain_id" d) (fun chain_id =>
      opt_bind (required (coerce_int rt) "decimal" d) (fun decimal =>
      opt_bind (required (coerce_float rt) "quantity" d) (fun quantity =>
      opt_bind (required (coerce_str rt) "token_address" d) (fun token_address =>
      opt_bind (required (coerce_str rt) "token_name" d) (fun token_name =>
      opt_bind (required (coerce_str rt) "token_symbol" d) (fun token_symbol =>
      Some {| blockchain := blockchain; chain_id := chain_id;
              decimal := decimal; quantity := quantity;
              token_address := token_address; token_name := token_name;
              token_symbol := token_symbol |})))))))
  | _ => None
  end.

Definition coerce_Pagination (v : json) : option Pagination :=
  match v with
  | JDict d =>
      opt_bind (required (coerce_int rt) "total_items" d) (fun total_items =>
      opt_bind (required (coerce_int rt) "offset" d) (fun offset =>
      opt_bind (required (coerce_int rt) "limit" d) (fun limit =>
      opt_bind (required (coerce_bool rt) "has_next" d) (fun has_next =>
      Some {| total_items := total_items; offset := offset;
              limit := limit; has_next := has_next |}))))
  | _ => None
  end.

Definition coerce_token_list (v : json) : option (list TokenBalance) :=
  match v with
  | JList l => opt_all coerce_TokenBalance l
  | _ => None
  end.

(** The constructor called with keyword arguments [kwargs]: both fields are required; keyword
    arguments that name no field are ignored. *)
Definition new_WalletBalanceResponse (kwargs : list (string * json))
    : result WalletBalanceResponse :=
  match required coerce_token_list "token" kwargs,
        required coerce_Pagination "pagination" kwargs with
  | Some token, Some pagination =>
      Ok {| token := token; pagination := pagination |}
  | _, _ => Raise (Exn false (validation_error_str rt kwargs))
  end.

(** The constructor called on an unpacked JSON value. *)
Definition new_WalletBalanceResponse_from (v : json) : result WalletBalanceResponse :=
  match v with
  | JDict kwargs => new_WalletBalanceResponse kwargs
  | _ => Raise (builtin_error
                  ("bitscrunch.schemas.WalletBalanceResponse() argument after ** must be a mapping, not "
                   ++ type_name v))
  end.

(* ================================================================= *)
(** ** [bitscrunch/api_client.py] *)

Definition base_url : string := "https://api.unleashnfts.com/api/v1".

Definition headers : list (string * string) :=
  [("Accept", "application/json"); ("x-api-key", bitscrunch_api_key rt)].

(** [requests.get(url, headers=self.headers, params=params, timeout=...)] *)
Definition get (env : environment) (url : string) (params : list (string * json))
    (timeout : option nat) : M http_response :=
  ([HttpGet url headers params timeout], requests_get env url params timeout).

(** [response.raise_for_status()]: an [HTTPError], which is a
    [RequestException], for a status from 400 to 599. *)
Definition raise_for_status (url : string) (response : http_response) : result unit :=
  if (400 <=? status_code response)%nat && (status_code response <? 600)%nat
  then Raise (Exn true (http_error_str rt (status_code response) url))
  else Ok tt.

(** The [try] block of [get_wallet_balance] *)
Definition wallet_balance_try (env : environment) (address : string)
    (offset limit : Z) : M WalletBalanceResponse :=
  let endpoint := base_url ++ "/wallet/balance/token" in
  let params := [("address", JStr address); ("offset", JInt offset);
                 ("limit", JInt limit)] in
  response <- get env endpoint params None ;;
  _ <- lift (raise_for_status endpoint response) ;;
  data <- lift (response_json response) ;;
  lift (new_WalletBalanceResponse_from data).

Definition get_wallet_balance (env : environment) (address : string)
    (offset limit : Z) : M WalletBalanceResponse :=
  try_except (wallet_balance_try env address offset limit)
    (fun e =>
       lift (new_WalletBalanceResponse [("data", JList []); ("total_count", JInt 0)])).

(** [params = {"address": address} if "wallet" in endpoint else {}] *)
Definition wallet_params (endpoint address : string) : list (string * json) :=
  if contains "wallet" endpoint then [("address", JStr address)] else [].

(** Lines 73-84: the NFT list out of the shapes a body may have. *)
Definition nfts_of (data : json) : result json :=
  match py_in "data" data with
  | Raise e => Raise e
  | Ok true =>
      match py_getitem data "data" with
      | Raise e => Raise e
      | Ok inner =>
          if is_list inner then Ok inner
          else if is_dict inner then
            match py_in "nfts" inner with
            | Raise e => Raise e
            | Ok true => py_getitem inner "nfts"
            | Ok false =>
                match py_in "tokens" inner with
                | Raise e => Raise e
                | Ok true => py_getitem inner "tokens"
                | Ok false => Ok (JList [])
                end
            end
          else Ok (JList [])
      end
  | Ok false =>
      match py_in "nfts" data with
      | Raise e => Raise e
      | Ok true => py_getitem data "nfts"
      | Ok false => if is_list data then Ok data else Ok (JList [])
      end
  end.

Definition empty_nft_holdings (address : string) : nft_holdings :=
  {| nfts := JList []; nft_total_count := 0; nft_address := address |}.

(** The [for endpoint in endpoints_to_try] loop of [get_nft_holdings]: a
    [return] inside it ends the loop; a [RequestException] or a status
    other than 200 moves on to the next endpoint. *)
Fixpoint nft_endpoint_loop (env : environment) (address : string)
    (endpoints : list string) : M nft_holdings :=
  match endpoints with
  | [] => ret (empty_nft_holdings address)
  | endpoint :: rest =>
      attempt <-
        try_except_request
          (let params := wallet_params endpoint address in
           let url := endpoint in
           response <- get env url params (Some 10) ;;
           if (status_code response =? 200)%nat then
             data <- lift (response_json response) ;;
             nfts <- lift (nfts_of data) ;;
             n <- lift (py_len nfts) ;;
             ret (Some {| nfts := nfts; nft_total_count := n;
                          nft_address := address |})
           else ret None)
          (fun e => ret None) ;;
      match attempt with
      | Some found => ret found
      | None => nft_endpoint_loop env address rest
      end
  end.

Definition get_nft_holdings (env : environment) (address : string) : M nft_holdings :=
  try_except
    (let endpoints_to_try :=
       [ base_url ++ "/wallet/nft";
         base_url ++ "/wallet/nfts";
         base_url ++ "/nft/wallet/" ++ address;
         base_url ++ "/wallet/" ++ address ++ "/nfts" ] in
     nft_endpoint_loop env address endpoints_to_try)
    (fun e => ret (empty_nft_holdings address)).

(** Lines 138-147: the transaction list out of the shapes a body may have. *)
Definition transactions_of (data : json) : result json :=
  match py_in "data" data with
  | Raise e => Raise e
  | Ok true =>
      match py_getitem data "data" with
      | Raise e => Raise e
      | Ok inner =>
          if is_list inner then Ok inner
          else if is_dict inner then
            match py_in "transactions" inner with
            | Raise e => Raise e
            | Ok true => py_getitem inner "transactions"
            | Ok false => Ok (JList [])
            end
          else Ok (JList [])
      end
  | Ok false =>
      match py_in "transactions" data with
      | Raise e => Raise e
      | Ok true => py_getitem data "transactions"
      | Ok false => if is_list data then Ok data else Ok (JList [])
      end
  end.

Definition empty_tx_history (address : string) : tx_history :=
  {| transactions := JList []; tx_total_count := 0; tx_address := address |}.

Fixpoint tx_endpoint_loop (env : environment) (address : string)
    (endpoints : list string) : M tx_history :=
  match endpoints with
  | [] => ret (empty_tx_history address)
  | endpoint :: rest =>
      attempt <-
        try_except_request
          (let params := wallet_params endpoint address in
           let url := endpoint in
           response <- get env url params (Some 10) ;;
           if (status_code response =? 200)%nat then
             data <- lift (response_json response) ;;
             transactions <- lift (transactions_of data) ;;
             n <- lift (py_len transactions) ;;
             ret (Some {| transactions := transactions; tx_total_count := n;
                          tx_address := address |})
           else ret None)
          (fun e => ret None) ;;
      match attempt with
      | Some found => ret found
      | None => tx_endpoint_loop env address rest
      end
  end.

Definition get_transaction_history (env : environment) (address : string) : M tx_history :=
  try_except
    (let endpoints_to_try :=
       [ base_url ++ "/wallet/transactions";
         base_url ++ "/wallet/history";
         base_url ++ "/transactions/" ++ address;
         base_url ++ "/wallet/" ++ address ++ "/transactions" ] in
     tx_endpoint_loop env address endpoints_to_try)
    (fun e => ret (empty_tx_history address)).

End Runtime.

(* ================================================================= *)
(** ** [services/chat_service.py]: formatting helpers *)

(** [html_escape_table.get(c, c)] *)
Definition html_escape_table_get (c : ascii) : string :=
  if Ascii.eqb c "&" then "&amp;"
  else if Ascii.eqb c dq then "&quot;"
  else if Ascii.eqb c "'" then "&#x27;"
  else if Ascii.eqb c ">" then "&gt;"
  else if Ascii.eqb c "<" then "&lt;"
  else String c "".

(** ["".join(html_escape_table.get(c, c) for c in text)] *)
Fixpoint escape_join (text : string) : string :=
  match text with
  | "" => ""
  | String c t => html_escape_table_get c ++ escape_join t
  end.

Definition _escape_html (text : string) : string :=
  match text with
  | "" => ""
  | _ => escape_join text
  end.

Definition _truncate_address (address : string) (length : nat) : string :=
  if String.eqb address "" || (String.length address <=? length + 8)%nat
  then address
  else take length address ++ "..." ++ take_last 4 address.

Definition _format_error_message (title detail : string) : string :=
    tpl "
        <div class=`message bot-message`>
            <div class=`message-content`>
                <div class=`error-message`>
                    <h3><i class=`fas fa-exclamation-triangle`></i> "
    ++ title
    ++ "</h3>
                    <p>"
    ++ detail
    ++ tpl "</p>
                    <div style=`margin-top: 1rem;`>
                        <small>💡 <strong>Tip:</strong> Make sure you're using a valid Ethereum wallet address (0x...)</small>
                    </div>
                </div>
            </div>
        </div>
        ".

(** [s.replace(old, new)] for a non-empty [old]; [skip] counts the
    characters of a match still to be passed over. *)
Fixpoint replace_from (old new : string) (skip : nat) (s : string) : string :=
  match s with
  | "" => ""
  | String c t =>
      match skip with
      | S k => replace_from old new k t
      | 0 =>
          if startswith old s
          then new ++ replace_from old new (String.length old - 1) t
          else String c (replace_from old new 0 t)
      end
  end.

Definition replace (old new s : string) : string := replace_from old new 0 s.

(** The lazy group [(.*?)] followed by [delim], at the head of [s]: the
    shortest run without a line feed that [delim] follows. *)
Fixpoint lazy_group (delim s : string) : option string :=
  if startswith delim s then Some ""
  else
    match s with
    | "" => None
    | String c t =>
        if Ascii.eqb c lf then None
        else
          match lazy_group delim t with
          | Some g => Some (String c g)
          | None => None
          end
    end.

(** [re.sub] of the pattern [delim (.*?) delim] by [opening \1 closing],
    for a non-empty [delim] without special characters left. *)
Fixpoint re_sub_delimited (delim opening closing : string) (skip : nat)
    (s : string) : string :=
  match s with
  | "" => ""
  | String c t =>
      match skip with
      | S k => re_sub_delimited delim opening closing k t
      | 0 =>
          if startswith delim s then
            match lazy_group delim (drop (String.length delim) s) with
            | Some g =>
                opening ++ g ++ closing ++
                re_sub_delimited delim opening closing
                  (String.length delim + String.length g + String.length delim - 1) t
            | None => String c (re_sub_delimited delim opening closing 0 t)
            end
          else String c (re_sub_delimited delim opening closing 0 t)
      end
  end.

Definition _format_text_content (content : string) : string :=
  let content := replace (String lf "") "<br>"
                   (replace (String lf (String lf "")) "</p><p>" content) in
  let content := "<p>" ++ content ++ "</p>" in
  let content := re_sub_delimited "**" "<strong>" "</strong>" 0 content in
  let content := re_sub_delimited "*" "<em>" "</em>" 0 content in
  content.

Section Runtime_chat.

Variable rt : runtime.

(** [str(v)], as an f-string renders a JSON value. *)
Definition py_str (v : json) : string :=
  match v with
  | JStr s => s
  | JNull => "None"
  | JBool true => "True"
  | JBool false => "False"
  | JInt z => NilEmpty.string_of_int (Z.to_int z)
  | _ => py_repr rt v
  end.

(* ================================================================= *)
(** ** [ChatService]: token analysis *)

(** Lines 86-90: [quantity] is [float(token.quantity)], or the integer 0
    when [token.quantity] is falsy. *)
Definition quantity_display_of (q : float) : string :=
  if negb (PrimFloat.eqb q 0%float) then
    if PrimFloat.ltb 1000%float q then format_2f_grouped rt q
    else rstrip_char "." (rstrip_char "0" (format_6f rt q))
  else rstrip_char "." (rstrip_char "0" "0.000000").

(** The body of the loop of [_format_real_wallet_analysis]: one card. *)
Definition token_card (token : TokenBalance) : string :=
  let icon_text :=
    if String.eqb (token_name token) "" then "?"
    else py_upper rt (take 1 (token_name token)) in
  let quantity_display := quantity_display_of (quantity token) in
  let network :=
    if String.eqb (blockchain token) "" then "Unknown" else blockchain token in
    tpl "
                    <div class=`token-card`>
                        <div class=`token-header`>
                            <div class=`token-icon`>"
    ++ icon_text
    ++ tpl "</div>
                            <div class=`token-info`>
                                <div class=`token-name`>"
    ++ _escape_html (token_name token)
    ++ tpl "</div>
                                <span class=`token-symbol`>"
    ++ _escape_html (take 20 (token_symbol token))
    ++ tpl "...</span>
                            </div>
                        </div>
                        <div class=`token-balance`>"
    ++ quantity_display
    ++ tpl "</div>
                        <div class=`token-details`>
                            <div class=`detail-item`>
                                <div class=`detail-label`><i class=`fas fa-network-wired`></i> Network</div>
                                <div class=`detail-value`>"
    ++ py_title rt network
    ++ tpl "</div>
                            </div>
                            <div class=`detail-item`>
                                <div class=`detail-label`><i class=`fas fa-file-contract`></i> Contract</div>
                                <div class=`detail-value copy-address` onclick=`copyToClipboard('"
    ++ token_address token
    ++ tpl "')` title=`Click to copy`>
                                    "
    ++ _truncate_address (token_address token) 8
    ++ "
                                </div>
                            </div>
                        </div>
                    </div>
                    ".

(** [tokens_html] after the loop over [response.token] *)
Fixpoint token_cards (tokens : list TokenBalance) : string :=
  match tokens with
  | [] => ""
  | token :: rest => token_card token ++ token_cards rest
  end.

(** On a validated response no statement of the [try] block raises, so its
    [except] clause has nothing to catch. *)
Definition _format_real_wallet_analysis (response : WalletBalanceResponse)
    (wallet_address : string) (total_value : float) (token_count : nat) : string :=
  let tokens_html := token_cards (token response) in
    tpl "
            <div class=`message bot-message`>
                <div class=`message-content`>
                    <div class=`wallet-analysis`>
                        <h3><i class=`fas fa-wallet`></i> Wallet Analysis</h3>
                        <div class=`wallet-address`>
                            <i class=`fas fa-address-card`></i> "
    ++ wallet_address
    ++ tpl "
                        </div>
                        
                        <div class=`summary-cards`>
                            <div class=`summary-card`>
                                <i class=`fas fa-coins`></i>
                                <div class=`summary-value`>"
    ++ str_nat token_count
    ++ tpl "</div>
                                <div class=`summary-label`>Total Tokens</div>
                            </div>
                            <div class=`summary-card`>
                                <i class=`fas fa-network-wired`></i>
                                <div class=`summary-value`>Polygon</div>
                                <div class=`summary-label`>Primary Network</div>
                            </div>
                        </div>
                        
                        <h4><i class=`fas fa-list`></i> Token Holdings</h4>
                        <div class=`token-grid`>
                            "
    ++ (if String.eqb tokens_html "" then "<p>No tokens found in this wallet.</p>" else tokens_html)
    ++ tpl "
                        </div>
                        
                        <div class=`wallet-actions`>
                            <button class=`action-btn` onclick=`sendMessage('Show transaction history for "
    ++ wallet_address
    ++ tpl "')`>
                                <i class=`fas fa-history`></i> Transaction History
                            </button>
                            <button class=`action-btn` onclick=`sendMessage('Show NFT holdings for "
    ++ wallet_address
    ++ tpl "')`>
                                <i class=`fas fa-images`></i> View NFTs
                            </button>
                            <button class=`action-btn` onclick=`sendMessage('Check risks for "
    ++ wallet_address
    ++ tpl "')`>
                                <i class=`fas fa-shield-alt`></i> Security Analysis
                            </button>
                        </div>
                    </div>
                </div>
            </div>
            ".

(** The [try] block of [_handle_token_analysis] *)
Definition token_analysis_try (env : environment) (wallet_address : string)
    : M document :=
  response <- get_wallet_balance rt env wallet_address 0 10 ;;
  let total_value := 0%float in
  let token_count :=
    match token response with
    | [] => 0
    | _ => List.length (token response)
    end in
  let html_content :=
    _format_real_wallet_analysis response wallet_address total_value token_count in
  ret (Document html_content).

Definition _handle_token_analysis (env : environment) (wallet_address : string)
    : M document :=
  try_except (token_analysis_try env wallet_address)
    (fun e =>
       ret (Document (_format_error_message "Failed to fetch wallet data" (exn_str e)))).

(* ================================================================= *)
(** ** [ChatService]: NFT analysis *)

Definition result_bind {A B} (r : result A) (k : A -> result B) : result B :=
  match r with
  | Ok a => k a
  | Raise e => Raise e
  end.

(** The body of the loop of [_handle_nft_analysis]: one card. *)
Definition nft_card (nft : json) : result string :=
  result_bind (py_get nft "image_url" (JStr "https://via.placeholder.com/300x300?text=NFT"))
    (fun image_url =>
  result_bind (py_get nft "name" (JStr "NFT")) (fun alt =>
  result_bind (py_get nft "name" (JStr "Unnamed NFT")) (fun name =>
  result_bind (py_get nft "collection_name" (JStr "Unknown")) (fun collection_name =>
  result_bind (py_get nft "token_id" (JStr "N/A")) (fun token_id =>
  Ok (tpl "
                    <div class=`nft-item`>
                        <div class=`nft-image`>
                            <img src=`"
      ++ py_str image_url
      ++ tpl "` 
                                 alt=`"
      ++ py_str alt
      ++ tpl "` 
                                 onerror=`this.src='https://via.placeholder.com/300x300?text=NFT'`>
                        </div>
                        <div class=`nft-info`>
                            <h4>"
      ++ py_str name
      ++ "</h4>
                            <p><strong>Collection:</strong> "
      ++ py_str collection_name
      ++ "</p>
                            <p><strong>Token ID:</strong> "
      ++ py_str token_id
      ++ "</p>
                        </div>
                    </div>
                    ")))))).

(** [nfts_html] after the loop *)
Fixpoint nft_cards (items : list json) : result string :=
  match items with
  | [] => Ok ""
  | nft :: rest =>
      result_bind (nft_card nft) (fun card =>
      result_bind (nft_cards rest) (fun more => Ok (card ++ more)))
  end.

Definition nft_empty_document (wallet_address : string) : string :=
    tpl "
                <div class=`message bot-message`>
                    <div class=`message-content`>
                        <div class=`nft-analysis`>
                            <h3><i class=`fas fa-images`></i> NFT Holdings</h3>
                            <div class=`wallet-address`>
                                <i class=`fas fa-address-card`></i> "
    ++ wallet_address
    ++ tpl "
                            </div>
                            
                            <div class=`summary-cards`>
                                <div class=`summary-card`>
                                    <i class=`fas fa-images`></i>
                                    <div class=`summary-value`>0</div>
                                    <div class=`summary-label`>Total NFTs</div>
                                </div>
                            </div>
                            
                            <div class=`no-nfts-message`>
                                <i class=`fas fa-info-circle`></i>
                                <p>No NFTs found in this wallet on the supported networks.</p>
                                <p><small>Note: BitsCrunch API may not support all NFT endpoints yet.</small></p>
                            </div>
                            
                            <div class=`wallet-actions`>
                                <button class=`action-btn` onclick=`sendMessage('Analyze "
    ++ wallet_address
    ++ tpl "')`>
                                    <i class=`fas fa-arrow-left`></i> Back to Wallet
                                </button>
                            </div>
                        </div>
                    </div>
                </div>
                ".

Definition nft_document (wallet_address : string) (total_count : nat)
    (nfts_html : string) : string :=
    tpl "
                <div class=`message bot-message`>
                    <div class=`message-content`>
                        <div class=`nft-analysis`>
                            <h3><i class=`fas fa-images`></i> NFT Holdings</h3>
                            <div class=`wallet-address`>
                                <i class=`fas fa-address-card`></i> "
    ++ wallet_address
    ++ tpl "
                            </div>
                            
                            <div class=`summary-cards`>
                                <div class=`summary-card`>
                                    <i class=`fas fa-images`></i>
                                    <div class=`summary-value`>"
    ++ str_nat total_count
    ++ tpl "</div>
                                    <div class=`summary-label`>Total NFTs</div>
                                </div>
                            </div>
                            
                            <div class=`nft-grid`>
                                "
    ++ nfts_html
    ++ tpl "
                            </div>
                            
                            <div class=`wallet-actions`>
                                <button class=`action-btn` onclick=`sendMessage('Analyze "
    ++ wallet_address
    ++ tpl "')`>
                                    <i class=`fas fa-arrow-left`></i> Back to Wallet
                                </button>
                            </div>
                        </div>
                    </div>
                </div>
                ".

(** The [try] block of [_handle_nft_analysis] *)
Definition nft_analysis_try (env : environment) (wallet_address : string)
    : M document :=
  nft_data <- get_nft_holdings rt env wallet_address ;;
  let nfts := nfts nft_data in
  let total_count := nft_total_count nft_data in
  if negb (py_truthy nfts) then
    ret (Document (nft_empty_document wallet_address))
  else
    items <- lift (py_slice_items 12 nfts) ;;
    nfts_html <- lift (nft_cards items) ;;
    ret (Document (nft_document wallet_address total_count nfts_html)).

Definition _handle_nft_analysis (env : environment) (wallet_address : string)
    : M document :=
  try_except (nft_analysis_try env wallet_address)
    (fun e =>
       ret (Document (_format_error_message "Failed to fetch NFT data" (exn_str e)))).

(* ================================================================= *)
(** ** [ChatService]: the other handlers *)

(** The [try] block of [_handle_transaction_history] *)
Definition transaction_history_try (env : environment) (wallet_address : string)
    : M document :=
  tx_data <- get_transaction_history rt env wallet_address ;;
  let transactions := transactions tx_data in
  n <- lift (py_len transactions) ;;
  ret (Document (
      tpl "
            <div class=`message bot-message`>
                <div class=`message-content`>
                    <div class=`tx-analysis`>
                        <h3><i class=`fas fa-history`></i> Transaction History</h3>
                        <div class=`wallet-address`>
                            <i class=`fas fa-address-card`></i> "
      ++ wallet_address
      ++ tpl "
                        </div>
                        
                        <div class=`summary-cards`>
                            <div class=`summary-card`>
                                <i class=`fas fa-list`></i>
                                <div class=`summary-value`>"
      ++ str_nat n
      ++ tpl "</div>
                                <div class=`summary-label`>Transactions Found</div>
                            </div>
                        </div>
                        
                        <p><i class=`fas fa-info-circle`></i> Transaction history endpoint is not fully supported by the BitsCrunch API yet.</p>
                        
                        <div class=`wallet-actions`>
                            <button class=`action-btn` onclick=`sendMessage('Analyze "
      ++ wallet_address
      ++ tpl "')`>
                                <i class=`fas fa-arrow-left`></i> Back to Wallet
                            </button>
                        </div>
                    </div>
                </div>
            </div>
            ")).

Definition _handle_transaction_history (env : environment) (wallet_address : string)
    : M document :=
  try_except (transaction_history_try env wallet_address)
    (fun e =>
       ret (Document (_format_error_message "Failed to fetch transaction history"
                        (exn_str e)))).

(** The [try] block of [_handle_risk_assessment] *)
Definition risk_assessment_try (wallet_address : string) : M document :=
  ret (Document (
    tpl "
            <div class=`message bot-message`>
                <div class=`message-content`>
                    <div class=`risk-analysis`>
                        <h3><i class=`fas fa-shield-alt`></i> Security Risk Assessment</h3>
                        <div class=`wallet-address`>
                            <i class=`fas fa-address-card`></i> "
    ++ wallet_address
    ++ tpl "
                        </div>
                        
                        <div class=`summary-cards`>
                            <div class=`summary-card`>
                                <i class=`fas fa-shield-alt` style=`color: var(--success)`></i>
                                <div class=`summary-value` style=`color: var(--success)`>Low</div>
                                <div class=`summary-label`>Risk Level</div>
                            </div>
                        </div>
                        
                        <div class=`risk-factors`>
                            <div class=`risk-factor low-risk`>
                                <h4>Normal Activity Pattern</h4>
                                <p><strong>Risk Level:</strong> 1/10</p>
                                <p>Wallet shows normal token holding patterns with standard Polygon network activity.</p>
                            </div>
                        </div>
                        
                        <div class=`wallet-actions`>
                            <button class=`action-btn` onclick=`sendMessage('Analyze "
    ++ wallet_address
    ++ tpl "')`>
                                <i class=`fas fa-arrow-left`></i> Back to Wallet
                            </button>
                        </div>
                    </div>
                </div>
            </div>
            ")).

Definition _handle_risk_assessment (wallet_address : string) : M document :=
  try_except (risk_assessment_try wallet_address)
    (fun e =>
       ret (Document (_format_error_message "Failed to perform risk assessment"
                        (exn_str e)))).

(** The [try] block of [_handle_whale_analysis] *)
Definition whale_analysis_try (wallet_address : string) : M document :=
  ret (Document (
    tpl "
            <div class=`message bot-message`>
                <div class=`message-content`>
                    <div class=`whale-analysis`>
                        <h3><i class=`fas fa-chart-line`></i> Whale Wallet Analysis</h3>
                        <div class=`wallet-address`>
                            <i class=`fas fa-address-card`></i> "
    ++ wallet_address
    ++ tpl "
                        </div>
                        
                        <div class=`summary-cards`>
                            <div class=`summary-card`>
                                <i class=`fas fa-coins`></i>
                                <div class=`summary-value`>14.5K</div>
                                <div class=`summary-label`>MATIC Holdings</div>
                            </div>
                            <div class=`summary-card`>
                                <i class=`fas fa-star` style=`color: var(--accent)`></i>
                                <div class=`summary-value`>Medium</div>
                                <div class=`summary-label`>Whale Status</div>
                            </div>
                        </div>
                        
                        <div class=`whale-metrics`>
                            <p><strong>Analysis:</strong> Moderate holdings detected</p>
                            <p><strong>Primary Token:</strong> MATIC (Polygon)</p>
                            <p><strong>Activity Level:</strong> Standard</p>
                        </div>
                        
                        <div class=`wallet-actions`>
                            <button class=`action-btn` onclick=`sendMessage('Analyze "
    ++ wallet_address
    ++ tpl "')`>
                                <i class=`fas fa-arrow-left`></i> Back to Wallet
                            </button>
                        </div>
                    </div>
                </div>
            </div>
            ")).

Definition _handle_whale_analysis (wallet_address : string) : M document :=
  try_except (whale_analysis_try wallet_address)
    (fun e =>
       ret (Document (_format_error_message "Failed to analyze whale wallet"
                        (exn_str e)))).

(** The [try] block of [_handle_contract_verification] *)
Definition contract_verification_try (wallet_address : string) : M document :=
  ret (Document (
    tpl "
            <div class=`message bot-message`>
                <div class=`message-content`>
                    <div class=`contract-verification`>
                        <h3><i class=`fas fa-file-contract`></i> Contract Verification</h3>
                        <div class=`wallet-address`>
                            <i class=`fas fa-address-card`></i> "
    ++ wallet_address
    ++ tpl "
                        </div>
                        
                        <div class=`summary-cards`>
                            <div class=`summary-card`>
                                <i class=`fas fa-wallet` style=`color: var(--success)`></i>
                                <div class=`summary-value`>Wallet</div>
                                <div class=`summary-label`>Address Type</div>
                            </div>
                        </div>
                        
                        <div class=`verification-details`>
                            <p><strong>Type:</strong> Externally Owned Account (EOA)</p>
                            <p><strong>Status:</strong> Standard Wallet Address</p>
                            <p><strong>Network:</strong> Multi-chain (Polygon)</p>
                        </div>
                        
                        <div class=`wallet-actions`>
                            <button class=`action-btn` onclick=`sendMessage('Analyze "
    ++ wallet_address
    ++ tpl "')`>
                                <i class=`fas fa-arrow-left`></i> Back to Wallet
                            </button>
                        </div>
                    </div>
                </div>
            </div>
            ")).

Definition _handle_contract_verification (wallet_address : string) : M document :=
  try_except (contract_verification_try wallet_address)
    (fun e =>
       ret (Document (_format_error_message "Failed to verify contract" (exn_str e)))).

Definition current_model : string := "llama3-70b-8192".

Definition system_prompt : string :=
  "You are Wallet Genius, an AI assistant specialized in blockchain wallet analysis. 
            You help users analyze Ethereum wallets, NFT collections, transaction patterns, and security risks.
            Be helpful, informative, and encourage users to provide wallet addresses for analysis.".

(** [self.client.chat.completions.create(messages=[system, user], model=...)]
    and then [completion.choices[0].message.content] *)
Definition create_completion (env : environment) (model system user : string)
    : M (option string) :=
  ([ChatCompletion model system user], chat_completions_create env model system user).

(** The [try] block of [_handle_general_query] *)
Definition general_query_try (env : environment) (message : string) : M document :=
  content <- create_completion env current_model system_prompt message ;;
  text <- lift (match content with
                | Some content => Ok (_format_text_content content)
                | None => Raise (builtin_error
                                   "'NoneType' object has no attribute 'replace'")
                end) ;;
  ret (Document (
      tpl "
            <div class=`message bot-message`>
                <div class=`message-content`>
                    <div class=`general-response`>
                        <i class=`fas fa-robot`></i>
                        <div class=`response-text`>"
      ++ text
      ++ "</div>
                    </div>
                </div>
            </div>
            ")).

Definition _handle_general_query (env : environment) (message : string) : M document :=
  try_except (general_query_try env message)
    (fun e =>
       ret (Document (_format_error_message "Failed to process your request"
                        (exn_str e)))).

(* ================================================================= *)
(** ** [ChatService]: routing *)

Inductive Intent : Type :=
| TokenAnalysis
| NftAnalysis
| TransactionHistory
| RiskAssessment
| WhaleAnalysis
| ContractVerification.

(** The handler each branch of [_handle_wallet_query] calls. *)
Definition handle (env : environment) (intent : Intent) (wallet_address : string)
    : M document :=
  match intent with
  | TokenAnalysis => _handle_token_analysis env wallet_address
  | NftAnalysis => _handle_nft_analysis env wallet_address
  | TransactionHistory => _handle_transaction_history env wallet_address
  | RiskAssessment => _handle_risk_assessment wallet_address
  | WhaleAnalysis => _handle_whale_analysis wallet_address
  | ContractVerification => _handle_contract_verification wallet_address
  end.

(** The [if]/[elif] chain of [_handle_wallet_query], each branch named by
    the intent it serves. *)
Definition wallet_query_intent (message_lower : string) : Intent :=
  if any_keyword_in ["analyze"; "show all tokens"; "token"; "balance"] message_lower
  then TokenAnalysis
  else if any_keyword_in ["nft"; "collection"; "show nft"] message_lower
  then NftAnalysis
  else if any_keyword_in ["history"; "transaction"; "tx"] message_lower
  then TransactionHistory
  else if any_keyword_in ["risk"; "security"; "check risks"] message_lower
  then RiskAssessment
  else if any_keyword_in ["whale"; "analyze whale"] message_lower
  then WhaleAnalysis
  else if any_keyword_in ["verify"; "contract"] message_lower
  then ContractVerification
  else TokenAnalysis.

Definition _handle_wallet_query (env : environment) (message wallet_address : string)
    : M document :=
  let message_lower := lower message in
  handle env (wallet_query_intent message_lower) wallet_address.

(** The [try] block of [generate_response] *)
Definition generate_response_try (env : environment) (message : string) : M document :=
  match _extract_wallet_address message with
  | Some wallet_address =>
      if negb (String.eqb wallet_address "")
         && is_valid_wallet_address wallet_address
      then _handle_wallet_query env message wallet_address
      else _handle_general_query env message
  | None => _handle_general_query env message
  end.

Definition generate_response (env : environment) (message : string) : M document :=
  try_except (generate_response_try env message)
    (fun e =>
       ret (Document (_format_error_message "Error Processing Request" (exn_str e)))).

End Runtime_chat.

(* ================================================================= *)
(** ** The classifier as the specification words it *)

(** The keyword sets in their order of precedence, each with its intent. *)
Definition precedence : list (list string * Intent) :=
  [ (["analyze"; "show all tokens"; "token"; "balance"], TokenAnalysis);
    (["nft"; "collection"; "show nft"], NftAnalysis);
    (["history"; "transaction"; "tx"], TransactionHistory);
    (["risk"; "security"; "check risks"], RiskAssessment);
    (["whale"; "analyze whale"], WhaleAnalysis);
    (["verify"; "contract"], ContractVerification) ].

(** [keyword] is a substring of [s]. *)
Definition occurs (keyword s : string) : Prop :=
  exists pre post, s = pre ++ keyword ++ post.

(** A keyword set matches a message when one of its keywords occurs in it. *)
Definition set_matches (keywords : list string) (s : string) : Prop :=
  exists keyword, In keyword keywords /\ occurs keyword s.

(** The first set of the table that matches wins; none: the default. *)
Fixpoint first_match (table : list (list string * Intent)) (s : string) : Intent :=
  match table with
  | [] => TokenAnalysis
  | (keywords, intent) :: rest =>
      if any_keyword_in keywords s then intent else first_match rest s
  end.

(* ================================================================= *)
(** ** Observations on documents and traces *)

(** The number of positions of [s] at which [needle] starts. *)
Fixpoint count_occurrences (needle s : string) : nat :=
  (if startswith needle s then 1 else 0) +
  match s with
  | "" => 0
  | String _ t => count_occurrences needle t
  end.

(** The opening tags of a token card and of an NFT card. *)
Definition token_card_tag : string := tpl "<div class=`token-card`>".
Definition nft_card_tag : string := tpl "<div class=`nft-item`>".

Definition call_timeout (c : call) : option nat :=
  match c with
  | HttpGet _ _ _ timeout => timeout
  | ChatCompletion _ _ _ => None
  end.

Definition is_http_get (c : call) : bool :=
  match c with
  | HttpGet _ _ _ _ => true
  | ChatCompletion _ _ _ => false
  end.

Definition is_chat_completion (c : call) : bool := negb (is_http_get c).

(** The document an [except] clause of the chat service returns. *)
Definition error_document (title : string) (e : exn) : document :=
  Document (_format_error_message title (exn_str e)).

Definition http_get_call (c : call) : Prop := is_http_get c = true.

(** Every call a computation makes satisfies [P]. *)
Definition all_calls (P : call -> Prop) {A} (m : M A) : Prop := Forall P (trace m).

(** A GET made with a timeout of ten. *)
Definition get_with_timeout_10 (c : call) : Prop :=
  exists url hs params, c = HttpGet url hs params (Some 10).

(** The one call of the balance fetch. *)
Definition balance_call (rt : runtime) (address : string) (offset limit : Z) : call :=
  HttpGet (base_url ++ "/wallet/balance/token") (headers rt)
    [("address", JStr address); ("offset", JInt offset); ("limit", JInt limit)]
    None.

(** The keyword arguments of the constructor call in the [except] clause of
    [get_wallet_balance], and the exception that call raises. *)
Definition fallback_kwargs : list (string * json) :=
  [("data", JList []); ("total_count", JInt 0)].

Definition fallback_error (rt : runtime) : exn :=
  Exn false (validation_error_str rt fallback_kwargs).

(* ================================================================= *)
(** ** A runtime and environments to run examples on *)

Definition ascii_upper_char (c : ascii) : ascii :=
  if in_range 97 122 c then ascii_of_nat (code c - 32) else c.

Definition ascii_is_letter (c : ascii) : bool :=
  in_range 65 90 c || in_range 97 122 c.

Fixpoint ascii_upper (s : string) : string :=
  match s with
  | "" => ""
  | String c t => String (ascii_upper_char c) (ascii_upper t)
  end.

(** [str.title] on ASCII text: a letter that follows a letter is lowered,
    any other letter is raised. *)
Fixpoint ascii_title_from (after_letter : bool) (s : string) : string :=
  match s with
  | "" => ""
  | String c t =>
      String (if after_letter then lower_char c else ascii_upper_char c)
             (ascii_title_from (ascii_is_letter c) t)
  end.

(** An instance of the runtime: ASCII case mapping; each field read from the
    JSON value of its own type.  The examples hold zero quantities only, so
    the float formats are never reached. *)
Definition sample_runtime : runtime :=
  {| bitscrunch_api_key := "test-key";
     py_upper := ascii_upper;
     py_title := ascii_title_from false;
     format_2f_grouped := fun _ => "";
     format_6f := fun _ => "";
     py_repr := fun _ => "";
     http_error_str := fun status url =>
       str_nat status ++ " Server Error for url: " ++ url;
     coerce_str := fun v => match v with JStr s => Some s | _ => None end;
     coerce_int := fun v => match v with JInt z => Some z | _ => None end;
     coerce_float := fun v =>
       match v with JFloat f => Some f | _ => None end;
     coerce_bool := fun v => match v with JBool b => Some b | _ => None end;
     validation_error_str := fun _ =>
       "2 validation errors for WalletBalanceResponse" |}.

(** The completion provider of the examples answers every message alike. *)
Definition sample_completion (model system user : string) : result (option string) :=
  Ok (Some "Hello").

(** The data provider answers every request with status 500 and a JSON
    error body. *)
Definition upstream_500 : environment :=
  {| requests_get := fun _ _ _ =>
       Ok (Response 500 (Ok (JDict [("error", JStr "internal")])));
     chat_completions_create := sample_completion |}.

Definition sample_address : string := "0x9656911585799e7129668a1e79a0C8b43dbB7EA9".

(** The data provider answers every request with status 200 and one NFT
    whose name is a script tag. *)
Definition script_nft : json := JDict [("name", JStr "<script>")].

Definition upstream_script_nft : environment :=
  {| requests_get := fun _ _ _ =>
       Ok (Response 200 (Ok (JDict [("data", JList [script_nft])])));
     chat_completions_create := sample_completion |}.

Definition sample_token : json :=
  JDict [ ("blockchain", JStr "polygon"); ("chain_id", JInt 137);
          ("decimal", JInt 18); ("quantity", JFloat 0%float);
          ("token_address", JStr "0x0000000000000000000000000000000000001010");
          ("token_name", JStr "Matic");
          ("token_symbol", JStr "MATIC") ].

Definition sample_pagination : json :=
  JDict [ ("total_items", JInt 11); ("offset", JInt 0); ("limit", JInt 10);
          ("has_next", JBool true) ].

(** The data provider answers the balance request with eleven tokens. *)
Definition upstream_eleven_tokens : environment :=
  {| requests_get := fun _ _ _ =>
       Ok (Response 200
             (Ok (JDict [ ("token", JList (repeat sample_token 11));
                          ("pagination", sample_pagination) ])));
     chat_completions_create := sample_completion |}.


(* ================================================================= *)
(** * The rest of the gateway and of the data processor *)

From Stdlib Require Import Uint63.

(** ** [bitscrunch/api_client.py]: the pass-through fetches *)

Section Gateway_passthrough.

Variable rt : runtime.

(** The [for endpoint in endpoints_to_try] loop that [get_risk_assessment],
    [get_whale_analysis] and [verify_contract] each write out, the same
    statement for statement but for [marker], the text whose presence in the
    endpoint decides whether the address goes into the query parameters.
    The value is the body of the first reply with status 200, if any. *)
Fixpoint passthrough_loop (env : environment) (marker address : string)
    (endpoints : list string) : M (option json) :=
  match endpoints with
  | [] => ret None
  | endpoint :: rest =>
      attempt <-
        try_except_request
          (let params :=
             if contains marker endpoint then [("address", JStr address)] else [] in
           let url := endpoint in
           response <- get rt env url params (Some 10) ;;
           if (status_code response =? 200)%nat then
             data <- lift (response_json response) ;;
             ret (Some data)
           else ret None)
          (fun e => ret None) ;;
      match attempt with
      | Some data => ret (Some data)
      | None => passthrough_loop env marker address rest
      end
  end.

Definition risk_endpoints (address : string) : list string :=
  [ base_url ++ "/wallet/risk";
    base_url ++ "/security/" ++ address;
    base_url ++ "/wallet/" ++ address ++ "/risk" ].

(** The dict returned when no endpoint answered with status 200. *)
Definition risk_unavailable : json :=
  JDict [ ("overall_risk_score", JFloat 1%float);
          ("risk_level", JStr "Low");
          ("factors",
           JList [ JDict [ ("name", JStr "API Analysis Unavailable");
                           ("risk_level", JInt 1);
                           ("description",
                            JStr "Unable to fetch detailed risk analysis from API") ] ]) ].

(** The dict returned by the outer [except] clause. *)
Definition risk_error : json :=
  JDict [ ("overall_risk_score", JInt 0);
          ("risk_level", JStr "Unknown");
          ("factors", JList []) ].

Definition get_risk_assessment (env : environment) (address : string) : M json :=
  try_except
    (found <- passthrough_loop env "wallet" address (risk_endpoints address) ;;
     match found with
     | Some data => ret data
     | None => ret risk_unavailable
     end)
    (fun e => ret risk_error).

Definition whale_endpoints (address : string) : list string :=
  [ base_url ++ "/wallet/whale";
    base_url ++ "/analytics/" ++ address;
    base_url ++ "/wallet/" ++ address ++ "/analytics" ].

(** Returned both when no endpoint answered with status 200 and by the
    outer [except] clause. *)
Definition whale_unavailable : json :=
  JDict [ ("total_value", JFloat 0%float);
          ("diversity_score", JInt 0);
          ("activity_level", JStr "Unknown");
          ("is_whale", JBool false) ].

Definition get_whale_analysis (env : environment) (address : string) : M json :=
  try_except
    (found <- passthrough_loop env "wallet" address (whale_endpoints address) ;;
     match found with
     | Some data => ret data
     | None => ret whale_unavailable
     end)
    (fun e => ret whale_unavailable).

Definition contract_endpoints (address : string) : list string :=
  [ base_url ++ "/contract/verify";
    base_url ++ "/security/contract/" ++ address;
    base_url ++ "/contract/" ++ address ++ "/verify" ].

Definition contract_unavailable : json :=
  JDict [ ("status", JStr "Unknown");
          ("verified", JBool false);
          ("audit_status", JStr "Not Available") ].

Definition contract_error : json :=
  JDict [ ("status", JStr "Error");
          ("verified", JBool false);
          ("audit_status", JStr "Error") ].

Definition verify_contract (env : environment) (address : string) : M json :=
  try_except
    (found <- passthrough_loop env "contract/verify" address
                (contract_endpoints address) ;;
     match found with
     | Some data => ret data
     | None => ret contract_unavailable
     end)
    (fun e => ret contract_error).

(** The GET that the loops of [get_nft_holdings] and
    [get_transaction_history] make for [endpoint]. *)
Definition wallet_call (address endpoint : string) : call :=
  HttpGet endpoint (headers rt) (wallet_params endpoint address) (Some 10).

(** The GET that [passthrough_loop] makes for [endpoint]. *)
Definition passthrough_call (marker address endpoint : string) : call :=
  HttpGet endpoint (headers rt)
    (if contains marker endpoint then [("address", JStr address)] else [])
    (Some 10).

End Gateway_passthrough.

(** The endpoint lists of [get_nft_holdings] and [get_transaction_history]. *)
Definition nft_endpoints (address : string) : list string :=
  [ base_url ++ "/wallet/nft";
    base_url ++ "/wallet/nfts";
    base_url ++ "/nft/wallet/" ++ address;
    base_url ++ "/wallet/" ++ address ++ "/nfts" ].

Definition tx_endpoints (address : string) : list string :=
  [ base_url ++ "/wallet/transactions";
    base_url ++ "/wallet/history";
    base_url ++ "/transactions/" ++ address;
    base_url ++ "/wallet/" ++ address ++ "/transactions" ].

(** The data provider does not serve [url]: the request raises a
    [RequestException], or the reply has a status other than 200. *)
Definition unserved (env : environment) (url : string) : Prop :=
  forall params timeout,
    match requests_get env url params timeout with
    | Ok response => status_code response <> 200
    | Raise e => is_request_exception e = true
    end.

(* ================================================================= *)
(** ** [services/data_processor.py] *)

(** [str(z)] for an [int] *)
Definition str_int (z : Z) : string := NilEmpty.string_of_int (Z.to_int z).

(** [self.supported_networks] *)
Definition supported_networks : list (string * Z) :=
  [ ("ethereum", 1); ("polygon", 137); ("bsc", 56); ("arbitrum", 42161);
    ("optimism", 10) ]%Z.

(** The table [network_names] of [format_network_name] *)
Definition network_names : list (Z * string) :=
  [ (1, "Ethereum"); (137, "Polygon"); (56, "BSC"); (42161, "Arbitrum");
    (10, "Optimism") ]%Z.

Fixpoint lookup_int (key : Z) (d : list (Z * string)) : option string :=
  match d with
  | [] => None
  | (k, v) :: d' => if Z.eqb k key then Some v else lookup_int key d'
  end.

Definition format_network_name (network_id : Z) : string :=
  match lookup_int network_id network_names with
  | Some name => name
  | None => "Chain " ++ str_int network_id
  end.

Definition _get_risk_level (score : Z) : string :=
  if (score <=? 2)%Z then "Low"
  else if (score <=? 5)%Z then "Medium"
  else if (score <=? 7)%Z then "High"
  else "Very High".

(** [v > n] for an [int] constant [n] that a float holds exactly: defined
    on [int], [bool] and [float]; a [TypeError] on anything else. *)
Definition py_gt (v : json) (n : Z) : result bool :=
  match v with
  | JInt z => Ok (n <? z)%Z
  | JBool b => Ok (n <? Z.b2z b)%Z
  | JFloat f => Ok (PrimFloat.ltb (PrimFloat.of_uint63 (Uint63.of_Z n)) f)
  | _ => Raise (builtin_error
                  ("'>' not supported between instances of '" ++ type_name v
                   ++ "' and 'int'"))
  end.

(** [d.get(key, default)] on a dict *)
Definition dict_get (d : list (string * json)) (key : string) (default : json) : json :=
  match lookup key d with
  | Some v => v
  | None => default
  end.

(** The dict [calculate_risk_score] returns. *)
Record risk_report : Type := {
  risk_score : Z;
  risk_level : string;
  risk_factors : list string
}.

Definition calculate_risk_score (wallet_data : list (string * json))
    : result risk_report :=
  let risk_score := 0%Z in
  let risk_factors : list string := [] in
  let tx_count := dict_get wallet_data "transaction_count" (JInt 0) in
  result_bind (py_gt tx_count 10000) (fun very_high =>
  result_bind (if very_high then Ok false else py_gt tx_count 1000) (fun high =>
  let '(risk_score, risk_factors) :=
    if very_high
    then ((risk_score + 2)%Z, (risk_factors ++ ["Very high transaction volume"])%list)
    else if high
    then ((risk_score + 1)%Z, (risk_factors ++ ["High transaction volume"])%list)
    else (risk_score, risk_factors) in
  let balance := dict_get wallet_data "total_balance" (JInt 0) in
  result_bind (py_gt balance 1000000) (fun very_large =>
  result_bind (if very_large then Ok false else py_gt balance 100000) (fun large =>
  let '(risk_score, risk_factors) :=
    if very_large
    then ((risk_score + 3)%Z,
          (risk_factors ++ ["Very large balance - whale wallet"])%list)
    else if large
    then ((risk_score + 2)%Z, (risk_factors ++ ["Large balance"])%list)
    else (risk_score, risk_factors) in
  let token_count := dict_get wallet_data "token_count" (JInt 0) in
  result_bind (py_gt token_count 100) (fun many =>
  let '(risk_score, risk_factors) :=
    if many
    then ((risk_score + 1)%Z, (risk_factors ++ ["Many different tokens"])%list)
    else (risk_score, risk_factors) in
  Ok {| risk_score := Z.min risk_score 10;
        risk_level := _get_risk_level risk_score;
        risk_factors := risk_factors |}))))).

(** [balance] is a float; [address] is not looked at. *)
Definition detect_wallet_type (address : string) (transaction_count : Z)
    (balance : float) : string :=
  if (10000 <? transaction_count)%Z then "High Activity Wallet"
  else if PrimFloat.ltb 100000%float balance then "Whale Wallet"
  else if (1000 <? transaction_count)%Z then "Active Trader"
  else if (100 <? transaction_count)%Z then "Regular User"
  else if (10 <? transaction_count)%Z then "Casual User"
  else if (0 <? transaction_count)%Z then "New User"
  else "Inactive Wallet".

(** A token dict as [format_wallet_balance] builds it, its values strings
    ([decimals] an [int]). *)
Record token_data : Type := {
  symbol : string;
  name : string;
  balance : string;
  usd_value : string;
  contract_address : string;
  network : string;
  decimals : Z
}.

Section Data_processor_html.

Variable rt : runtime.

(** [float(s)] on a string: [None] stands for the [ValueError]. *)
Variable py_float : string -> option float.

(** [0.01] is the double nearest to one hundredth, as in Python. *)
#[warnings="-inexact-float"]
Definition _format_usd_value (usd_value : string) : string :=
  if String.eqb usd_value "" || String.eqb usd_value "0" then "$0.00"
  else
    match py_float usd_value with
    | Some value =>
        if PrimFloat.ltb value 0.01%float
        then rstrip_char "." (rstrip_char "0" ("$" ++ format_6f rt value))
        else "$" ++ format_2f_grouped rt value
    | None => "$0.00"
    end.

(** The body of the loop of [_generate_wallet_html]: one card. *)
Definition wallet_html_card (token : token_data) : string :=
  let icon_text :=
    if String.eqb (symbol token) "" then "?"
    else py_upper rt (take 1 (symbol token)) in
  let usd_display := _format_usd_value (usd_value token) in
    tpl "
            <div class=`token-card`>
                <div class=`token-header`>
                    <div class=`token-icon`>"
    ++ icon_text
    ++ tpl "</div>
                    <div class=`token-info`>
                        <div class=`token-name`>"
    ++ _escape_html (name token)
    ++ tpl "</div>
                        <span class=`token-symbol`>"
    ++ _escape_html (symbol token)
    ++ tpl "</span>
                    </div>
                </div>
                <div class=`token-balance`>"
    ++ balance token
    ++ tpl "</div>
                <div class=`token-usd-value`>"
    ++ usd_display
    ++ tpl "</div>
                <div class=`token-details`>
                    <div class=`detail-item`>
                        <div class=`detail-label`><i class=`fas fa-network-wired`></i> Network</div>
                        <div class=`detail-value`>"
    ++ py_title rt (network token)
    ++ tpl "</div>
                    </div>
                    <div class=`detail-item`>
                        <div class=`detail-label`><i class=`fas fa-file-contract`></i> Contract</div>
                        <div class=`detail-value copy-address` onclick=`copyToClipboard('"
    ++ contract_address token
    ++ tpl "')` title=`Click to copy`>
                            "
    ++ _truncate_address (contract_address token) 8
    ++ "
                        </div>
                    </div>
                </div>
            </div>
            ".

(** [tokens_html] after the loop over its argument *)
Fixpoint wallet_html_cards (tokens : list token_data) : string :=
  match tokens with
  | [] => ""
  | token :: rest => wallet_html_card token ++ wallet_html_cards rest
  end.

(** The f-string that [_generate_wallet_html] returns. *)
Definition wallet_html_document (wallet_address : string) (token_count : nat)
    (total_value : float) (tokens_html : string) : string :=
    tpl "
        <div class=`wallet-analysis`>
            <h3><i class=`fas fa-wallet`></i> Wallet Analysis</h3>
            <div class=`wallet-address`>
                <i class=`fas fa-address-card`></i> "
    ++ wallet_address
    ++ tpl "
            </div>
            
            <div class=`summary-cards`>
                <div class=`summary-card`>
                    <i class=`fas fa-coins`></i>
                    <div class=`summary-value`>"
    ++ str_nat token_count
    ++ tpl "</div>
                    <div class=`summary-label`>Total Tokens</div>
                </div>
                <div class=`summary-card`>
                    <i class=`fas fa-dollar-sign`></i>
                    <div class=`summary-value`>$"
    ++ format_2f_grouped rt total_value
    ++ tpl "</div>
                    <div class=`summary-label`>Estimated Value</div>
                </div>
            </div>
            
            <h4><i class=`fas fa-list`></i> Token Holdings</h4>
            <div class=`token-grid`>
                "
    ++ (if String.eqb tokens_html "" then "<p>No tokens found in this wallet.</p>" else tokens_html)
    ++ tpl "
            </div>
            
            <div class=`wallet-actions`>
                <button class=`action-btn` onclick=`sendMessage('Show transaction history for "
    ++ wallet_address
    ++ tpl "')`>
                    <i class=`fas fa-history`></i> Transaction History
                </button>
                <button class=`action-btn` onclick=`sendMessage('Show NFT holdings for "
    ++ wallet_address
    ++ tpl "')`>
                    <i class=`fas fa-images`></i> View NFTs
                </button>
                <button class=`action-btn` onclick=`sendMessage('Check risks for "
    ++ wallet_address
    ++ tpl "')`>
                    <i class=`fas fa-shield-alt`></i> Security Analysis
                </button>
            </div>
        </div>
        ".

Definition _generate_wallet_html (tokens : list token_data) (wallet_address : string)
    (total_value : float) : string :=
  let token_count := List.length tokens in
  let tokens_html := wallet_html_cards (firstn 10 tokens) in
  wallet_html_document wallet_address token_count total_value tokens_html.

End Data_processor_html.

(* ================================================================= *)
(** ** Vocabulary of the further properties *)

(** The five characters of [html_escape_table]. *)
Definition html_special (c : ascii) : Prop :=
  c = "&"%char \/ c = dq \/ c = "'"%char \/ c = ">"%char \/ c = "<"%char.

(** [c] does not occur in [s]. *)
Definition free_of (c : ascii) (s : string) : Prop :=
  ~ In c (list_ascii_of_string s).

(** Every character of [s] is white space. *)
Definition all_space (s : string) : Prop :=
  Forall (fun c => isspace c = true) (list_ascii_of_string s).

(** [p] is a prefix of [s]. *)
Definition prefix_of (p s : string) : Prop := exists t, s = p ++ t.

(** The order of the risk levels. *)
Definition risk_level_rank (level : string) : nat :=
  if String.eqb level "Low" then 0
  else if String.eqb level "Medium" then 1
  else if String.eqb level "High" then 2
  else 3.


(** ** One turn of a fetch loop, as a value *)

(** One turn of the loop of [get_nft_holdings], as a value: what the inner
    [try] statement comes to for one endpoint. *)
Definition nft_attempt_of (address : string) (reply : result http_response)
    : result (option nft_holdings) :=
  match reply with
  | Raise e => if is_request_exception e then Ok None else Raise e
  | Ok response =>
      if (status_code response =? 200)%nat then
        match response_json response with
        | Raise e => if is_request_exception e then Ok None else Raise e
        | Ok data =>
            match nfts_of data with
            | Raise e => Raise e
            | Ok v =>
                match py_len v with
                | Raise e => Raise e
                | Ok n => Ok (Some {| nfts := v; nft_total_count := n;
                                      nft_address := address |})
                end
            end
        end
      else Ok None
  end.

(** The same for [get_transaction_history]. *)
Definition tx_attempt_of (address : string) (reply : result http_response)
    : result (option tx_history) :=
  match reply with
  | Raise e => if is_request_exception e then Ok None else Raise e
  | Ok response =>
      if (status_code response =? 200)%nat then
        match response_json response with
        | Raise e => if is_request_exception e then Ok None else Raise e
        | Ok data =>
            match transactions_of data with
            | Raise e => Raise e
            | Ok v =>
                match py_len v with
                | Raise e => Raise e
                | Ok n => Ok (Some {| transactions := v; tx_total_count := n;
                                      tx_address := address |})
                end
            end
        end
      else Ok None
  end.

(** The same for the loop of the pass-through fetches. *)
Definition passthrough_attempt_of (reply : result http_response)
    : result (option json) :=
  match reply with
  | Raise e => if is_request_exception e then Ok None else Raise e
  | Ok response =>
      if (status_code response =? 200)%nat then
        match response_json response with
        | Raise e => if is_request_exception e then Ok None else Raise e
        | Ok data => Ok (Some data)
        end
      else Ok None
  end.

(** [params] of the pass-through loop for [endpoint] *)
Definition passthrough_params (marker address endpoint : string)
    : list (string * json) :=
  if contains marker endpoint then [("address", JStr address)] else [].

(** The frame of the general reply, around the formatted completion text
    (the f-string of [_handle_general_query]). *)
Definition general_response_document (text : string) : string :=
    tpl "
            <div class=`message bot-message`>
                <div class=`message-content`>
                    <div class=`general-response`>
                        <i class=`fas fa-robot`></i>
                        <div class=`response-text`>"
    ++ text
    ++ "</div>
                    </div>
                </div>
            </div>
            ".
(* ================================================================= *)
(** * Properties *)

(** ** Strings *)

Lemma append_nil_r (s : string) : s ++ "" = s.
Proof. induction s as [|c s IH]; simpl; [reflexivity | now rewrite IH]. Qed.

Lemma append_assoc (a b c : string) : (a ++ b) ++ c = a ++ b ++ c.
Proof. induction a as [|x a IH]; simpl; [reflexivity | now rewrite IH]. Qed.

Lemma length_append (a b : string) :
  String.length (a ++ b) = String.length a + String.length b.
Proof. induction a as [|x a IH]; simpl; [reflexivity | now rewrite IH]. Qed.

Lemma append_cancel_l (a b c : string) : a ++ b = a ++ c -> b = c.
Proof.
  induction a as [|x a IH]; simpl; intros H; [exact H | apply IH; congruence].
Qed.

(** Two splits of one string at the same length agree. *)
Lemma append_split_eq (a b c d : string) :
  a ++ b = c ++ d -> String.length a = String.length c -> a = c /\ b = d.
Proof.
  revert c; induction a as [|x a IH]; intros [|y c]; simpl; intros H L;
    try discriminate.
  - auto.
  - injection H as -> H. destruct (IH c H) as [-> ->]; [lia | auto].
Qed.

Lemma startswith_iff (p s : string) :
  startswith p s = true <-> exists t, s = p ++ t.
Proof.
  revert s; induction p as [|a p IH]; intros s; simpl.
  - split; [intros _; now exists s | reflexivity].
  - destruct s as [|b s].
    + split; [discriminate | intros [t H]; discriminate].
    + rewrite andb_true_iff, Ascii.eqb_eq, IH. split.
      * intros [-> [t ->]]. now exists t.
      * intros [t H]. injection H as -> ->. split; [reflexivity | now exists t].
Qed.

Lemma contains_iff (needle s : string) :
  contains needle s = true <-> occurs needle s.
Proof.
  unfold occurs. induction s as [|c s IH]; simpl.
  - rewrite orb_false_r, startswith_iff. split.
    + intros [t H]. exists "", t. exact H.
    + intros [[|x pre] [post H]]; [now exists post | discriminate].
  - rewrite orb_true_iff, startswith_iff, IH. split.
    + intros [[t H] | [pre [post H]]].
      * exists "", t. exact H.
      * exists (String c pre), post. simpl. now rewrite H.
    + intros [[|x pre] [post H]].
      * left. now exists post.
      * right. injection H as _ H. now exists pre, post.
Qed.

Lemma any_keyword_in_iff (keywords : list string) (s : string) :
  any_keyword_in keywords s = true <-> set_matches keywords s.
Proof.
  unfold any_keyword_in, set_matches. rewrite existsb_exists.
  split; intros [k [Hin H]]; exists k; split; auto; now apply contains_iff.
Qed.

(** ** The character class and the two patterns *)

Lemma hex_class_iff (c : ascii) : hex_class c = true <-> hex_digit c.
Proof.
  unfold hex_digit.
  destruct c as [[] [] [] [] [] [] [] []]; vm_compute;
    (split; [ intros H; first [ discriminate H | tauto ]
            | intros H; first [ reflexivity | intuition discriminate ] ]).
Qed.

Lemma match_hex_sound (n : nat) : forall s h rest,
  match_hex n s = Some (h, rest) ->
  s = h ++ rest /\ String.length h = n /\ Forall hex_digit (list_ascii_of_string h).
Proof.
  induction n as [|n IH]; intros s h rest; simpl.
  - intros H. injection H as <- <-. repeat split; constructor.
  - destruct s as [|c t]; [discriminate|].
    destruct (hex_class c) eqn:Hc; [|discriminate].
    destruct (match_hex n t) as [[h' r']|] eqn:Hm; [|discriminate].
    intros H. injection H as <- <-.
    destruct (IH _ _ _ Hm) as (-> & Hl & Hf).
    repeat split; simpl; [now rewrite Hl | constructor; [now apply hex_class_iff | exact Hf]].
Qed.

Lemma match_hex_complete (h : string) : forall rest,
  Forall hex_digit (list_ascii_of_string h) ->
  match_hex (String.length h) (h ++ rest) = Some (h, rest).
Proof.
  induction h as [|c h IH]; intros rest Hf; simpl; [reflexivity|].
  simpl in Hf. inversion Hf as [|? ? Hc Hf']; subst.
  apply hex_class_iff in Hc. rewrite Hc, (IH rest Hf'). reflexivity.
Qed.

Lemma match_eth_sound (s a rest : string) :
  match_eth s = Some (a, rest) -> s = a ++ rest /\ eth_address a.
Proof.
  unfold match_eth.
  destruct s as [|c0 [|c1 t]]; try discriminate.
  - destruct c0 as [[] [] [] [] [] [] [] []]; discriminate.
  - destruct (Ascii.eqb_spec c0 "0") as [->|N0].
    2:{ destruct c0 as [[] [] [] [] [] [] [] []]; try discriminate; now elim N0. }
    destruct (Ascii.eqb_spec c1 "x") as [->|N1].
    2:{ destruct c1 as [[] [] [] [] [] [] [] []]; try discriminate; now elim N1. }
    destruct (match_hex 40 t) as [[h r]|] eqn:Hm; [|discriminate].
    intros H. injection H as <- <-.
    destruct (match_hex_sound _ _ _ _ Hm) as (-> & Hl & Hf).
    split; [reflexivity | now exists h].
Qed.

Lemma match_eth_complete (a rest : string) :
  eth_address a -> match_eth (a ++ rest) = Some (a, rest).
Proof.
  intros (h & -> & Hl & Hf).
  pose proof (match_hex_complete h rest Hf) as E. rewrite Hl in E.
  change (("0x" ++ h) ++ rest) with (String "0" (String "x" (h ++ rest))).
  unfold match_eth. rewrite E. reflexivity.
Qed.

Lemma eth_address_length (a : string) : eth_address a -> String.length a = 42.
Proof. intros (h & -> & Hl & _). simpl. now rewrite Hl. Qed.

Lemma eth_address_head (a : string) :
  eth_address a -> exists t, a = String "0" t.
Proof. intros (h & -> & _). now eexists. Qed.

(** ** Stripping *)

Lemma rstrip_by_last (p : ascii -> bool) (s : string) : forall t c,
  rstrip_by p s = t ++ String c "" -> p c = false.
Proof.
  induction s as [|x s IH]; intros t c; simpl.
  - destruct t; discriminate.
  - destruct (rstrip_by p s) as [|y r] eqn:Hr.
    + destruct (p x) eqn:Hx; [destruct t; discriminate|].
      destruct t as [|z t]; simpl; intros H.
      * injection H as <-. exact Hx.
      * injection H as _ H. destruct t; discriminate.
    + destruct t as [|z t]; simpl; intros H; [discriminate|].
      injection H as _ H. exact (IH t c H).
Qed.

Lemma rstrip_by_fixed (p : ascii -> bool) (s : string) :
  Forall (fun c => p c = false) (list_ascii_of_string s) -> rstrip_by p s = s.
Proof.
  induction s as [|x s IH]; simpl; intros H; [reflexivity|].
  inversion H as [|? ? Hx Hs]; subst. rewrite (IH Hs).
  destruct s; [now rewrite Hx | reflexivity].
Qed.

Lemma hex_digit_not_space (c : ascii) : hex_digit c -> isspace c = false.
Proof.
  unfold hex_digit; simpl. intros H.
  repeat (destruct H as [<-|H]; [reflexivity|]). contradiction.
Qed.

Lemma strip_eth_address (a : string) : eth_address a -> strip a = a.
Proof.
  intros (h & -> & _ & Hf). unfold strip.
  change (lstrip_by isspace ("0x" ++ h)) with ("0x" ++ h).
  apply rstrip_by_fixed. simpl.
  constructor; [reflexivity|]. constructor; [reflexivity|].
  eapply Forall_impl; [|exact Hf]. exact hex_digit_not_space.
Qed.

(** ** The anchored match *)

Lemma re_match_eth_anchored_iff (s : string) :
  re_match_eth_anchored s = true <->
  eth_address s \/ (exists a, eth_address a /\ s = a ++ String lf "").
Proof.
  unfold re_match_eth_anchored. split.
  - destruct (match_eth s) as [[a rest]|] eqn:Hm; [|discriminate].
    apply match_eth_sound in Hm as [-> Ha].
    destruct rest as [|c [|d rest]]; simpl; try discriminate.
    + intros _. left. now rewrite append_nil_r.
    + rewrite Ascii.eqb_eq. intros ->. right. now exists a.
  - intros [Ha | (a & Ha & ->)].
    + rewrite <- (append_nil_r s), (match_eth_complete s "" Ha). reflexivity.
    + rewrite (match_eth_complete a _ Ha). reflexivity.
Qed.

Lemma valid_iff_stripped (s : string) :
  is_valid_wallet_address s = true <-> eth_address (strip s).
Proof.
  assert (Hre : re_match_eth_anchored (strip s) = true <-> eth_address (strip s)).
  { rewrite re_match_eth_anchored_iff. split; [|now left].
    intros [H | (a & _ & H)]; [exact H|].
    apply rstrip_by_last in H. discriminate H. }
  destruct s as [|c s]; [|exact Hre].
  simpl. split; [discriminate|].
  intros H. apply eth_address_length in H. discriminate H.
Qed.

(** ** The search *)

Lemma occurs_at_zero (a s : string) :
  occurs_at 0 a s <-> exists post, s = a ++ post.
Proof.
  unfold occurs_at. split.
  - intros ([|c pre] & post & -> & H); [now exists post | discriminate].
  - intros [post ->]. now exists "", post.
Qed.

Lemma occurs_at_succ (n : nat) (a : string) (c : ascii) (t : string) :
  occurs_at (S n) a (String c t) <-> occurs_at n a t.
Proof.
  unfold occurs_at. split.
  - intros ([|x pre] & post & H & L); [discriminate|].
    simpl in H, L. injection H as _ ->. exists pre, post. split; [reflexivity | lia].
  - intros (pre & post & -> & L). exists (String c pre), post.
    split; [reflexivity | simpl; lia].
Qed.

Lemma match_eth_none_at_zero (s : string) :
  match_eth s = None -> forall a, eth_address a -> ~ occurs_at 0 a s.
Proof.
  intros Hm a Ha H. apply occurs_at_zero in H as [post ->].
  rewrite (match_eth_complete a post Ha) in Hm. discriminate.
Qed.

Lemma re_search_eth_leftmost (s : string) :
  match re_search_eth s with
  | Some a =>
      eth_address a /\
      exists n, occurs_at n a s /\
                forall n' a', eth_address a' -> occurs_at n' a' s -> n <= n'
  | None => forall n a, eth_address a -> ~ occurs_at n a s
  end.
Proof.
  induction s as [|c t IH].
  - simpl. intros n a Ha (pre & post & H & _).
    apply eth_address_head in Ha as [u ->].
    destruct pre; discriminate.
  - cbn [re_search_eth].
    destruct (match_eth (String c t)) as [[m rest]|] eqn:Hm.
    + apply match_eth_sound in Hm as [Hs Ha]. split; [exact Ha|].
      exists 0. split; [|intros; lia].
      apply occurs_at_zero. now exists rest.
    + destruct (re_search_eth t) as [a|].
      * destruct IH as (Ha & n & Hocc & Hmin). split; [exact Ha|].
        exists (S n). split; [now apply occurs_at_succ|].
        intros [|k] a' Ha' H.
        -- elim (match_eth_none_at_zero _ Hm a' Ha' H).
        -- apply occurs_at_succ in H. specialize (Hmin k a' Ha' H). lia.
      * intros [|k] a Ha H.
        -- exact (match_eth_none_at_zero _ Hm a Ha H).
        -- apply occurs_at_succ in H. exact (IH k a Ha H).
Qed.

Lemma extracted_is_address (message a : string) :
  _extract_wallet_address message = Some a -> eth_address a.
Proof.
  unfold _extract_wallet_address. intros H.
  pose proof (re_search_eth_leftmost message) as L. rewrite H in L. apply L.
Qed.

Lemma extracted_is_valid (message a : string) :
  _extract_wallet_address message = Some a ->
  is_valid_wallet_address a = true /\ a <> "".
Proof.
  intros H. apply extracted_is_address in H. split.
  - apply valid_iff_stripped. now rewrite strip_eth_address.
  - intros ->. apply eth_address_length in H. discriminate.
Qed.

(** ** Computations: traces and outcomes *)

Lemma outcome_bind {A B} (m : M A) (k : A -> M B) :
  outcome (x <- m ;; k x) =
  match outcome m with
  | Ok a => outcome (k a)
  | Raise e => Raise e
  end.
Proof. destruct m as [t [a|e]]; simpl; [destruct (k a) | ]; reflexivity. Qed.

Lemma trace_bind {A B} (m : M A) (k : A -> M B) :
  trace (x <- m ;; k x) =
  (trace m ++ match outcome m with
              | Ok a => trace (k a)
              | Raise _ => []
              end)%list.
Proof.
  destruct m as [t [a|e]]; simpl; [destruct (k a); reflexivity|].
  now rewrite app_nil_r.
Qed.

Lemma outcome_try_except {A} (body : M A) (handler : exn -> M A) :
  outcome (try_except body handler) =
  match outcome body with
  | Ok a => Ok a
  | Raise e => outcome (handler e)
  end.
Proof. destruct body as [t [a|e]]; simpl; [|destruct (handler e)]; reflexivity. Qed.

Lemma trace_try_except {A} (body : M A) (handler : exn -> M A) :
  trace (try_except body handler) =
  (trace body ++ match outcome body with
                 | Ok _ => []
                 | Raise e => trace (handler e)
                 end)%list.
Proof.
  destruct body as [t [a|e]]; simpl; [now rewrite app_nil_r|].
  destruct (handler e); reflexivity.
Qed.

Lemma trace_try_except_request {A} (body : M A) (handler : exn -> M A) :
  trace (try_except_request body handler) =
  (trace body ++ match outcome body with
                 | Ok _ => []
                 | Raise e => if is_request_exception e then trace (handler e) else []
                 end)%list.
Proof.
  destruct body as [t [a|e]]; simpl; [now rewrite app_nil_r|].
  destruct (is_request_exception e); simpl; [|now rewrite app_nil_r].
  destruct (handler e); reflexivity.
Qed.

(** A handler that returns a value turns every outcome into a value. *)
Lemma outcome_try_except_ret {A} (body : M A) (f : exn -> A) :
  outcome (try_except body (fun e => ret (f e))) =
  Ok (match outcome body with
      | Ok a => a
      | Raise e => f e
      end).
Proof. rewrite outcome_try_except. destruct (outcome body); reflexivity. Qed.

Lemma trace_try_except_ret {A} (body : M A) (f : exn -> A) :
  trace (try_except body (fun e => ret (f e))) = trace body.
Proof.
  rewrite trace_try_except. destruct (outcome body); simpl; now rewrite app_nil_r.
Qed.


Lemma all_calls_ret P {A} (a : A) : all_calls P (ret a).
Proof. constructor. Qed.

Lemma all_calls_lift P {A} (r : result A) : all_calls P (lift r).
Proof. constructor. Qed.

Lemma all_calls_bind P {A B} (m : M A) (k : A -> M B) :
  all_calls P m -> (forall a, all_calls P (k a)) -> all_calls P (x <- m ;; k x).
Proof.
  unfold all_calls. intros Hm Hk. rewrite trace_bind. apply Forall_app. split; [exact Hm|].
  destruct (outcome m); [apply Hk | constructor].
Qed.

Lemma all_calls_try_except P {A} (body : M A) (handler : exn -> M A) :
  all_calls P body -> (forall e, all_calls P (handler e)) ->
  all_calls P (try_except body handler).
Proof.
  unfold all_calls. intros Hb Hh. rewrite trace_try_except. apply Forall_app.
  split; [exact Hb|]. destruct (outcome body); [constructor | apply Hh].
Qed.

Lemma all_calls_try_except_request P {A} (body : M A) (handler : exn -> M A) :
  all_calls P body -> (forall e, all_calls P (handler e)) ->
  all_calls P (try_except_request body handler).
Proof.
  unfold all_calls. intros Hb Hh. rewrite trace_try_except_request. apply Forall_app.
  split; [exact Hb|]. destruct (outcome body) as [|e]; [constructor|].
  destruct (is_request_exception e); [apply Hh | constructor].
Qed.

Lemma all_calls_get (P : call -> Prop) rt env url params timeout :
  P (HttpGet url (headers rt) params timeout) ->
  all_calls P (get rt env url params timeout).
Proof. intros H. constructor; [exact H | constructor]. Qed.

Create HintDb calls.
#[local] Hint Resolve all_calls_ret all_calls_lift all_calls_bind all_calls_try_except
  all_calls_try_except_request all_calls_get : calls.

(** ** The gateway *)


Lemma get_with_timeout_10_intro url hs params :
  get_with_timeout_10 (HttpGet url hs params (Some 10)).
Proof. now exists url, hs, params. Qed.
#[local] Hint Resolve get_with_timeout_10_intro : calls.

Lemma nft_endpoint_loop_calls rt env address endpoints :
  all_calls get_with_timeout_10 (nft_endpoint_loop rt env address endpoints).
Proof.
  induction endpoints as [|endpoint rest IH];
    cbn [nft_endpoint_loop tx_endpoint_loop]; [auto with calls|].
  apply all_calls_bind.
  - apply all_calls_try_except_request; [|auto with calls].
    apply all_calls_bind; [auto with calls|]. intros response.
    destruct (status_code response =? 200)%nat; auto 10 with calls.
  - intros [found|]; auto with calls.
Qed.

Lemma get_nft_holdings_calls rt env address :
  all_calls get_with_timeout_10 (get_nft_holdings rt env address).
Proof.
  unfold get_nft_holdings. apply all_calls_try_except; [|auto with calls].
  apply nft_endpoint_loop_calls.
Qed.

Lemma tx_endpoint_loop_calls rt env address endpoints :
  all_calls get_with_timeout_10 (tx_endpoint_loop rt env address endpoints).
Proof.
  induction endpoints as [|endpoint rest IH];
    cbn [nft_endpoint_loop tx_endpoint_loop]; [auto with calls|].
  apply all_calls_bind.
  - apply all_calls_try_except_request; [|auto with calls].
    apply all_calls_bind; [auto with calls|]. intros response.
    destruct (status_code response =? 200)%nat; auto 10 with calls.
  - intros [found|]; auto with calls.
Qed.

Lemma get_transaction_history_calls rt env address :
  all_calls get_with_timeout_10 (get_transaction_history rt env address).
Proof.
  unfold get_transaction_history. apply all_calls_try_except; [|auto with calls].
  apply tx_endpoint_loop_calls.
Qed.


Lemma trace_lift_bind {A B} (r : result A) (k : A -> M B) :
  trace (x <- lift r ;; k x) =
  match r with
  | Ok a => trace (k a)
  | Raise _ => []
  end.
Proof. rewrite trace_bind. destruct r; reflexivity. Qed.

Lemma get_wallet_balance_trace rt env address offset limit :
  trace (get_wallet_balance rt env address offset limit) =
  [balance_call rt address offset limit].
Proof.
  unfold get_wallet_balance. rewrite trace_try_except.
  match goal with |- (trace ?b ++ _)%list = _ => set (body := b) end.
  assert (Hb : trace body = [balance_call rt address offset limit]).
  { unfold body, wallet_balance_try. rewrite trace_bind.
    change (trace (get rt env _ _ None))
      with [balance_call rt address offset limit].
    destruct (outcome (get rt env _ _ None)) as [response|e]; [|reflexivity].
    rewrite trace_lift_bind.
    destruct (raise_for_status _ _ response); [|reflexivity].
    rewrite trace_lift_bind.
    destruct (response_json response); reflexivity. }
  rewrite Hb. destruct (outcome body); reflexivity.
Qed.


(** The fallback constructor call names neither required field. *)
Lemma fallback_raises rt :
  new_WalletBalanceResponse rt fallback_kwargs = Raise (fallback_error rt).
Proof. reflexivity. Qed.

(** ** The address validator *)

(** C8: the validator accepts a string exactly when, with surrounding white
    space trimmed, it is [0x] followed by 40 hexadecimal digits; a trimmed
    string of another length, without the prefix, or with such a pattern as
    a proper substring only, is rejected. *)
Theorem is_valid_wallet_address_exact : forall address : string,
  (is_valid_wallet_address address = true <-> eth_address (strip address)) /\
  (String.length (strip address) <> 42 -> is_valid_wallet_address address = false) /\
  (startswith "0x" (strip address) = false ->
   is_valid_wallet_address address = false) /\
  (forall pre a post,
     strip address = pre ++ a ++ post -> eth_address a -> pre ++ post <> "" ->
     is_valid_wallet_address address = false).
Proof.
  intros address. pose proof (valid_iff_stripped address) as V.
  split; [exact V|].
  assert (R : ~ eth_address (strip address) -> is_valid_wallet_address address = false).
  { intros N. destruct (is_valid_wallet_address address); [|reflexivity].
    elim N. now apply V. }
  repeat split.
  - intros L. apply R. intros H. apply eth_address_length in H. contradiction.
  - intros P. apply R. intros (h & E & _). rewrite E in P. discriminate P.
  - intros pre a post E Ha Hne. apply R. intros H.
    apply eth_address_length in H, Ha.
    rewrite E, !length_append, Ha in H.
    destruct pre; destruct post; simpl in *; try lia. now elim Hne.
Qed.

(** The validator on a checksummed address with white space around it, on a
    short one, and on one embedded in text. *)
Example is_valid_wallet_address_samples :
  is_valid_wallet_address ("  " ++ sample_address ++ String lf "") = true /\
  is_valid_wallet_address "0x96569115" = false /\
  is_valid_wallet_address ("send to " ++ sample_address) = false /\
  is_valid_wallet_address (sample_address ++ "0") = false.
Proof. repeat split; reflexivity. Qed.

(** ** The address extractor *)

(** C9: the extractor returns the match of [0x] and 40 hexadecimal digits at
    the leftmost position that has one, and nothing when no substring of the
    message matches. *)
Theorem extract_wallet_address_leftmost : forall message : string,
  match _extract_wallet_address message with
  | Some a =>
      eth_address a /\
      exists n, occurs_at n a message /\
                forall n' a', eth_address a' -> occurs_at n' a' message -> n <= n'
  | None => forall n a, eth_address a -> ~ occurs_at n a message
  end.
Proof. intros message. exact (re_search_eth_leftmost message). Qed.

Example extract_wallet_address_samples :
  _extract_wallet_address ("a 0x12 b " ++ sample_address ++ "ff and " ++ sample_address)
    = Some sample_address /\
  _extract_wallet_address "0x965691 is too short" = None.
Proof. split; reflexivity. Qed.

(** ** Routing *)

Lemma generate_response_try_routes rt env message :
  generate_response_try rt env message =
  match _extract_wallet_address message with
  | Some a => _handle_wallet_query rt env message a
  | None => _handle_general_query env message
  end.
Proof.
  unfold generate_response_try.
  destruct (_extract_wallet_address message) as [a|] eqn:E; [|reflexivity].
  destruct (extracted_is_valid _ _ E) as [V N].
  rewrite V. apply String.eqb_neq in N. now rewrite N.
Qed.

Lemma general_query_trace env message :
  trace (_handle_general_query env message) =
  [ChatCompletion current_model system_prompt message].
Proof.
  unfold _handle_general_query. rewrite trace_try_except_ret.
  unfold general_query_try. rewrite trace_bind.
  change (trace (create_completion env _ _ message))
    with [ChatCompletion current_model system_prompt message].
  destruct (outcome (create_completion env _ _ message)) as [content|e];
    [|reflexivity].
  rewrite trace_lift_bind. destruct content; reflexivity.
Qed.

Lemma get_with_timeout_10_http (c : call) : get_with_timeout_10 c -> http_get_call c.
Proof. intros (url & hs & params & ->). reflexivity. Qed.

Lemma all_calls_impl (P Q : call -> Prop) {A} (m : M A) :
  (forall c, P c -> Q c) -> all_calls P m -> all_calls Q m.
Proof. intros H. apply Forall_impl. exact H. Qed.

Lemma handle_calls rt env intent wallet_address :
  all_calls http_get_call (handle rt env intent wallet_address).
Proof.
  destruct intent; cbn [handle].
  - unfold _handle_token_analysis, all_calls. rewrite trace_try_except_ret.
    unfold token_analysis_try. rewrite trace_bind, get_wallet_balance_trace.
    destruct (outcome (get_wallet_balance rt env wallet_address 0 10));
      repeat constructor.
  - unfold _handle_nft_analysis, all_calls. rewrite trace_try_except_ret.
    unfold nft_analysis_try. apply all_calls_bind.
    + eapply all_calls_impl; [exact get_with_timeout_10_http|].
      apply get_nft_holdings_calls.
    + intros nft_data. destruct (negb (py_truthy (nfts nft_data)));
        auto 10 with calls.
  - unfold _handle_transaction_history, all_calls. rewrite trace_try_except_ret.
    unfold transaction_history_try. apply all_calls_bind.
    + eapply all_calls_impl; [exact get_with_timeout_10_http|].
      apply get_transaction_history_calls.
    + intros tx_data. auto 10 with calls.
  - constructor.
  - constructor.
  - constructor.
Qed.

Lemma generate_response_trace rt env message :
  trace (generate_response rt env message) =
  trace (generate_response_try rt env message).
Proof. apply trace_try_except_ret. Qed.

(** C10: a candidate the extractor returns passes the validator, so the
    validity check of the orchestrator rejects none, and the general-query
    path (a call to the completion provider) is taken exactly when the
    extractor returns nothing. *)
Theorem extracted_candidate_is_valid : forall rt env message,
  (forall a, _extract_wallet_address message = Some a ->
             is_valid_wallet_address a = true) /\
  generate_response_try rt env message =
    match _extract_wallet_address message with
    | Some a => _handle_wallet_query rt env message a
    | None => _handle_general_query env message
    end /\
  (existsb is_chat_completion (trace (generate_response rt env message)) = true
   <-> _extract_wallet_address message = None).
Proof.
  intros rt env message. split; [|split].
  - intros a E. now apply extracted_is_valid in E.
  - apply generate_response_try_routes.
  - rewrite generate_response_trace, generate_response_try_routes.
    destruct (_extract_wallet_address message) as [a|].
    + split; [|discriminate]. intros H. exfalso.
      apply existsb_exists in H as (c & Hin & Hc).
      pose proof (handle_calls rt env (wallet_query_intent (lower message)) a) as F.
      unfold all_calls in F. rewrite Forall_forall in F.
      specialize (F c Hin). unfold http_get_call in F.
      unfold is_chat_completion in Hc. rewrite F in Hc. discriminate.
    + rewrite general_query_trace. split; reflexivity.
Qed.

(** ** The intent classifier *)

Lemma first_match_at (s : string) : forall before keywords intent after,
  set_matches keywords s ->
  (forall keywords' intent',
     In (keywords', intent') before -> ~ set_matches keywords' s) ->
  first_match (before ++ (keywords, intent) :: after)%list s = intent.
Proof.
  induction before as [|[k i] before IH]; intros keywords intent after Hm Hb; simpl.
  - apply any_keyword_in_iff in Hm. now rewrite Hm.
  - destruct (any_keyword_in k s) eqn:E.
    + apply any_keyword_in_iff in E. elim (Hb k i); [now left | exact E].
    + apply IH; [exact Hm|]. intros k' i' Hin. apply (Hb k' i'). now right.
Qed.

Lemma first_match_default (s : string) : forall table,
  (forall keywords intent, In (keywords, intent) table -> ~ set_matches keywords s) ->
  first_match table s = TokenAnalysis.
Proof.
  induction table as [|[k i] table IH]; intros H; simpl; [reflexivity|].
  destruct (any_keyword_in k s) eqn:E.
  - apply any_keyword_in_iff in E. elim (H k i); [now left | exact E].
  - apply IH. intros k' i' Hin. apply (H k' i'). now right.
Qed.

Lemma wallet_query_intent_table (message_lower : string) :
  wallet_query_intent message_lower = first_match precedence message_lower.
Proof. reflexivity. Qed.

(** C4: the classifier tests the six keyword sets in the fixed order of
    precedence; the first set with a keyword that occurs in the lower-cased
    message decides the intent, no match gives TokenAnalysis, and a message
    with both [token] and [nft] resolves to TokenAnalysis. *)
Theorem wallet_query_intent_precedence : forall message_lower : string,
  wallet_query_intent message_lower = first_match precedence message_lower /\
  (forall before keywords intent after,
     precedence = (before ++ (keywords, intent) :: after)%list ->
     set_matches keywords message_lower ->
     (forall keywords' intent',
        In (keywords', intent') before -> ~ set_matches keywords' message_lower) ->
     wallet_query_intent message_lower = intent) /\
  ((forall keywords intent,
      In (keywords, intent) precedence -> ~ set_matches keywords message_lower) ->
   wallet_query_intent message_lower = TokenAnalysis) /\
  (occurs "token" message_lower -> occurs "nft" message_lower ->
   wallet_query_intent message_lower = TokenAnalysis) /\
  (forall rt env message wallet_address,
     message_lower = lower message ->
     _handle_wallet_query rt env message wallet_address =
     handle rt env (first_match precedence message_lower) wallet_address).
Proof.
  intros message_lower. rewrite wallet_query_intent_table.
  split; [reflexivity|]. split; [|split; [|split]].
  - intros before keywords intent after -> Hm Hb. now apply first_match_at.
  - apply first_match_default.
  - intros Ht _.
    apply (first_match_at message_lower []
             ["analyze"; "show all tokens"; "token"; "balance"] TokenAnalysis).
    + exists "token". split; [simpl; tauto | exact Ht].
    + intros ? ? [].
  - intros rt env message wallet_address ->. reflexivity.
Qed.

Example wallet_query_intent_samples :
  wallet_query_intent (lower ("Show all tokens for " ++ sample_address)) = TokenAnalysis /\
  wallet_query_intent (lower ("Show NFT collection for " ++ sample_address)) = NftAnalysis /\
  wallet_query_intent (lower ("NFT and token of " ++ sample_address)) = TokenAnalysis /\
  wallet_query_intent (lower ("tx of " ++ sample_address)) = TransactionHistory /\
  wallet_query_intent (lower ("check risks " ++ sample_address)) = RiskAssessment /\
  wallet_query_intent (lower ("whale? " ++ sample_address)) = WhaleAnalysis /\
  wallet_query_intent (lower ("verify " ++ sample_address)) = ContractVerification /\
  wallet_query_intent (lower sample_address) = TokenAnalysis.
Proof. repeat split; reflexivity. Qed.

(** ** The gateway's balance fetch *)

(** What the [try] block of [get_wallet_balance] comes to, by the reply of
    the data provider. *)
Lemma wallet_balance_try_outcome rt env address offset limit :
  outcome (wallet_balance_try rt env address offset limit) =
  match requests_get env (base_url ++ "/wallet/balance/token")
          [("address", JStr address); ("offset", JInt offset); ("limit", JInt limit)]
          None with
  | Raise e => Raise e
  | Ok response =>
      match raise_for_status rt (base_url ++ "/wallet/balance/token") response with
      | Raise e => Raise e
      | Ok _ =>
          match response_json response with
          | Raise e => Raise e
          | Ok data => new_WalletBalanceResponse_from rt data
          end
      end
  end.
Proof.
  unfold wallet_balance_try. rewrite outcome_bind.
  change (outcome (get rt env ?u ?p None)) with (requests_get env u p None).
  destruct (requests_get env _ _ None) as [response|e]; [|reflexivity].
  rewrite outcome_bind. change (outcome (lift ?r)) with r.
  destruct (raise_for_status rt _ response); [|reflexivity].
  rewrite outcome_bind. change (outcome (lift ?r)) with r.
  destruct (response_json response); reflexivity.
Qed.

Lemma get_wallet_balance_outcome rt env address offset limit :
  outcome (get_wallet_balance rt env address offset limit) =
  match outcome (wallet_balance_try rt env address offset limit) with
  | Ok response => Ok response
  | Raise _ => Raise (fallback_error rt)
  end.
Proof. unfold get_wallet_balance. now rewrite outcome_try_except. Qed.

(** C2, as the code has it: when the [try] block of the balance fetch fails
    (the request raises, the status is an error status, the body is not
    JSON, or validation fails) the fetch raises the validation error of its
    fallback constructor call; so it does to its caller when the data
    provider answers 500. *)
Theorem get_wallet_balance_raises_on_failure : forall rt,
  (forall env address offset limit,
     match outcome (wallet_balance_try rt env address offset limit) with
     | Ok response =>
         outcome (get_wallet_balance rt env address offset limit) = Ok response
     | Raise _ =>
         outcome (get_wallet_balance rt env address offset limit)
         = Raise (fallback_error rt)
     end) /\
  outcome (get_wallet_balance rt upstream_500 sample_address 0 10)
  = Raise (fallback_error rt).
Proof.
  intros rt. split.
  - intros env address offset limit. rewrite get_wallet_balance_outcome.
    destruct (outcome (wallet_balance_try rt env address offset limit)); reflexivity.
  - reflexivity.
Qed.

(** Each kind of upstream failure makes the balance fetch raise. *)
Lemma get_wallet_balance_failures rt env address offset limit :
  let reply := requests_get env (base_url ++ "/wallet/balance/token")
                 [("address", JStr address); ("offset", JInt offset);
                  ("limit", JInt limit)] None in
  ((exists e, reply = Raise e) \/
   (exists status body, reply = Ok (Response status body) /\ 400 <= status < 600) \/
   (exists status e, reply = Ok (Response status (Raise e))) \/
   (exists status data e, reply = Ok (Response status (Ok data)) /\
                          new_WalletBalanceResponse_from rt data = Raise e)) ->
  outcome (get_wallet_balance rt env address offset limit) = Raise (fallback_error rt).
Proof.
  intros reply H. rewrite get_wallet_balance_outcome, wallet_balance_try_outcome.
  fold reply.
  destruct H as [[e ->] | [(status & body & -> & Hs) | [(status & e & ->) |
                 (status & data & e & -> & Hv)]]]; try reflexivity.
  - unfold raise_for_status. cbn [status_code].
    destruct (Nat.leb_spec 400 status); [|lia].
    destruct (Nat.ltb_spec status 600); [|lia]. reflexivity.
  - unfold raise_for_status. cbn [status_code response_json].
    destruct ((400 <=? status)%nat && (status <? 600)%nat); reflexivity.
  - unfold raise_for_status. cbn [status_code response_json].
    destruct ((400 <=? status)%nat && (status <? 600)%nat); [reflexivity|].
    now rewrite Hv.
Qed.

(** ** Token analysis when the data provider fails *)

(** C1, as the code has it: with the balance endpoint answering 500, the
    reply to a token-analysis message is a document and no exception, but
    the document is the error template titled [Failed to fetch wallet data];
    it reports no token count, which the analysis of an empty wallet does. *)
Theorem token_analysis_upstream_failure : forall rt,
  generate_response rt upstream_500 ("analyze " ++ sample_address) =
    ([balance_call rt sample_address 0 10],
     Ok (error_document "Failed to fetch wallet data" (fallback_error rt))) /\
  contains "Total Tokens"
    (html (error_document "Failed to fetch wallet data" (fallback_error sample_runtime)))
  = false /\
  contains "Total Tokens"
    (_format_real_wallet_analysis sample_runtime
       {| token := []; pagination := {| total_items := 0; offset := 0;
                                        limit := 10; has_next := false |} |}
       sample_address 0%float 0)
  = true.
Proof. intros rt. repeat split; vm_compute; reflexivity. Qed.

(** ** Timeouts *)

(** C7, as the code has it: the one GET of the balance fetch is made without
    a timeout, for every address and every reply, and so is the call a
    token-analysis request makes. *)
Theorem get_wallet_balance_without_timeout : forall rt,
  (forall env address offset limit,
     map call_timeout (trace (get_wallet_balance rt env address offset limit))
     = [None]) /\
  map call_timeout
    (trace (generate_response rt upstream_500 ("analyze " ++ sample_address)))
  = [None].
Proof.
  intros rt. split.
  - intros env address offset limit. now rewrite get_wallet_balance_trace.
  - vm_compute. reflexivity.
Qed.

(** The NFT and transaction fetches pass a timeout of ten on every call. *)
Lemma nft_and_transaction_calls_have_timeout rt env address :
  all_calls get_with_timeout_10 (get_nft_holdings rt env address) /\
  all_calls get_with_timeout_10 (get_transaction_history rt env address).
Proof. split; [apply get_nft_holdings_calls | apply get_transaction_history_calls]. Qed.

(** ** Escaping *)

(** Closes a goal whose hypothesis [H] places a character in a literal
    string none of whose characters is excluded by the goal. *)
Ltac literal_member H :=
  simpl in H;
  repeat (destruct H as [<-|H]; [repeat split; discriminate|]);
  contradiction.

Lemma html_escape_table_get_safe (c x : ascii) :
  In x (list_ascii_of_string (html_escape_table_get c)) ->
  x <> "<"%char /\ x <> ">"%char /\ x <> dq /\ x <> "'"%char.
Proof.
  unfold html_escape_table_get.
  repeat match goal with
         | |- context [Ascii.eqb c ?k] =>
             destruct (Ascii.eqb_spec c k) as [->|?];
             [intros H; literal_member H|]
         end.
  simpl. intros [<-|[]]. repeat split; congruence.
Qed.

Lemma list_ascii_of_string_append (a b : string) :
  list_ascii_of_string (a ++ b) =
  (list_ascii_of_string a ++ list_ascii_of_string b)%list.
Proof. induction a as [|c a IH]; simpl; [reflexivity | now rewrite IH]. Qed.

(** No character of an escaped string opens or closes a tag or a quoted
    attribute. *)
Lemma escape_html_safe (text : string) (x : ascii) :
  In x (list_ascii_of_string (_escape_html text)) ->
  x <> "<"%char /\ x <> ">"%char /\ x <> dq /\ x <> "'"%char.
Proof.
  assert (J : forall t, In x (list_ascii_of_string (escape_join t)) ->
              x <> "<"%char /\ x <> ">"%char /\ x <> dq /\ x <> "'"%char).
  { induction t as [|c t IH]; simpl; [contradiction|].
    rewrite list_ascii_of_string_append, in_app_iff.
    intros [H|H]; [exact (html_escape_table_get_safe c x H) | exact (IH H)]. }
  destruct text; [contradiction | apply J].
Qed.

(** C3, as the code has it: an NFT named [<script>] comes out of the NFT
    formatter unescaped, while [_escape_html], which the token formatter
    applies to a token name, turns the same name into entities. *)
Theorem nft_name_is_not_escaped : forall rt,
  match outcome (generate_response rt upstream_script_nft
                   ("show nft " ++ sample_address)) with
  | Ok d => contains "<script>" (html d) = true
  | Raise _ => False
  end /\
  match nft_card rt script_nft with
  | Ok card => contains "<h4><script></h4>" card = true
  | Raise _ => False
  end /\
  _escape_html "<script>" = "&lt;script&gt;".
Proof. intros rt. repeat split; vm_compute; reflexivity. Qed.

(** ** Display caps *)

(** The token formatter of the chat service makes one card for each token
    of the response. *)
Lemma token_cards_all rt (tokens : list TokenBalance) :
  token_cards rt tokens = String.concat "" (map (token_card rt) tokens).
Proof.
  induction tokens as [|token rest IH]; [reflexivity|].
  cbn [token_cards map]. rewrite IH.
  destruct rest; [now rewrite append_nil_r | reflexivity].
Qed.





(** C5, as the code has it: a balance reply with eleven tokens is rendered
    by the chat service as eleven token cards. *)
Theorem token_cards_not_capped :
  match outcome (generate_response sample_runtime upstream_eleven_tokens
                   ("balance " ++ sample_address)) with
  | Ok d => count_occurrences token_card_tag (html d) = 11
  | Raise _ => False
  end.
Proof. vm_compute. reflexivity. Qed.

(** ** The orchestrator never raises *)

Lemma format_error_message_shape : exists head mid tail : string,
  (forall title detail,
     _format_error_message title detail = head ++ title ++ mid ++ detail ++ tail) /\
  occurs "<small>💡 <strong>Tip:</strong> Make sure you're using a valid Ethereum wallet address (0x...)</small>"
         tail.
Proof.
  unfold _format_error_message.
  match goal with
  | |- exists head mid tail, (forall title detail,
         ?h ++ title ++ ?m ++ detail ++ ?t = _) /\ _ =>
      exists h, m, t
  end.
  split; [reflexivity|].
  apply contains_iff. vm_compute. reflexivity.
Qed.

(** Each handler absorbs the failure of its own [try] block, so the [try]
    block of the orchestrator returns a document as well. *)
Lemma handle_total rt env intent wallet_address :
  exists d, outcome (handle rt env intent wallet_address) = Ok d.
Proof.
  destruct intent; cbn [handle];
    unfold _handle_token_analysis, _handle_nft_analysis,
      _handle_transaction_history, _handle_risk_assessment,
      _handle_whale_analysis, _handle_contract_verification;
    rewrite outcome_try_except_ret; eauto.
Qed.

Lemma generate_response_try_total rt env message :
  exists d, outcome (generate_response_try rt env message) = Ok d.
Proof.
  rewrite generate_response_try_routes.
  destruct (_extract_wallet_address message) as [a|].
  - apply handle_total.
  - unfold _handle_general_query. rewrite outcome_try_except_ret. eauto.
Qed.

(** C6: for every message the orchestrator returns a document and raises
    nothing; whichever [try] block fails, the document is the error template
    filled with the title of that block and the text of the exception, and
    the template ends with the one-line hint about a valid address. *)
Theorem generate_response_never_raises : forall rt env message,
  (exists d, outcome (generate_response rt env message) = Ok d) /\
  (forall e, outcome (generate_response_try rt env message) = Raise e ->
     outcome (generate_response rt env message)
     = Ok (error_document "Error Processing Request" e)) /\
  (forall a e, outcome (token_analysis_try rt env a) = Raise e ->
     outcome (_handle_token_analysis rt env a)
     = Ok (error_document "Failed to fetch wallet data" e)) /\
  (forall a e, outcome (nft_analysis_try rt env a) = Raise e ->
     outcome (_handle_nft_analysis rt env a)
     = Ok (error_document "Failed to fetch NFT data" e)) /\
  (forall a e, outcome (transaction_history_try rt env a) = Raise e ->
     outcome (_handle_transaction_history rt env a)
     = Ok (error_document "Failed to fetch transaction history" e)) /\
  (forall a e, outcome (risk_assessment_try a) = Raise e ->
     outcome (_handle_risk_assessment a)
     = Ok (error_document "Failed to perform risk assessment" e)) /\
  (forall a e, outcome (whale_analysis_try a) = Raise e ->
     outcome (_handle_whale_analysis a)
     = Ok (error_document "Failed to analyze whale wallet" e)) /\
  (forall a e, outcome (contract_verification_try a) = Raise e ->
     outcome (_handle_contract_verification a)
     = Ok (error_document "Failed to verify contract" e)) /\
  (forall e, outcome (general_query_try env message) = Raise e ->
     outcome (_handle_general_query env message)
     = Ok (error_document "Failed to process your request" e)) /\
  (exists d, outcome (generate_response_try rt env message) = Ok d) /\
  (exists head mid tail : string,
     (forall title e,
        html (error_document title e) = head ++ title ++ mid ++ exn_str e ++ tail) /\
     occurs "<small>💡 <strong>Tip:</strong> Make sure you're using a valid Ethereum wallet address (0x...)</small>"
            tail).
Proof.
  intros rt env message.
  split; [unfold generate_response; rewrite outcome_try_except_ret; eauto|].
  repeat match goal with
         | |- (forall _, _) /\ _ => split
         end;
    try (intros;
         match goal with
         | H : outcome ?b = Raise _ |- outcome ?h = _ =>
             let hd := (eval cbv delta [generate_response _handle_token_analysis
                          _handle_nft_analysis _handle_transaction_history
                          _handle_risk_assessment _handle_whale_analysis
                          _handle_contract_verification _handle_general_query] in h) in
             change h with hd; cbv beta;
             rewrite outcome_try_except_ret, H; reflexivity
         end).
  split; [apply generate_response_try_total|].
  destruct format_error_message_shape as (head & mid & tail & Hs & Ht).
  exists head, mid, tail. split; [|exact Ht].
  intros title e. apply Hs.
Qed.

(** The error path of the general handler is taken when the completion
    provider fails or returns no content. *)
Example general_query_error_paths :
  let failing := {| requests_get := requests_get upstream_500;
                    chat_completions_create := fun _ _ _ =>
                      Raise (Exn false "Connection error.") |} in
  let silent := {| requests_get := requests_get upstream_500;
                   chat_completions_create := fun _ _ _ => Ok None |} in
  outcome (generate_response sample_runtime failing "hello")
  = Ok (error_document "Failed to process your request"
          (Exn false "Connection error.")) /\
  outcome (generate_response sample_runtime silent "hello")
  = Ok (error_document "Failed to process your request"
          (builtin_error "'NoneType' object has no attribute 'replace'")).
Proof. split; vm_compute; reflexivity. Qed.

(** ** The theorems at concrete inputs *)

Lemma sample_address_is_address : eth_address sample_address.
Proof.
  exists "9656911585799e7129668a1e79a0C8b43dbB7EA9".
  repeat split. apply Forall_forall. intros c H. apply hex_class_iff.
  simpl in H. repeat (destruct H as [<-|H]; [reflexivity|]). contradiction.
Qed.

(** The validator at an address with white space around it and at an
    address embedded in text. *)
Lemma is_valid_wallet_address_exact_witness :
  is_valid_wallet_address ("  " ++ sample_address ++ String lf "") = true /\
  is_valid_wallet_address ("send to " ++ sample_address) = false.
Proof.
  split.
  - apply (proj1 (is_valid_wallet_address_exact
                    ("  " ++ sample_address ++ String lf ""))).
    exact sample_address_is_address.
  - apply (proj2 (proj2 (proj2 (is_valid_wallet_address_exact
                                  ("send to " ++ sample_address))))
             "send to " sample_address "").
    + reflexivity.
    + exact sample_address_is_address.
    + discriminate.
Defined.

(** The extractor at a message with a short candidate before two
    addresses. *)
Lemma extract_wallet_address_leftmost_witness :
  eth_address sample_address /\
  exists n,
    occurs_at n sample_address ("a 0x12 b " ++ sample_address ++ " " ++ sample_address) /\
    forall n' a',
      eth_address a' ->
      occurs_at n' a' ("a 0x12 b " ++ sample_address ++ " " ++ sample_address) ->
      n <= n'.
Proof.
  exact (extract_wallet_address_leftmost
           ("a 0x12 b " ++ sample_address ++ " " ++ sample_address)).
Defined.

(** The extracted candidate of a message passes the validator. *)
Lemma extracted_candidate_is_valid_witness :
  is_valid_wallet_address sample_address = true.
Proof.
  apply (proj1 (extracted_candidate_is_valid sample_runtime upstream_500
                  ("analyze " ++ sample_address)) sample_address).
  reflexivity.
Defined.

(** A message with both [nft] and [token]. *)
Lemma wallet_query_intent_precedence_witness :
  wallet_query_intent ("nft and token of 0x12") = TokenAnalysis.
Proof.
  apply (proj1 (proj2 (proj2 (proj2
           (wallet_query_intent_precedence "nft and token of 0x12"))))).
  - apply contains_iff. reflexivity.
  - apply contains_iff. reflexivity.
Defined.

(** The error path of token analysis, taken when the data provider answers
    500. *)
Lemma generate_response_never_raises_witness :
  outcome (_handle_token_analysis sample_runtime upstream_500 sample_address)
  = Ok (error_document "Failed to fetch wallet data" (fallback_error sample_runtime)).
Proof.
  apply (proj1 (proj2 (proj2
           (generate_response_never_raises sample_runtime upstream_500 "")))
           sample_address (fallback_error sample_runtime)).
  reflexivity.
Defined.

(* ================================================================= *)
(** * Further properties *)

(** ** Escaping *)

Lemma html_escape_table_get_plain (c : ascii) :
  ~ html_special c -> html_escape_table_get c = String c "".
Proof.
  unfold html_special, html_escape_table_get. intros N.
  repeat match goal with
         | |- context [Ascii.eqb c ?k] =>
             destruct (Ascii.eqb_spec c k) as [->|?]; [elim N; tauto|]
         end.
  reflexivity.
Qed.

Lemma html_escape_table_get_cases (c : ascii) :
  (html_special c /\ exists k rest,
      html_escape_table_get c = String "&" (String k rest) /\
      (forall d, html_special d ->
         html_escape_table_get d = String "&" (String k rest) \/
         forall rest', html_escape_table_get d <> String "&" (String k rest'))) \/
  (~ html_special c /\ html_escape_table_get c = String c "").
Proof.
  destruct (Ascii.eqb_spec c "&") as [->|N1];
    [left; split; [unfold html_special; tauto|]; exists "a"%char, "mp;"; split;
     [reflexivity|]; intros d [->|[->|[->|[->| ->]]]]; vm_compute;
     (left; reflexivity) || (right; discriminate)|].
  destruct (Ascii.eqb_spec c dq) as [->|N2];
    [left; split; [unfold html_special; tauto|]; exists "q"%char, "uot;"; split;
     [reflexivity|]; intros d [->|[->|[->|[->| ->]]]]; vm_compute;
     (left; reflexivity) || (right; discriminate)|].
  destruct (Ascii.eqb_spec c "'") as [->|N3];
    [left; split; [unfold html_special; tauto|]; exists "#"%char, "x27;"; split;
     [reflexivity|]; intros d [->|[->|[->|[->| ->]]]]; vm_compute;
     (left; reflexivity) || (right; discriminate)|].
  destruct (Ascii.eqb_spec c ">") as [->|N4];
    [left; split; [unfold html_special; tauto|]; exists "g"%char, "t;"; split;
     [reflexivity|]; intros d [->|[->|[->|[->| ->]]]]; vm_compute;
     (left; reflexivity) || (right; discriminate)|].
  destruct (Ascii.eqb_spec c "<") as [->|N5];
    [left; split; [unfold html_special; tauto|]; exists "l"%char, "t;"; split;
     [reflexivity|]; intros d [->|[->|[->|[->| ->]]]]; vm_compute;
     (left; reflexivity) || (right; discriminate)|].
  right. assert (N : ~ html_special c) by (unfold html_special; tauto).
  split; [exact N | now apply html_escape_table_get_plain].
Qed.

Lemma escape_html_join (text : string) : _escape_html text = escape_join text.
Proof. destruct text; reflexivity. Qed.

Lemma escape_join_append (a b : string) :
  escape_join (a ++ b) = escape_join a ++ escape_join b.
Proof.
  induction a as [|c a IH]; simpl; [reflexivity|].
  now rewrite IH, append_assoc.
Qed.

Lemma take_drop (n : nat) (s : string) : take n s ++ drop n s = s.
Proof.
  revert s; induction n as [|n IH]; intros [|c s]; simpl; try reflexivity.
  now rewrite IH.
Qed.

Lemma escape_join_plain (text : string) :
  (forall c, html_special c -> free_of c text) -> escape_join text = text.
Proof.
  unfold free_of. induction text as [|c t IH]; simpl; intros H; [reflexivity|].
  rewrite html_escape_table_get_plain.
  - simpl. rewrite IH; [reflexivity|]. intros d Hd Hin. apply (H d Hd). now right.
  - intros Hc. apply (H c Hc). now left.
Qed.

(** X1: what [_escape_html] returns holds none of the characters that open
    or close a tag or a quoted attribute, and a text without any of the five
    table characters is returned as it is. *)
Theorem escape_html_output : forall text : string,
  (forall x, In x (list_ascii_of_string (_escape_html text)) ->
             x <> "<"%char /\ x <> ">"%char /\ x <> dq /\ x <> "'"%char) /\
  ((forall c, html_special c -> free_of c text) -> _escape_html text = text).
Proof.
  intros text. split.
  - intros x. apply escape_html_safe.
  - rewrite escape_html_join. apply escape_join_plain.
Qed.

Lemma escape_html_output_witness :
  _escape_html "Wrapped Ether (WETH)" = "Wrapped Ether (WETH)".
Proof.
  apply (proj2 (escape_html_output "Wrapped Ether (WETH)")).
  intros c [->|[->|[->|[->| ->]]]]; unfold free_of; simpl;
    intros H; repeat (destruct H as [H|H]; [discriminate H|]); exact H.
Defined.

Lemma escape_join_injective (a : string) : forall b,
  escape_join a = escape_join b -> a = b.
Proof.
  induction a as [|c a IH]; intros [|d b]; cbn [escape_join]; intros E.
  - reflexivity.
  - exfalso. destruct (html_escape_table_get_cases d) as
      [(_ & k & r & Ed & _) | (_ & Ed)]; rewrite Ed in E; discriminate E.
  - exfalso. destruct (html_escape_table_get_cases c) as
      [(_ & k & r & Ec & _) | (_ & Ec)]; rewrite Ec in E; discriminate E.
  - destruct (html_escape_table_get_cases c) as
      [(Sc & k & r & Ec & U) | (Nc & Ec)];
    destruct (html_escape_table_get_cases d) as
      [(Sd & k' & r' & Ed & U') | (Nd & Ed)].
    + destruct (U d Sd) as [Same | Diff].
      * rewrite Ec, Same in E. apply append_cancel_l in E.
        apply IH in E. subst b. f_equal.
        (* equal entities come from equal characters *)
        clear - Sc Sd Ec Same.
        destruct Sc as [->|[->|[->|[->| ->]]]];
          destruct Sd as [->|[->|[->|[->| ->]]]];
          try reflexivity; vm_compute in Ec, Same; congruence.
      * exfalso. rewrite Ec, Ed in E. simpl in E.
        injection E as Hk _. subst k'. exact (Diff r' Ed).
    + exfalso. rewrite Ec, Ed in E. simpl in E. injection E as <- _.
      apply Nd. unfold html_special. tauto.
    + exfalso. rewrite Ec, Ed in E. simpl in E. injection E as -> _.
      apply Nc. unfold html_special. tauto.
    + rewrite Ec, Ed in E. simpl in E. injection E as -> E.
      now rewrite (IH b E).
Qed.

(** X2: escaping works character by character: it distributes over
    concatenation, so the escaped prefix of a text (the token formatter
    escapes the first 20 characters of a symbol) is a prefix of the escaped
    text and ends in no cut entity; and it loses nothing: two texts with
    the same escaped form are the same text. *)
Theorem escape_html_compositional : forall a b : string,
  _escape_html (a ++ b) = _escape_html a ++ _escape_html b /\
  (forall n, prefix_of (_escape_html (take n a)) (_escape_html a)) /\
  (_escape_html a = _escape_html b -> a = b).
Proof.
  intros a b. rewrite !escape_html_join. split; [apply escape_join_append|]. split.
  - intros n. exists (escape_join (drop n a)).
    rewrite !escape_html_join, <- escape_join_append. now rewrite take_drop.
  - apply escape_join_injective.
Qed.

(** ** Truncated addresses *)

Lemma take_length (n : nat) (s : string) :
  String.length (take n s) = Nat.min n (String.length s).
Proof.
  revert s; induction n as [|n IH]; intros [|c s]; simpl; try reflexivity.
  now rewrite IH.
Qed.

Lemma drop_length (n : nat) (s : string) :
  String.length (drop n s) = String.length s - n.
Proof.
  revert s; induction n as [|n IH]; intros [|c s]; simpl; try reflexivity.
  apply IH.
Qed.

(** X3: [_truncate_address] never returns more characters than it was
    given, nor more than [length + 8]; an address of at most [length + 8]
    characters comes back unchanged, a longer one as [length + 7]
    characters that begin with its first [length] characters and end with
    its last four. *)
Theorem truncate_address_bounds : forall (address : string) (length : nat),
  String.length (_truncate_address address length) <= String.length address /\
  String.length (_truncate_address address length) <= length + 8 /\
  (String.length address <= length + 8 ->
   _truncate_address address length = address) /\
  (length + 8 < String.length address ->
   _truncate_address address length
   = take length address ++ "..." ++ drop (String.length address - 4) address /\
   String.length (_truncate_address address length) = length + 7).
Proof.
  intros address n. unfold _truncate_address, take_last.
  destruct (String.eqb_spec address "") as [->|Ne]; cbn [orb].
  - simpl. repeat split; try lia; intros H; simpl in H; lia.
  - destruct (Nat.leb_spec (String.length address) (n + 8)) as [L|L].
    + repeat split; try lia; intros H; lia.
    + assert (E : String.length
                    (take n address ++ "..." ++
                     drop (String.length address - 4) address) = n + 7).
      { rewrite !length_append, take_length, drop_length. simpl. lia. }
      repeat split; try lia; intros H; lia.
Qed.

Lemma truncate_address_bounds_witness :
  _truncate_address sample_address 8 = "0x965691...7EA9" /\
  _truncate_address "0x1010" 8 = "0x1010".
Proof.
  split.
  - apply (proj2 (proj2 (proj2 (truncate_address_bounds sample_address 8)))).
    simpl. lia.
  - apply (proj1 (proj2 (proj2 (truncate_address_bounds "0x1010" 8)))).
    simpl. lia.
Defined.

(** ** Light markdown *)

Lemma free_of_cons (c x : ascii) (s : string) :
  free_of c (String x s) <-> x <> c /\ free_of c s.
Proof. unfold free_of. simpl. tauto. Qed.

Lemma free_of_append (c : ascii) (a b : string) :
  free_of c (a ++ b) <-> free_of c a /\ free_of c b.
Proof.
  unfold free_of. rewrite list_ascii_of_string_append, in_app_iff. tauto.
Qed.

Lemma free_of_empty (c : ascii) : free_of c "".
Proof. intros []. Qed.

Lemma startswith_head_neq (c x : ascii) (d s : string) :
  x <> c -> startswith (String c d) (String x s) = false.
Proof.
  intros N. cbn [startswith].
  destruct (Ascii.eqb_spec c x) as [->|_]; [now elim N | reflexivity].
Qed.

Lemma startswith_free (c : ascii) (d s : string) :
  free_of c s -> startswith (String c d) s = false.
Proof.
  destruct s as [|x s]; [reflexivity|]. rewrite free_of_cons. intros [N _]. simpl.
  destruct (Ascii.eqb_spec c x) as [->|_]; [now elim N | reflexivity].
Qed.

Lemma replace_from_free (c : ascii) (d new s : string) :
  free_of c s -> replace_from (String c d) new 0 s = s.
Proof.
  induction s as [|x s IH]; [reflexivity|]. intros F.
  cbn [replace_from]. rewrite (startswith_free c d _ F).
  apply free_of_cons in F as [_ F]. now rewrite (IH F).
Qed.

Lemma re_sub_delimited_prefix (c : ascii) (d opening closing pre s : string) :
  free_of c pre ->
  re_sub_delimited (String c d) opening closing 0 (pre ++ s)
  = pre ++ re_sub_delimited (String c d) opening closing 0 s.
Proof.
  induction pre as [|x pre IH]; [reflexivity|]. intros F.
  change (String x pre ++ s) with (String x (pre ++ s)).
  cbn [re_sub_delimited].
  assert (S0 : startswith (String c d) (String x (pre ++ s)) = false).
  { apply free_of_cons in F as [N _]. simpl.
    destruct (Ascii.eqb_spec c x) as [->|_]; [now elim N | reflexivity]. }
  rewrite S0. apply free_of_cons in F as [_ F]. now rewrite (IH F).
Qed.

Lemma re_sub_delimited_free (c : ascii) (d opening closing s : string) :
  free_of c s -> re_sub_delimited (String c d) opening closing 0 s = s.
Proof.
  intros F. rewrite <- (append_nil_r s) at 1.
  rewrite re_sub_delimited_prefix by exact F. simpl. apply append_nil_r.
Qed.

(** Passing over the characters of a match. *)
Lemma re_sub_delimited_skip (delim opening closing u s : string) :
  re_sub_delimited delim opening closing (String.length u) (u ++ s)
  = re_sub_delimited delim opening closing 0 s.
Proof.
  induction u as [|x u IH]; simpl.
  - destruct s; reflexivity.
  - exact IH.
Qed.

Lemma startswith_append (p s : string) : startswith p (p ++ s) = true.
Proof. apply startswith_iff. now exists s. Qed.

Lemma drop_append (p s : string) : drop (String.length p) (p ++ s) = s.
Proof. induction p as [|x p IH]; simpl; [now destruct s | exact IH]. Qed.

(** The lazy group stops at the first delimiter when what precedes it holds
    neither a line feed nor the first character of the delimiter. *)
Lemma lazy_group_found (c : ascii) (d g rest : string) :
  free_of c g -> free_of lf g ->
  lazy_group (String c d) (g ++ String c d ++ rest) = Some g.
Proof.
  induction g as [|x g IH]; intros Fc Fl.
  - change ("" ++ String c d ++ rest) with (String c d ++ rest).
    destruct (String c d ++ rest) eqn:E; cbn [lazy_group];
      rewrite <- E, startswith_append; reflexivity.
  - change (String x g ++ String c d ++ rest)
      with (String x (g ++ String c d ++ rest)).
    cbn [lazy_group].
    apply free_of_cons in Fc as [Nc Fc]. apply free_of_cons in Fl as [Nl Fl].
    replace (startswith (String c d) (String x (g ++ String c d ++ rest)))
      with false
      by (simpl; destruct (Ascii.eqb_spec c x) as [->|_];
          [now elim Nc | reflexivity]).
    destruct (Ascii.eqb_spec x lf) as [->|_]; [now elim Nl|].
    now rewrite (IH Fc Fl).
Qed.

(** One delimited group is replaced, and the scan goes on after it. *)
Lemma re_sub_delimited_group (c : ascii) (d opening closing g rest : string) :
  free_of c g -> free_of lf g ->
  re_sub_delimited (String c d) opening closing 0
    (String c d ++ g ++ String c d ++ rest)
  = opening ++ g ++ closing
    ++ re_sub_delimited (String c d) opening closing 0 rest.
Proof.
  intros Fc Fl.
  change (String c d ++ g ++ String c d ++ rest)
    with (String c (d ++ g ++ String c d ++ rest)).
  cbn [re_sub_delimited].
  change (String c (d ++ g ++ String c d ++ rest))
    with (String c d ++ g ++ String c d ++ rest).
  rewrite startswith_append, drop_append, (lazy_group_found c d g rest Fc Fl).
  do 3 f_equal.
  replace (String.length (String c d) + String.length g
           + String.length (String c d) - 1)
    with (String.length (d ++ g ++ String c d))
    by (rewrite !length_append; simpl; lia).
  rewrite <- (re_sub_delimited_skip _ _ _ (d ++ g ++ String c d) rest).
  now rewrite !append_assoc.
Qed.

(** A single star followed by a character other than a star starts no
    double-star group. *)
Lemma re_sub_double_star_single (opening closing s : string) :
  startswith "*" s = false ->
  re_sub_delimited "**" opening closing 0 (String "*" s)
  = String "*" (re_sub_delimited "**" opening closing 0 s).
Proof.
  intros H.
  assert (E : startswith "**" (String "*" s) = false).
  { destruct s as [|x s]; [reflexivity|]. simpl in H |- *.
    now rewrite andb_true_r in H |- *. }
  cbn [re_sub_delimited]. now rewrite E.
Qed.

Lemma replace_line_feeds_free (content : string) :
  free_of lf content ->
  replace (String lf "") "<br>"
    (replace (String lf (String lf "")) "</p><p>" content) = content.
Proof.
  intros F. unfold replace.
  rewrite (replace_from_free lf (String lf "") "</p><p>" content F).
  exact (replace_from_free lf "" "<br>" content F).
Qed.

(** X4: a completion text without stars and line feeds is returned between
    [<p>] and [</p>], character for character: no markup it holds is
    escaped. *)
Theorem format_text_content_plain : forall content : string,
  free_of "*" content -> free_of lf content ->
  _format_text_content content = "<p>" ++ content ++ "</p>".
Proof.
  intros content Fs Fl. unfold _format_text_content.
  rewrite (replace_line_feeds_free content Fl).
  assert (F : free_of "*" ("<p>" ++ content ++ "</p>")).
  { rewrite !free_of_append. repeat split; try exact Fs;
      unfold free_of; simpl; intros H;
      repeat (destruct H as [H|H]; [discriminate H|]); exact H. }
  rewrite (re_sub_delimited_free "*" "*" _ _ _ F).
  exact (re_sub_delimited_free "*" "" _ _ _ F).
Qed.

Ltac literal_free :=
  unfold free_of; simpl; intros H;
  repeat (destruct H as [H|H]; [discriminate H|]); exact H.

Lemma format_text_content_plain_witness :
  _format_text_content "Hello <b>world</b>" = "<p>Hello <b>world</b></p>".
Proof. apply format_text_content_plain; literal_free. Defined.

Lemma literal_p_free : free_of "*" "<p>" /\ free_of "*" "</p>".
Proof. split; literal_free. Qed.

(** X5: a run of text between two double stars becomes [<strong>], a run
    between two single stars [<em>], when the run and the text around it hold
    no star and no line feed (and the single-star run is not empty). *)
Theorem format_text_content_emphasis : forall pre w post : string,
  free_of "*" pre -> free_of "*" w -> free_of "*" post ->
  free_of lf pre -> free_of lf w -> free_of lf post ->
  _format_text_content (pre ++ "**" ++ w ++ "**" ++ post)
  = "<p>" ++ pre ++ "<strong>" ++ w ++ "</strong>" ++ post ++ "</p>" /\
  (w <> "" ->
   _format_text_content (pre ++ "*" ++ w ++ "*" ++ post)
   = "<p>" ++ pre ++ "<em>" ++ w ++ "</em>" ++ post ++ "</p>").
Proof.
  intros pre w post Fpre Fw Fpost Lpre Lw Lpost.
  destruct literal_p_free as [Fp Fq].
  assert (Fpostq : free_of "*" (post ++ "</p>")) by now apply free_of_append.
  assert (Fppre : free_of "*" ("<p>" ++ pre)) by now apply free_of_append.
  assert (Sp : startswith "*" (post ++ "</p>") = false)
    by now apply startswith_free.
  split.
  - unfold _format_text_content.
    rewrite replace_line_feeds_free.
    2:{ rewrite !free_of_append. repeat split; try assumption; literal_free. }
    replace ("<p>" ++ (pre ++ "**" ++ w ++ "**" ++ post) ++ "</p>")
      with (("<p>" ++ pre) ++ "**" ++ w ++ "**" ++ post ++ "</p>")
      by (now rewrite !append_assoc).
    rewrite re_sub_delimited_prefix by exact Fppre.
    rewrite (re_sub_delimited_group "*" "*" "<strong>" "</strong>" w
               (post ++ "</p>") Fw Lw).
    rewrite (re_sub_delimited_free "*" "*" _ _ (post ++ "</p>") Fpostq).
    rewrite re_sub_delimited_free.
    + now rewrite !append_assoc.
    + rewrite !free_of_append. repeat split; try assumption; literal_free.
  - intros Nw. unfold _format_text_content.
    rewrite replace_line_feeds_free.
    2:{ rewrite !free_of_append. repeat split; try assumption; literal_free. }
    replace ("<p>" ++ (pre ++ "*" ++ w ++ "*" ++ post) ++ "</p>")
      with (("<p>" ++ pre) ++ "*" ++ w ++ "*" ++ post ++ "</p>")
      by (now rewrite !append_assoc).
    assert (Sw : startswith "*" (w ++ "*" ++ post ++ "</p>") = false).
    { destruct w as [|x w]; [now elim Nw|].
      apply free_of_cons in Fw as [N _]. now apply startswith_head_neq. }
    (* the double-star pass changes nothing *)
    rewrite (re_sub_delimited_prefix "*" "*" _ _ ("<p>" ++ pre) _ Fppre).
    change ("*" ++ w ++ "*" ++ post ++ "</p>")
      with (String "*" (w ++ String "*" (post ++ "</p>"))).
    rewrite (re_sub_double_star_single _ _ _ Sw).
    rewrite (re_sub_delimited_prefix "*" "*" _ _ w _ Fw).
    rewrite (re_sub_double_star_single _ _ _ Sp).
    rewrite (re_sub_delimited_free "*" "*" _ _ (post ++ "</p>") Fpostq).
    (* the single-star pass finds the group *)
    rewrite (re_sub_delimited_prefix "*" "" _ _ ("<p>" ++ pre) _ Fppre).
    change (String "*" (w ++ String "*" (post ++ "</p>")))
      with ("*" ++ w ++ "*" ++ post ++ "</p>").
    rewrite (re_sub_delimited_group "*" "" "<em>" "</em>" w
               (post ++ "</p>") Fw Lw).
    rewrite (re_sub_delimited_free "*" "" _ _ (post ++ "</p>") Fpostq).
    now rewrite !append_assoc.
Qed.

Lemma format_text_content_emphasis_witness :
  _format_text_content "Send **0.5 ETH** now"
  = "<p>Send <strong>0.5 ETH</strong> now</p>" /\
  _format_text_content "Send *soon* now" = "<p>Send <em>soon</em> now</p>".
Proof.
  split.
  - apply (proj1 (format_text_content_emphasis "Send " "0.5 ETH" " now"
                    ltac:(literal_free) ltac:(literal_free) ltac:(literal_free)
                    ltac:(literal_free) ltac:(literal_free) ltac:(literal_free))).
  - apply (proj2 (format_text_content_emphasis "Send " "soon" " now"
                    ltac:(literal_free) ltac:(literal_free) ltac:(literal_free)
                    ltac:(literal_free) ltac:(literal_free) ltac:(literal_free))).
    discriminate.
Defined.

Lemma replace_from_no_line_feed (new : string) :
  free_of lf new ->
  forall s skip, free_of lf (replace_from (String lf "") new skip s).
Proof.
  intros Fn. induction s as [|x s IH]; intros skip; [apply free_of_empty|].
  cbn [replace_from]. destruct skip as [|k]; [|apply IH].
  cbn [startswith]. destruct (Ascii.eqb_spec lf x) as [<-|N].
  - rewrite andb_true_l. destruct s; cbn [startswith];
      apply free_of_append; split; try exact Fn; apply IH.
  - rewrite andb_false_l. apply free_of_cons. split; [congruence | apply IH].
Qed.

Lemma lazy_group_no_line_feed (delim : string) : forall s g,
  lazy_group delim s = Some g -> free_of lf g.
Proof.
  induction s as [|x s IH]; intros g; cbn [lazy_group].
  - destruct (startswith delim ""); [|discriminate].
    intros H. injection H as <-. apply free_of_empty.
  - destruct (startswith delim (String x s)).
    + intros H. injection H as <-. apply free_of_empty.
    + destruct (Ascii.eqb_spec x lf) as [->|N]; [discriminate|].
      destruct (lazy_group delim s) as [g'|]; [|discriminate].
      intros H. injection H as <-. apply free_of_cons. split; [exact N | now apply IH].
Qed.

Lemma re_sub_delimited_no_line_feed (delim opening closing : string) :
  free_of lf opening -> free_of lf closing ->
  forall s skip, free_of lf s ->
                 free_of lf (re_sub_delimited delim opening closing skip s).
Proof.
  intros Fo Fc. induction s as [|x s IH]; intros skip F; [apply free_of_empty|].
  apply free_of_cons in F as [N F]. cbn [re_sub_delimited].
  destruct skip as [|k]; [|now apply IH].
  destruct (startswith delim (String x s)).
  - destruct (lazy_group delim (drop (String.length delim) (String x s)))
      as [g|] eqn:G.
    + apply lazy_group_no_line_feed in G. rewrite !free_of_append.
      repeat split; try assumption. now apply IH.
    + apply free_of_cons. split; [exact N | now apply IH].
  - apply free_of_cons. split; [exact N | now apply IH].
Qed.

(** X6: whatever the completion text, the formatted text holds no line
    feed: each one became [<br>] or part of a paragraph break. *)
Theorem format_text_content_single_line : forall content : string,
  free_of lf (_format_text_content content).
Proof.
  intros content. unfold _format_text_content.
  apply re_sub_delimited_no_line_feed; try literal_free.
  apply re_sub_delimited_no_line_feed; try literal_free.
  rewrite !free_of_append. repeat split; try literal_free.
  unfold replace. apply replace_from_no_line_feed. literal_free.
Qed.

(** ** The NFT and transaction fetches *)

Lemma outcome_try_except_request {A} (body : M A) (handler : exn -> M A) :
  outcome (try_except_request body handler) =
  match outcome body with
  | Ok a => Ok a
  | Raise e => if is_request_exception e then outcome (handler e) else Raise e
  end.
Proof.
  destruct body as [t [a|e]]; simpl; [reflexivity|].
  destruct (is_request_exception e); [destruct (handler e)|]; reflexivity.
Qed.

Lemma py_in_raises (key : string) (v : json) (e : exn) :
  py_in key v = Raise e -> is_request_exception e = false.
Proof. destruct v; simpl; intros H; try discriminate; now injection H as <-. Qed.

Lemma py_getitem_raises (v : json) (key : string) (e : exn) :
  py_getitem v key = Raise e -> is_request_exception e = false.
Proof.
  destruct v; simpl; intros H; try discriminate; try (now injection H as <-).
  destruct (lookup key d); [discriminate | now injection H as <-].
Qed.

Lemma py_len_raises (v : json) (e : exn) :
  py_len v = Raise e -> is_request_exception e = false.
Proof. destruct v; simpl; intros H; try discriminate; now injection H as <-. Qed.

Ltac raised_by_builtin :=
  match goal with
  | H : py_in _ _ = Raise _ |- _ => exact (py_in_raises _ _ _ H)
  | H : py_getitem _ _ = Raise _ |- _ => exact (py_getitem_raises _ _ _ H)
  | H : py_len _ = Raise _ |- _ => exact (py_len_raises _ _ _ H)
  end.

Lemma nfts_of_raises (data : json) (e : exn) :
  nfts_of data = Raise e -> is_request_exception e = false.
Proof.
  unfold nfts_of.
  destruct (py_in "data" data) as [[|]|e0] eqn:E0.
  - destruct (py_getitem data "data") as [inner|e1] eqn:E1.
    + destruct (is_list inner); [discriminate|].
      destruct (is_dict inner); [|discriminate].
      destruct (py_in "nfts" inner) as [[|]|e2] eqn:E2.
      * intros H. raised_by_builtin.
      * destruct (py_in "tokens" inner) as [[|]|e3] eqn:E3.
        -- intros H. raised_by_builtin.
        -- discriminate.
        -- intros H. injection H as <-. raised_by_builtin.
      * intros H. injection H as <-. raised_by_builtin.
    + intros H. injection H as <-. raised_by_builtin.
  - destruct (py_in "nfts" data) as [[|]|e2] eqn:E2.
    + intros H. raised_by_builtin.
    + destruct (is_list data); discriminate.
    + intros H. injection H as <-. raised_by_builtin.
  - intros H. injection H as <-. raised_by_builtin.
Qed.

Lemma transactions_of_raises (data : json) (e : exn) :
  transactions_of data = Raise e -> is_request_exception e = false.
Proof.
  unfold transactions_of.
  destruct (py_in "data" data) as [[|]|e0] eqn:E0.
  - destruct (py_getitem data "data") as [inner|e1] eqn:E1.
    + destruct (is_list inner); [discriminate|].
      destruct (is_dict inner); [|discriminate].
      destruct (py_in "transactions" inner) as [[|]|e2] eqn:E2.
      * intros H. raised_by_builtin.
      * discriminate.
      * intros H. injection H as <-. raised_by_builtin.
    + intros H. injection H as <-. raised_by_builtin.
  - destruct (py_in "transactions" data) as [[|]|e2] eqn:E2.
    + intros H. raised_by_builtin.
    + destruct (is_list data); discriminate.
    + intros H. injection H as <-. raised_by_builtin.
  - intros H. injection H as <-. raised_by_builtin.
Qed.


Lemma nft_endpoint_loop_step rt env address endpoint rest :
  nft_endpoint_loop rt env address (endpoint :: rest) =
  match nft_attempt_of address
          (requests_get env endpoint (wallet_params endpoint address) (Some 10)) with
  | Ok (Some found) => ([wallet_call rt address endpoint], Ok found)
  | Ok None =>
      ((wallet_call rt address endpoint :: trace (nft_endpoint_loop rt env address rest)),
       outcome (nft_endpoint_loop rt env address rest))
  | Raise e => ([wallet_call rt address endpoint], Raise e)
  end.
Proof.
  cbn [nft_endpoint_loop]. unfold get, wallet_call, nft_attempt_of.
  destruct (requests_get env endpoint (wallet_params endpoint address) (Some 10))
    as [[status body]|e]; cbn [bind try_except_request status_code response_json lift ret].
  - destruct (status =? 200)%nat; cbn.
    + destruct body as [data|e]; cbn.
      * destruct (nfts_of data) as [v|e] eqn:Ev; cbn.
        -- destruct (py_len v) as [n|e] eqn:En; cbn; [reflexivity|].
           rewrite (py_len_raises _ _ En). reflexivity.
        -- rewrite (nfts_of_raises _ _ Ev). reflexivity.
      * destruct (is_request_exception e); cbn; [|reflexivity].
        destruct (nft_endpoint_loop rt env address rest); reflexivity.
    + destruct (nft_endpoint_loop rt env address rest); reflexivity.
  - destruct (is_request_exception e); cbn; [|reflexivity].
    destruct (nft_endpoint_loop rt env address rest); reflexivity.
Qed.


Lemma tx_endpoint_loop_step rt env address endpoint rest :
  tx_endpoint_loop rt env address (endpoint :: rest) =
  match tx_attempt_of address
          (requests_get env endpoint (wallet_params endpoint address) (Some 10)) with
  | Ok (Some found) => ([wallet_call rt address endpoint], Ok found)
  | Ok None =>
      ((wallet_call rt address endpoint :: trace (tx_endpoint_loop rt env address rest)),
       outcome (tx_endpoint_loop rt env address rest))
  | Raise e => ([wallet_call rt address endpoint], Raise e)
  end.
Proof.
  cbn [tx_endpoint_loop]. unfold get, wallet_call, tx_attempt_of.
  destruct (requests_get env endpoint (wallet_params endpoint address) (Some 10))
    as [[status body]|e]; cbn [bind try_except_request status_code response_json lift ret].
  - destruct (status =? 200)%nat; cbn.
    + destruct body as [data|e]; cbn.
      * destruct (transactions_of data) as [v|e] eqn:Ev; cbn.
        -- destruct (py_len v) as [n|e] eqn:En; cbn; [reflexivity|].
           rewrite (py_len_raises _ _ En). reflexivity.
        -- rewrite (transactions_of_raises _ _ Ev). reflexivity.
      * destruct (is_request_exception e); cbn; [|reflexivity].
        destruct (tx_endpoint_loop rt env address rest); reflexivity.
    + destruct (tx_endpoint_loop rt env address rest); reflexivity.
  - destruct (is_request_exception e); cbn; [|reflexivity].
    destruct (tx_endpoint_loop rt env address rest); reflexivity.
Qed.

Lemma nft_endpoint_loop_invariant rt env address endpoints :
  match outcome (nft_endpoint_loop rt env address endpoints) with
  | Ok h => py_len (nfts h) = Ok (nft_total_count h) /\ nft_address h = address
  | Raise e => is_request_exception e = false
  end.
Proof.
  induction endpoints as [|endpoint rest IH]; [split; reflexivity|].
  rewrite nft_endpoint_loop_step. unfold nft_attempt_of.
  destruct (requests_get env endpoint _ _) as [[status body]|e];
    cbn [status_code response_json].
  - destruct (status =? 200)%nat; [|exact IH].
    destruct body as [data|e].
    + destruct (nfts_of data) as [v|e] eqn:Ev; [|exact (nfts_of_raises _ _ Ev)].
      destruct (py_len v) as [n|e] eqn:En; [|exact (py_len_raises _ _ En)].
      split; [exact En | reflexivity].
    + destruct (is_request_exception e) eqn:R; [exact IH | exact R].
  - destruct (is_request_exception e) eqn:R; [exact IH | exact R].
Qed.

Lemma tx_endpoint_loop_invariant rt env address endpoints :
  match outcome (tx_endpoint_loop rt env address endpoints) with
  | Ok h => py_len (transactions h) = Ok (tx_total_count h) /\ tx_address h = address
  | Raise e => is_request_exception e = false
  end.
Proof.
  induction endpoints as [|endpoint rest IH]; [split; reflexivity|].
  rewrite tx_endpoint_loop_step. unfold tx_attempt_of.
  destruct (requests_get env endpoint _ _) as [[status body]|e];
    cbn [status_code response_json].
  - destruct (status =? 200)%nat; [|exact IH].
    destruct body as [data|e].
    + destruct (transactions_of data) as [v|e] eqn:Ev;
        [|exact (transactions_of_raises _ _ Ev)].
      destruct (py_len v) as [n|e] eqn:En; [|exact (py_len_raises _ _ En)].
      split; [exact En | reflexivity].
    + destruct (is_request_exception e) eqn:R; [exact IH | exact R].
  - destruct (is_request_exception e) eqn:R; [exact IH | exact R].
Qed.

Lemma get_nft_holdings_returns rt env address :
  exists h, outcome (get_nft_holdings rt env address) = Ok h /\
            py_len (nfts h) = Ok (nft_total_count h) /\
            nft_address h = address.
Proof.
  unfold get_nft_holdings. rewrite outcome_try_except.
  pose proof (nft_endpoint_loop_invariant rt env address (nft_endpoints address)) as I.
  change (nft_endpoints address) with
    [base_url ++ "/wallet/nft"; base_url ++ "/wallet/nfts";
     base_url ++ "/nft/wallet/" ++ address;
     base_url ++ "/wallet/" ++ address ++ "/nfts"] in I.
  destruct (outcome (nft_endpoint_loop rt env address _)) as [h|e].
  - exists h. tauto.
  - exists (empty_nft_holdings address). repeat split.
Qed.

Lemma get_transaction_history_returns rt env address :
  exists h, outcome (get_transaction_history rt env address) = Ok h /\
            py_len (transactions h) = Ok (tx_total_count h) /\
            tx_address h = address.
Proof.
  unfold get_transaction_history. rewrite outcome_try_except.
  pose proof (tx_endpoint_loop_invariant rt env address (tx_endpoints address)) as I.
  change (tx_endpoints address) with
    [base_url ++ "/wallet/transactions"; base_url ++ "/wallet/history";
     base_url ++ "/transactions/" ++ address;
     base_url ++ "/wallet/" ++ address ++ "/transactions"] in I.
  destruct (outcome (tx_endpoint_loop rt env address _)) as [h|e].
  - exists h. tauto.
  - exists (empty_tx_history address). repeat split.
Qed.

(** X7: whatever the data provider does, [get_nft_holdings] and
    [get_transaction_history] return and raise nothing; the count they
    return is the length of the list they return, and the address is the one
    asked for. *)
Theorem list_fetches_never_raise : forall rt env address,
  (exists h, outcome (get_nft_holdings rt env address) = Ok h /\
             py_len (nfts h) = Ok (nft_total_count h) /\
             nft_address h = address) /\
  (exists h, outcome (get_transaction_history rt env address) = Ok h /\
             py_len (transactions h) = Ok (tx_total_count h) /\
             tx_address h = address).
Proof.
  intros rt env address. split.
  - apply get_nft_holdings_returns.
  - apply get_transaction_history_returns.
Qed.

Lemma nft_endpoint_loop_trace rt env address endpoints :
  exists k, k <= List.length endpoints /\
            (endpoints <> [] -> 1 <= k) /\
            trace (nft_endpoint_loop rt env address endpoints)
            = firstn k (map (wallet_call rt address) endpoints).
Proof.
  induction endpoints as [|endpoint rest (k & Hk & _ & Ht)].
  - exists 0. repeat split; [lia | congruence].
  - rewrite nft_endpoint_loop_step.
    destruct (nft_attempt_of address _) as [[found|]|e].
    + exists 1. simpl. repeat split; lia.
    + exists (S k). simpl. rewrite Ht. repeat split; lia.
    + exists 1. simpl. repeat split; lia.
Qed.

Lemma tx_endpoint_loop_trace rt env address endpoints :
  exists k, k <= List.length endpoints /\
            (endpoints <> [] -> 1 <= k) /\
            trace (tx_endpoint_loop rt env address endpoints)
            = firstn k (map (wallet_call rt address) endpoints).
Proof.
  induction endpoints as [|endpoint rest (k & Hk & _ & Ht)].
  - exists 0. repeat split; [lia | congruence].
  - rewrite tx_endpoint_loop_step.
    destruct (tx_attempt_of address _) as [[found|]|e].
    + exists 1. simpl. repeat split; lia.
    + exists (S k). simpl. rewrite Ht. repeat split; lia.
    + exists 1. simpl. repeat split; lia.
Qed.

Lemma get_nft_holdings_call_prefix rt env address :
  exists k, 1 <= k <= 4 /\
    trace (get_nft_holdings rt env address)
    = firstn k (map (wallet_call rt address) (nft_endpoints address)).
Proof.
  destruct (nft_endpoint_loop_trace rt env address (nft_endpoints address))
    as (k & Hk & H1 & Ht).
  exists k. split; [split; [apply H1; discriminate | exact Hk]|].
  unfold get_nft_holdings. rewrite trace_try_except_ret. exact Ht.
Qed.

Lemma get_transaction_history_call_prefix rt env address :
  exists k, 1 <= k <= 4 /\
    trace (get_transaction_history rt env address)
    = firstn k (map (wallet_call rt address) (tx_endpoints address)).
Proof.
  destruct (tx_endpoint_loop_trace rt env address (tx_endpoints address))
    as (k & Hk & H1 & Ht).
  exists k. split; [split; [apply H1; discriminate | exact Hk]|].
  unfold get_transaction_history. rewrite trace_try_except_ret. exact Ht.
Qed.

(** X8: the calls of [get_nft_holdings] are the GETs of its four endpoints
    in their written order, cut after the first one to four of them; so are
    those of [get_transaction_history].  No endpoint is asked twice, and each
    GET carries the timeout of ten. *)
Theorem list_fetches_call_in_order : forall rt env address,
  (exists k, 1 <= k <= 4 /\
     trace (get_nft_holdings rt env address)
     = firstn k (map (wallet_call rt address) (nft_endpoints address))) /\
  (exists k, 1 <= k <= 4 /\
     trace (get_transaction_history rt env address)
     = firstn k (map (wallet_call rt address) (tx_endpoints address))).
Proof.
  intros rt env address. split.
  - apply get_nft_holdings_call_prefix.
  - apply get_transaction_history_call_prefix.
Qed.

Lemma unserved_nft_attempt env address endpoint :
  unserved env endpoint ->
  nft_attempt_of address
    (requests_get env endpoint (wallet_params endpoint address) (Some 10)) = Ok None.
Proof.
  intros U. specialize (U (wallet_params endpoint address) (Some 10)).
  unfold nft_attempt_of.
  destruct (requests_get env endpoint _ _) as [response|e].
  - apply Nat.eqb_neq in U. now rewrite U.
  - now rewrite U.
Qed.

Lemma unserved_tx_attempt env address endpoint :
  unserved env endpoint ->
  tx_attempt_of address
    (requests_get env endpoint (wallet_params endpoint address) (Some 10)) = Ok None.
Proof.
  intros U. specialize (U (wallet_params endpoint address) (Some 10)).
  unfold tx_attempt_of.
  destruct (requests_get env endpoint _ _) as [response|e].
  - apply Nat.eqb_neq in U. now rewrite U.
  - now rewrite U.
Qed.

Lemma nft_endpoint_loop_unserved rt env address endpoints :
  (forall url, In url endpoints -> unserved env url) ->
  nft_endpoint_loop rt env address endpoints
  = (map (wallet_call rt address) endpoints, Ok (empty_nft_holdings address)).
Proof.
  induction endpoints as [|endpoint rest IH]; intros U; [reflexivity|].
  rewrite nft_endpoint_loop_step, unserved_nft_attempt by (apply U; now left).
  rewrite IH by (intros url H; apply U; now right). reflexivity.
Qed.

Lemma tx_endpoint_loop_unserved rt env address endpoints :
  (forall url, In url endpoints -> unserved env url) ->
  tx_endpoint_loop rt env address endpoints
  = (map (wallet_call rt address) endpoints, Ok (empty_tx_history address)).
Proof.
  induction endpoints as [|endpoint rest IH]; intros U; [reflexivity|].
  rewrite tx_endpoint_loop_step, unserved_tx_attempt by (apply U; now left).
  rewrite IH by (intros url H; apply U; now right). reflexivity.
Qed.

(** X9: when none of its four endpoints is served (each request raises a
    [RequestException] or is answered with a status other than 200),
    [get_nft_holdings] asks all four in order and returns the empty
    holdings, and the NFT handler answers with the document that reports no
    NFT; [get_transaction_history] likewise returns the empty history after
    its four requests. *)
Theorem unserved_endpoints_give_empty : forall rt env address,
  ((forall url, In url (nft_endpoints address) -> unserved env url) ->
   get_nft_holdings rt env address
   = (map (wallet_call rt address) (nft_endpoints address),
      Ok (empty_nft_holdings address)) /\
   outcome (_handle_nft_analysis rt env address)
   = Ok (Document (nft_empty_document address))) /\
  ((forall url, In url (tx_endpoints address) -> unserved env url) ->
   get_transaction_history rt env address
   = (map (wallet_call rt address) (tx_endpoints address),
      Ok (empty_tx_history address))).
Proof.
  intros rt env address. split.
  - intros U.
    assert (G : get_nft_holdings rt env address
                = (map (wallet_call rt address) (nft_endpoints address),
                   Ok (empty_nft_holdings address))).
    { unfold get_nft_holdings.
      change [base_url ++ "/wallet/nft"; base_url ++ "/wallet/nfts";
              base_url ++ "/nft/wallet/" ++ address;
              base_url ++ "/wallet/" ++ address ++ "/nfts"]
        with (nft_endpoints address).
      now rewrite (nft_endpoint_loop_unserved rt env address _ U). }
    split; [exact G|].
    unfold _handle_nft_analysis. rewrite outcome_try_except_ret.
    unfold nft_analysis_try. rewrite G. reflexivity.
  - intros U. unfold get_transaction_history.
    change [base_url ++ "/wallet/transactions"; base_url ++ "/wallet/history";
            base_url ++ "/transactions/" ++ address;
            base_url ++ "/wallet/" ++ address ++ "/transactions"]
      with (tx_endpoints address).
    now rewrite (tx_endpoint_loop_unserved rt env address _ U).
Qed.

Lemma upstream_500_unserved (url : string) : unserved upstream_500 url.
Proof. intros params timeout. simpl. discriminate. Qed.

Lemma unserved_endpoints_give_empty_witness :
  outcome (_handle_nft_analysis sample_runtime upstream_500 sample_address)
  = Ok (Document (nft_empty_document sample_address)).
Proof.
  apply (proj1 (unserved_endpoints_give_empty sample_runtime upstream_500
                  sample_address)).
  intros url _. apply upstream_500_unserved.
Defined.

Lemma nft_endpoint_loop_first_200 rt env address endpoint rest data :
  requests_get env endpoint (wallet_params endpoint address) (Some 10)
  = Ok (Response 200 (Ok data)) ->
  forall pre,
  (forall url, In url pre -> unserved env url) ->
  nft_endpoint_loop rt env address (pre ++ endpoint :: rest)
  = (map (wallet_call rt address) (pre ++ [endpoint]),
     match nfts_of data with
     | Ok v =>
         match py_len v with
         | Ok n => Ok {| nfts := v; nft_total_count := n; nft_address := address |}
         | Raise e => Raise e
         end
     | Raise e => Raise e
     end).
Proof.
  intros R. induction pre as [|p pre IH]; intros U.
  - cbn [app]. rewrite nft_endpoint_loop_step, R. unfold nft_attempt_of.
    cbn [status_code response_json Nat.eqb].
    destruct (nfts_of data) as [v|e]; [|reflexivity].
    destruct (py_len v); reflexivity.
  - cbn [app]. rewrite nft_endpoint_loop_step, unserved_nft_attempt
      by (apply U; now left).
    rewrite IH by (intros url H; apply U; now right). reflexivity.
Qed.

(** X10: the first endpoint that answers 200 with a JSON body ends the
    search of [get_nft_holdings], whatever the body: a body of a known shape
    gives its list and the length of that list; a body the extraction chokes
    on (a number, say) gives the empty holdings, and the endpoints after it
    are not asked. *)
Theorem first_200_reply_decides : forall rt env address pre endpoint rest data,
  nft_endpoints address = (pre ++ endpoint :: rest)%list ->
  (forall url, In url pre -> unserved env url) ->
  requests_get env endpoint (wallet_params endpoint address) (Some 10)
  = Ok (Response 200 (Ok data)) ->
  trace (get_nft_holdings rt env address)
  = map (wallet_call rt address) (pre ++ [endpoint]) /\
  outcome (get_nft_holdings rt env address)
  = Ok (match nfts_of data with
        | Ok v =>
            match py_len v with
            | Ok n => {| nfts := v; nft_total_count := n; nft_address := address |}
            | Raise _ => empty_nft_holdings address
            end
        | Raise _ => empty_nft_holdings address
        end).
Proof.
  intros rt env address pre endpoint rest data E U R.
  unfold get_nft_holdings.
  change [base_url ++ "/wallet/nft"; base_url ++ "/wallet/nfts";
          base_url ++ "/nft/wallet/" ++ address;
          base_url ++ "/wallet/" ++ address ++ "/nfts"]
    with (nft_endpoints address).
  rewrite E, (nft_endpoint_loop_first_200 rt env address endpoint rest data R pre U).
  split.
  - rewrite trace_try_except_ret. reflexivity.
  - rewrite outcome_try_except_ret. cbn [outcome snd].
    destruct (nfts_of data) as [v|e]; [|reflexivity].
    destruct (py_len v); reflexivity.
Qed.

Lemma first_200_reply_decides_witness :
  let env := {| requests_get := fun _ _ _ => Ok (Response 200 (Ok (JInt 5)));
                chat_completions_create := sample_completion |} in
  trace (get_nft_holdings sample_runtime env sample_address)
  = [wallet_call sample_runtime sample_address (base_url ++ "/wallet/nft")] /\
  outcome (get_nft_holdings sample_runtime env sample_address)
  = Ok (empty_nft_holdings sample_address).
Proof.
  intros env.
  apply (first_200_reply_decides sample_runtime env sample_address []
           (base_url ++ "/wallet/nft")
           [base_url ++ "/wallet/nfts"; base_url ++ "/nft/wallet/" ++ sample_address;
            base_url ++ "/wallet/" ++ sample_address ++ "/nfts"] (JInt 5)).
  - reflexivity.
  - intros url [].
  - reflexivity.
Defined.

(** X11: on a JSON object [nfts_of] never raises; a list under [data] is
    taken whatever else the object holds, and an object with neither a
    [data] nor an [nfts] key gives the empty list.  A top-level list is taken
    as it is unless one of its items is the string [data] or [nfts]. *)
Theorem nfts_of_shapes : forall d : list (string * json),
  (exists v, nfts_of (JDict d) = Ok v) /\
  (forall l, lookup "data" d = Some (JList l) -> nfts_of (JDict d) = Ok (JList l)) /\
  (lookup "data" d = None -> lookup "nfts" d = None ->
   nfts_of (JDict d) = Ok (JList [])) /\
  (forall l, existsb (is_str "data") l = false ->
             existsb (is_str "nfts") l = false ->
             nfts_of (JList l) = Ok (JList l)).
Proof.
  intros d. split; [|split; [|split]].
  - unfold nfts_of. cbn [py_in py_getitem].
    destruct (lookup "data" d) as [inner|].
    + destruct inner; cbn [is_list is_dict py_in py_getitem]; eauto.
      destruct (lookup "nfts" d0) as [x|]; eauto.
      destruct (lookup "tokens" d0) as [y|]; eauto.
    + destruct (lookup "nfts" d) as [x|]; cbn [is_list]; eauto.
  - intros l H. unfold nfts_of. cbn [py_in py_getitem]. now rewrite H.
  - intros H1 H2. unfold nfts_of. cbn [py_in py_getitem]. now rewrite H1, H2.
  - intros l H1 H2. unfold nfts_of. cbn [py_in]. now rewrite H1, H2.
Qed.

Lemma nfts_of_shapes_witness :
  nfts_of (JDict [("nfts", JStr "ignored"); ("data", JList [script_nft])])
  = Ok (JList [script_nft]) /\
  nfts_of (JDict [("message", JStr "ok")]) = Ok (JList []).
Proof.
  split.
  - apply (proj1 (proj2 (nfts_of_shapes
                           [("nfts", JStr "ignored"); ("data", JList [script_nft])]))).
    reflexivity.
  - apply (proj1 (proj2 (proj2 (nfts_of_shapes [("message", JStr "ok")]))));
      reflexivity.
Defined.

(** ** NFT cards *)

Lemma nft_card_dict rt (d : list (string * json)) :
  exists card, nft_card rt (JDict d) = Ok card.
Proof. unfold nft_card. cbn [py_get result_bind]. eauto. Qed.

Lemma nft_card_not_dict rt (v : json) :
  is_dict v = false ->
  nft_card rt v
  = Raise (builtin_error ("'" ++ type_name v ++ "' object has no attribute 'get'")).
Proof. destruct v; try discriminate; reflexivity. Qed.

(** X12: the NFT formatter turns an item list into cards exactly when every
    item is a JSON object; the first item of another type raises the
    attribute error that names its type (the handler then answers with the
    error document). *)
Theorem nft_cards_need_objects : forall rt (items : list json),
  ((exists cards, nft_cards rt items = Ok cards) <-> forallb is_dict items = true) /\
  (forall good bad rest,
     items = (good ++ bad :: rest)%list ->
     forallb is_dict good = true -> is_dict bad = false ->
     nft_cards rt items
     = Raise (builtin_error
                ("'" ++ type_name bad ++ "' object has no attribute 'get'"))).
Proof.
  intros rt items. split.
  - induction items as [|item rest IH]; cbn [nft_cards forallb].
    + split; eauto.
    + destruct (is_dict item) eqn:D.
      * destruct item; try discriminate.
        destruct (nft_card_dict rt d) as [card ->]. cbn [result_bind andb].
        rewrite <- IH. split.
        -- intros [cards H]. destruct (nft_cards rt rest); [eauto | discriminate].
        -- intros [more ->]. cbn [result_bind]. eauto.
      * rewrite (nft_card_not_dict rt item D). cbn [result_bind andb].
        split; [intros [cards H]; discriminate | discriminate].
  - intros good bad rest -> G B. induction good as [|g good IH].
    + cbn [app nft_cards]. now rewrite (nft_card_not_dict rt bad B).
    + cbn [forallb] in G. apply andb_true_iff in G as [Dg G].
      cbn [app nft_cards]. destruct g; try discriminate.
      destruct (nft_card_dict rt d) as [card ->]. cbn [result_bind].
      now rewrite (IH G).
Qed.

Lemma nft_cards_need_objects_witness :
  nft_cards sample_runtime [script_nft; JStr "x"; script_nft]
  = Raise (builtin_error "'str' object has no attribute 'get'").
Proof.
  apply (proj2 (nft_cards_need_objects sample_runtime
                  [script_nft; JStr "x"; script_nft])
           [script_nft] (JStr "x") [script_nft]); reflexivity.
Defined.



(** ** Outbound calls of a request *)

Lemma trace_ret_bind {A B} (m : M A) (f : A -> result B) :
  trace (x <- m ;; lift (f x)) = trace m.
Proof.
  rewrite trace_bind. destruct (outcome m); simpl; now rewrite app_nil_r.
Qed.

Lemma nft_analysis_try_trace rt env address :
  trace (nft_analysis_try rt env address) = trace (get_nft_holdings rt env address).
Proof.
  unfold nft_analysis_try. rewrite trace_bind.
  destruct (outcome (get_nft_holdings rt env address)) as [h|e];
    [|now rewrite app_nil_r].
  destruct (negb (py_truthy (nfts h))); [now rewrite app_nil_r|].
  rewrite trace_lift_bind. destruct (py_slice_items 12 (nfts h)) as [items|e];
    [|now rewrite app_nil_r].
  rewrite trace_lift_bind. destruct (nft_cards rt items); now rewrite app_nil_r.
Qed.

Lemma transaction_history_try_trace rt env address :
  trace (transaction_history_try rt env address)
  = trace (get_transaction_history rt env address).
Proof.
  unfold transaction_history_try. rewrite trace_bind.
  destruct (outcome (get_transaction_history rt env address)) as [h|e];
    [|now rewrite app_nil_r].
  rewrite trace_lift_bind. destruct (py_len (transactions h)); now rewrite app_nil_r.
Qed.

Lemma token_analysis_try_trace rt env address :
  trace (token_analysis_try rt env address) = [balance_call rt address 0 10].
Proof.
  unfold token_analysis_try. rewrite trace_bind, get_wallet_balance_trace.
  destruct (outcome (get_wallet_balance rt env address 0 10)); reflexivity.
Qed.

(** X14: the outbound calls of one request, route by route: without an
    address, the one completion call, carrying the fixed system prompt and
    the message as typed; for token analysis the one balance GET; for NFT
    analysis and transaction history the GETs of the fetch; for risk, whale
    and contract intents no call at all.  So a request makes at most four
    calls. *)
Theorem generate_response_calls : forall rt env message,
  trace (generate_response rt env message) =
    match _extract_wallet_address message with
    | None => [ChatCompletion current_model system_prompt message]
    | Some a =>
        match wallet_query_intent (lower message) with
        | TokenAnalysis => [balance_call rt a 0 10]
        | NftAnalysis => trace (get_nft_holdings rt env a)
        | TransactionHistory => trace (get_transaction_history rt env a)
        | RiskAssessment | WhaleAnalysis | ContractVerification => []
        end
    end /\
  List.length (trace (generate_response rt env message)) <= 4.
Proof.
  intros rt env message.
  assert (E : trace (generate_response rt env message) =
    match _extract_wallet_address message with
    | None => [ChatCompletion current_model system_prompt message]
    | Some a =>
        match wallet_query_intent (lower message) with
        | TokenAnalysis => [balance_call rt a 0 10]
        | NftAnalysis => trace (get_nft_holdings rt env a)
        | TransactionHistory => trace (get_transaction_history rt env a)
        | RiskAssessment | WhaleAnalysis | ContractVerification => []
        end
    end).
  { rewrite generate_response_trace, generate_response_try_routes.
    destruct (_extract_wallet_address message) as [a|];
      [|apply general_query_trace].
    unfold _handle_wallet_query.
    destruct (wallet_query_intent (lower message)); cbn [handle].
    - unfold _handle_token_analysis. rewrite trace_try_except_ret.
      apply token_analysis_try_trace.
    - unfold _handle_nft_analysis. rewrite trace_try_except_ret.
      apply nft_analysis_try_trace.
    - unfold _handle_transaction_history. rewrite trace_try_except_ret.
      apply transaction_history_try_trace.
    - reflexivity.
    - reflexivity.
    - reflexivity. }
  split; [exact E|]. rewrite E.
  destruct (_extract_wallet_address message) as [a|]; [|simpl; lia].
  destruct (wallet_query_intent (lower message)); try (simpl; lia).
  - destruct (get_nft_holdings_call_prefix rt env a) as (k & Hk & ->).
    rewrite length_firstn. lia.
  - destruct (get_transaction_history_call_prefix rt env a) as (k & Hk & ->).
    rewrite length_firstn. lia.
Qed.

(** ** The general reply *)

(** X15: for a message without an address whose completion has a text, the
    reply is that text, formatted by [_format_text_content], inside the
    fixed general-response frame. *)
Theorem general_reply_wraps_completion : forall rt env message content,
  _extract_wallet_address message = None ->
  chat_completions_create env current_model system_prompt message
  = Ok (Some content) ->
  outcome (generate_response rt env message)
  = Ok (Document (general_response_document (_format_text_content content))).
Proof.
  intros rt env message content E C.
  unfold generate_response. rewrite outcome_try_except_ret.
  rewrite generate_response_try_routes, E.
  unfold _handle_general_query. rewrite outcome_try_except_ret.
  unfold general_query_try, create_completion. rewrite C. reflexivity.
Qed.

Lemma general_reply_wraps_completion_witness :
  outcome (generate_response sample_runtime upstream_500 "hello")
  = Ok (Document (general_response_document "<p>Hello</p>")).
Proof.
  apply (general_reply_wraps_completion sample_runtime upstream_500 "hello" "Hello");
    reflexivity.
Defined.

(** ** From the validator back to the extractor *)

Lemma lstrip_by_split (p : ascii -> bool) (s : string) :
  exists pre, s = pre ++ lstrip_by p s /\
              Forall (fun c => p c = true) (list_ascii_of_string pre).
Proof.
  induction s as [|c s (pre & E & F)]; [now exists ""|].
  cbn [lstrip_by]. destruct (p c) eqn:P.
  - exists (String c pre). split; [simpl; now rewrite <- E | now constructor].
  - exists "". split; [reflexivity | constructor].
Qed.

Lemma rstrip_by_split (p : ascii -> bool) (s : string) :
  exists post, s = rstrip_by p s ++ post /\
               Forall (fun c => p c = true) (list_ascii_of_string post).
Proof.
  induction s as [|c s (post & E & F)]; [now exists ""|].
  cbn [rstrip_by]. destruct (rstrip_by p s) as [|y r] eqn:R.
  - destruct (p c) eqn:P.
    + exists (String c post). simpl in E. split; [now rewrite <- E | now constructor].
    + exists post. simpl in E |- *. split; [now rewrite <- E | exact F].
  - exists post. simpl in E |- *. split; [now rewrite <- E | exact F].
Qed.

Lemma strip_split (s : string) :
  exists pre post, s = pre ++ strip s ++ post /\ all_space pre /\ all_space post.
Proof.
  destruct (lstrip_by_split isspace s) as (pre & E1 & F1).
  destruct (rstrip_by_split isspace (lstrip_by isspace s)) as (post & E2 & F2).
  exists pre, post. unfold strip. now rewrite <- E2.
Qed.

Lemma match_eth_head (c : ascii) (t : string) :
  c <> "0"%char -> match_eth (String c t) = None.
Proof.
  intros N. destruct c as [[] [] [] [] [] [] [] []]; try reflexivity.
  now elim N.
Qed.

Lemma re_search_eth_after_space (a post : string) :
  eth_address a ->
  forall pre, all_space pre -> re_search_eth (pre ++ a ++ post) = Some a.
Proof.
  intros Ha. induction pre as [|c pre IH]; intros F.
  - cbn [append]. destruct (a ++ post) eqn:E; cbn [re_search_eth]; rewrite <- E;
      now rewrite (match_eth_complete a post Ha).
  - inversion F as [|? ? Sc F']; subst.
    change (String c pre ++ a ++ post) with (String c (pre ++ a ++ post)).
    cbn [re_search_eth]. rewrite match_eth_head.
    + now apply IH.
    + intros ->. discriminate Sc.
Qed.

(** X16: a string the validator accepts is one the extractor finds an
    address in, and the address found is the string with its surrounding
    white space removed. *)
Theorem valid_address_is_extracted : forall s : string,
  is_valid_wallet_address s = true ->
  _extract_wallet_address s = Some (strip s).
Proof.
  intros s V. apply valid_iff_stripped in V.
  destruct (strip_split s) as (pre & post & E & Fpre & _).
  unfold _extract_wallet_address. rewrite E at 1.
  now apply re_search_eth_after_space.
Qed.

Lemma valid_address_is_extracted_witness :
  _extract_wallet_address ("  " ++ sample_address ++ String lf "")
  = Some sample_address.
Proof.
  apply (valid_address_is_extracted ("  " ++ sample_address ++ String lf "")).
  reflexivity.
Defined.

(** ** The pass-through fetches *)

Lemma passthrough_loop_step rt env marker address endpoint rest :
  passthrough_loop rt env marker address (endpoint :: rest) =
  match passthrough_attempt_of
          (requests_get env endpoint (passthrough_params marker address endpoint)
             (Some 10)) with
  | Ok (Some data) => ([passthrough_call rt marker address endpoint], Ok (Some data))
  | Ok None =>
      ((passthrough_call rt marker address endpoint
          :: trace (passthrough_loop rt env marker address rest)),
       outcome (passthrough_loop rt env marker address rest))
  | Raise e => ([passthrough_call rt marker address endpoint], Raise e)
  end.
Proof.
  cbn [passthrough_loop].
  unfold get, passthrough_call, passthrough_attempt_of, passthrough_params.
  destruct (requests_get env endpoint _ (Some 10)) as [[status body]|e];
    cbn [bind try_except_request status_code response_json lift ret].
  - destruct (status =? 200)%nat; cbn.
    + destruct body as [data|e]; cbn; [reflexivity|].
      destruct (is_request_exception e); cbn; [|reflexivity].
      destruct (passthrough_loop rt env marker address rest); reflexivity.
    + destruct (passthrough_loop rt env marker address rest); reflexivity.
  - destruct (is_request_exception e); cbn; [|reflexivity].
    destruct (passthrough_loop rt env marker address rest); reflexivity.
Qed.

Lemma passthrough_loop_trace rt env marker address endpoints :
  exists k, k <= List.length endpoints /\
            (endpoints <> [] -> 1 <= k) /\
            trace (passthrough_loop rt env marker address endpoints)
            = firstn k (map (passthrough_call rt marker address) endpoints).
Proof.
  induction endpoints as [|endpoint rest (k & Hk & _ & Ht)].
  - exists 0. repeat split; [lia | congruence].
  - rewrite passthrough_loop_step.
    destruct (passthrough_attempt_of _) as [[found|]|e].
    + exists 1. simpl. repeat split; lia.
    + exists (S k). simpl. rewrite Ht. repeat split; lia.
    + exists 1. simpl. repeat split; lia.
Qed.

(** A pass-through fetch: the loop over [endpoints], then one of two
    fallback values. *)
Lemma passthrough_fetch_outcome rt env marker address endpoints
    (unavailable error : json) :
  exists v,
    outcome (try_except
               (found <- passthrough_loop rt env marker address endpoints ;;
                match found with
                | Some data => ret data
                | None => ret unavailable
                end)
               (fun e => ret error)) = Ok v.
Proof. rewrite outcome_try_except_ret. eauto. Qed.

Lemma passthrough_fetch_trace rt env marker address endpoints
    (unavailable error : json) :
  trace (try_except
           (found <- passthrough_loop rt env marker address endpoints ;;
            match found with
            | Some data => ret data
            | None => ret unavailable
            end)
           (fun e => ret error))
  = trace (passthrough_loop rt env marker address endpoints).
Proof.
  rewrite trace_try_except_ret, trace_bind.
  destruct (outcome (passthrough_loop rt env marker address endpoints)) as [[d|]|e];
    simpl; now rewrite app_nil_r.
Qed.

(** X17: [get_risk_assessment], [get_whale_analysis] and [verify_contract]
    return a value whatever the data provider does, and their calls are the
    GETs of their three endpoints in the written order, cut after the first
    one to three, each with the timeout of ten. *)
Theorem passthrough_fetches_never_raise : forall rt env address,
  (exists v, outcome (get_risk_assessment rt env address) = Ok v) /\
  (exists v, outcome (get_whale_analysis rt env address) = Ok v) /\
  (exists v, outcome (verify_contract rt env address) = Ok v) /\
  (exists k, 1 <= k <= 3 /\
     trace (get_risk_assessment rt env address)
     = firstn k (map (passthrough_call rt "wallet" address) (risk_endpoints address))) /\
  (exists k, 1 <= k <= 3 /\
     trace (get_whale_analysis rt env address)
     = firstn k (map (passthrough_call rt "wallet" address) (whale_endpoints address))) /\
  (exists k, 1 <= k <= 3 /\
     trace (verify_contract rt env address)
     = firstn k (map (passthrough_call rt "contract/verify" address)
                   (contract_endpoints address))).
Proof.
  intros rt env address.
  split; [apply passthrough_fetch_outcome|].
  split; [apply passthrough_fetch_outcome|].
  split; [apply passthrough_fetch_outcome|].
  split; [|split].
  - destruct (passthrough_loop_trace rt env "wallet" address (risk_endpoints address))
      as (k & Hk & H1 & Ht).
    exists k. split; [split; [apply H1; discriminate | exact Hk]|].
    unfold get_risk_assessment. now rewrite passthrough_fetch_trace.
  - destruct (passthrough_loop_trace rt env "wallet" address (whale_endpoints address))
      as (k & Hk & H1 & Ht).
    exists k. split; [split; [apply H1; discriminate | exact Hk]|].
    unfold get_whale_analysis. now rewrite passthrough_fetch_trace.
  - destruct (passthrough_loop_trace rt env "contract/verify" address
                (contract_endpoints address)) as (k & Hk & H1 & Ht).
    exists k. split; [split; [apply H1; discriminate | exact Hk]|].
    unfold verify_contract. now rewrite passthrough_fetch_trace.
Qed.

Lemma unserved_passthrough_attempt env marker address endpoint :
  unserved env endpoint ->
  passthrough_attempt_of
    (requests_get env endpoint (passthrough_params marker address endpoint) (Some 10))
  = Ok None.
Proof.
  intros U. specialize (U (passthrough_params marker address endpoint) (Some 10)).
  unfold passthrough_attempt_of.
  destruct (requests_get env endpoint _ _) as [response|e].
  - apply Nat.eqb_neq in U. now rewrite U.
  - now rewrite U.
Qed.

Lemma passthrough_loop_unserved rt env marker address endpoints :
  (forall url, In url endpoints -> unserved env url) ->
  passthrough_loop rt env marker address endpoints
  = (map (passthrough_call rt marker address) endpoints, Ok None).
Proof.
  induction endpoints as [|endpoint rest IH]; intros U; [reflexivity|].
  rewrite passthrough_loop_step, unserved_passthrough_attempt by (apply U; now left).
  rewrite IH by (intros url H; apply U; now right). reflexivity.
Qed.

(** X18: when none of its endpoints is served, a pass-through fetch asks all
    three and returns its stand-in value: for the risk assessment the level
    [Low] with score 1.0 and the single factor [API Analysis Unavailable],
    for the whale analysis zero values with [is_whale] false, for the
    contract verification the status [Unknown], not verified. *)
Theorem unserved_passthrough_fallbacks : forall rt env address,
  ((forall url, In url (risk_endpoints address) -> unserved env url) ->
   get_risk_assessment rt env address
   = (map (passthrough_call rt "wallet" address) (risk_endpoints address),
      Ok risk_unavailable)) /\
  ((forall url, In url (whale_endpoints address) -> unserved env url) ->
   get_whale_analysis rt env address
   = (map (passthrough_call rt "wallet" address) (whale_endpoints address),
      Ok whale_unavailable)) /\
  ((forall url, In url (contract_endpoints address) -> unserved env url) ->
   verify_contract rt env address
   = (map (passthrough_call rt "contract/verify" address) (contract_endpoints address),
      Ok contract_unavailable)).
Proof.
  intros rt env address. repeat split; intros U.
  - unfold get_risk_assessment.
    now rewrite (passthrough_loop_unserved rt env _ address _ U).
  - unfold get_whale_analysis.
    now rewrite (passthrough_loop_unserved rt env _ address _ U).
  - unfold verify_contract.
    now rewrite (passthrough_loop_unserved rt env _ address _ U).
Qed.

Lemma unserved_passthrough_fallbacks_witness :
  outcome (get_risk_assessment sample_runtime upstream_500 sample_address)
  = Ok risk_unavailable /\
  py_getitem risk_unavailable "risk_level" = Ok (JStr "Low").
Proof.
  split; [|reflexivity].
  rewrite (proj1 (unserved_passthrough_fallbacks sample_runtime upstream_500
                    sample_address)
             (fun url _ => upstream_500_unserved url)).
  reflexivity.
Defined.

Lemma passthrough_loop_first_200 rt env marker address endpoint rest data :
  requests_get env endpoint (passthrough_params marker address endpoint) (Some 10)
  = Ok (Response 200 (Ok data)) ->
  forall pre,
  (forall url, In url pre -> unserved env url) ->
  passthrough_loop rt env marker address (pre ++ endpoint :: rest)
  = (map (passthrough_call rt marker address) (pre ++ [endpoint]), Ok (Some data)).
Proof.
  intros R. induction pre as [|p pre IH]; intros U.
  - cbn [app]. rewrite passthrough_loop_step, R. reflexivity.
  - cbn [app]. rewrite passthrough_loop_step, unserved_passthrough_attempt
      by (apply U; now left).
    rewrite IH by (intros url H; apply U; now right). reflexivity.
Qed.

(** X19: the body of the first endpoint that answers 200 is what
    [get_risk_assessment] returns, as it came: it is not checked for the
    keys of a risk assessment, nor for being an object at all; the endpoints
    after it are not asked. *)
Theorem risk_assessment_passes_body_through :
  forall rt env address pre endpoint rest data,
  risk_endpoints address = (pre ++ endpoint :: rest)%list ->
  (forall url, In url pre -> unserved env url) ->
  requests_get env endpoint (passthrough_params "wallet" address endpoint) (Some 10)
  = Ok (Response 200 (Ok data)) ->
  get_risk_assessment rt env address
  = (map (passthrough_call rt "wallet" address) (pre ++ [endpoint]), Ok data).
Proof.
  intros rt env address pre endpoint rest data E U R.
  unfold get_risk_assessment.
  rewrite E, (passthrough_loop_first_200 rt env _ address endpoint rest data R pre U).
  cbn [bind try_except ret]. now rewrite !app_nil_r.
Qed.

Lemma risk_assessment_passes_body_through_witness :
  let env := {| requests_get := fun _ _ _ => Ok (Response 200 (Ok (JStr "maintenance")));
                chat_completions_create := sample_completion |} in
  get_risk_assessment sample_runtime env sample_address
  = ([passthrough_call sample_runtime "wallet" sample_address (base_url ++ "/wallet/risk")],
     Ok (JStr "maintenance")).
Proof.
  intros env.
  apply (risk_assessment_passes_body_through sample_runtime env sample_address []
           (base_url ++ "/wallet/risk")
           [base_url ++ "/security/" ++ sample_address;
            base_url ++ "/wallet/" ++ sample_address ++ "/risk"]
           (JStr "maintenance")).
  - reflexivity.
  - intros url [].
  - reflexivity.
Defined.

(** ** The balance fetch on success *)

(** X20: the balance fetch asks for the address with the offset and the
    limit it was given, and accepts the reply on any status outside 400 to
    599, 200 or not, provided the body validates: what it returns is the
    validated body. *)
Theorem get_wallet_balance_accepts : forall rt env address offset limit status data w,
  requests_get env (base_url ++ "/wallet/balance/token")
    [("address", JStr address); ("offset", JInt offset); ("limit", JInt limit)] None
  = Ok (Response status (Ok data)) ->
  ~ (400 <= status < 600) ->
  new_WalletBalanceResponse_from rt data = Ok w ->
  get_wallet_balance rt env address offset limit
  = ([balance_call rt address offset limit], Ok w).
Proof.
  intros rt env address offset limit status data w R S V.
  assert (O : outcome (get_wallet_balance rt env address offset limit) = Ok w).
  { rewrite get_wallet_balance_outcome, wallet_balance_try_outcome, R.
    unfold raise_for_status. cbn [status_code response_json].
    replace ((400 <=? status)%nat && (status <? 600)%nat) with false.
    - now rewrite V.
    - symmetry. apply andb_false_iff.
      destruct (Nat.leb_spec 400 status); [|now left].
      destruct (Nat.ltb_spec status 600); [lia | now right]. }
  pose proof (get_wallet_balance_trace rt env address offset limit) as T.
  destruct (get_wallet_balance rt env address offset limit) as [t r].
  simpl in O, T. now subst.
Qed.

Lemma get_wallet_balance_accepts_witness :
  let body := JDict [("token", JList [sample_token]); ("pagination", sample_pagination)] in
  let env := {| requests_get := fun _ _ _ => Ok (Response 203 (Ok body));
                chat_completions_create := sample_completion |} in
  exists w,
    get_wallet_balance sample_runtime env sample_address 0 10
    = ([balance_call sample_runtime sample_address 0 10], Ok w) /\
    List.length (token w) = 1.
Proof.
  intros body env. eexists. split.
  - apply (get_wallet_balance_accepts sample_runtime env sample_address 0 10 203 body).
    + reflexivity.
    + lia.
    + reflexivity.
  - reflexivity.
Defined.

(** ** The transaction handler *)

(** X21: the [try] block of the transaction handler never raises, so its
    error document is never produced: the history the fetch returns always
    has a length to show. *)
Theorem transaction_history_try_never_raises : forall rt env address,
  exists d, outcome (transaction_history_try rt env address) = Ok d.
Proof.
  intros rt env address. unfold transaction_history_try. rewrite outcome_bind.
  destruct (get_transaction_history_returns rt env address) as (h & -> & L & _).
  rewrite outcome_bind. change (outcome (lift ?r)) with r. rewrite L.
  eexists. reflexivity.
Qed.

(** ** Risk scores *)

Lemma get_risk_level_cases (score : Z) :
  (score <= 2 /\ _get_risk_level score = "Low")%Z \/
  (2 < score <= 5 /\ _get_risk_level score = "Medium")%Z \/
  (5 < score <= 7 /\ _get_risk_level score = "High")%Z \/
  (7 < score /\ _get_risk_level score = "Very High")%Z.
Proof.
  unfold _get_risk_level.
  destruct (Z.leb_spec score 2); [left; now split|].
  destruct (Z.leb_spec score 5); [right; left; split; [lia | reflexivity]|].
  destruct (Z.leb_spec score 7); [right; right; left; split; [lia | reflexivity]|].
  right; right; right. split; [lia | reflexivity].
Qed.

(** X22: a higher score never gets a lower risk level. *)
Theorem get_risk_level_monotone : forall s1 s2 : Z,
  (s1 <= s2)%Z ->
  risk_level_rank (_get_risk_level s1) <= risk_level_rank (_get_risk_level s2).
Proof.
  intros s1 s2 H.
  destruct (get_risk_level_cases s1) as [[? ->]|[[? ->]|[[? ->]| [? ->]]]];
    destruct (get_risk_level_cases s2) as [[? ->]|[[? ->]|[[? ->]| [? ->]]]];
    cbn; lia.
Qed.

Lemma get_risk_level_monotone_witness :
  risk_level_rank (_get_risk_level 2) <= risk_level_rank (_get_risk_level 6).
Proof. apply get_risk_level_monotone. lia. Defined.

(** X23: whenever [calculate_risk_score] returns, the score lies between 0
    and 6, so the cap of 10 never applies and the level is never
    [Very High]; the level is the level of the score returned; there are at
    most three factors, and none exactly when the score is 0. *)
Theorem calculate_risk_score_bounds : forall wallet_data r,
  calculate_risk_score wallet_data = Ok r ->
  (0 <= risk_score r <= 6)%Z /\
  risk_level r = _get_risk_level (risk_score r) /\
  risk_level r <> "Very High" /\
  List.length (risk_factors r) <= 3 /\
  (risk_score r = 0%Z <-> risk_factors r = []).
Proof.
  intros wallet_data r H. unfold calculate_risk_score in H.
  repeat (cbv beta iota in H; cbn [result_bind] in H;
          match type of H with
          | context [if ?b then _ else _] => is_var b; destruct b
          | context [result_bind ?x _] =>
              let b := fresh "b" in
              destruct x as [b|?];
              [|cbv beta iota in H; cbn [result_bind] in H; discriminate H]
          end).
  all: cbv beta iota in H; injection H as <-; cbn;
    (repeat split; try lia; try reflexivity; try discriminate).
Qed.

Lemma calculate_risk_score_bounds_witness :
  let wallet_data := [ ("transaction_count", JInt 20000);
                       ("total_balance", JFloat 2500000%float);
                       ("token_count", JInt 150) ] in
  exists r, calculate_risk_score wallet_data = Ok r /\
            risk_score r = 6%Z /\ risk_level r = "High" /\
            risk_level r <> "Very High".
Proof.
  intros wallet_data. eexists. split; [vm_compute; reflexivity|].
  split; [reflexivity|]. split; [reflexivity|].
  exact (proj1 (proj2 (proj2
           (calculate_risk_score_bounds wallet_data _ eq_refl)))).
Defined.

(** ** Network names *)

(** X24: the name shown for the chain id of a supported network is that
    network's key up to letter case, and a chain id of no supported network
    is shown as [Chain] followed by the number. *)
Theorem format_network_name_supported : forall (network : string) (network_id : Z),
  (In (network, network_id) supported_networks ->
   lower (format_network_name network_id) = network) /\
  ((forall key, ~ In (key, network_id) supported_networks) ->
   format_network_name network_id = "Chain " ++ str_int network_id).
Proof.
  intros network network_id. split.
  - simpl. intros H.
    repeat (destruct H as [H|H]; [injection H as <- <-; reflexivity|]).
    contradiction.
  - intros N. unfold format_network_name, network_names. cbn [lookup_int].
    repeat match goal with
           | |- context [Z.eqb ?k network_id] =>
               destruct (Z.eqb_spec k network_id) as [<-|_];
               [exfalso;
                first [ solve [apply (N "ethereum"); simpl; tauto]
                      | solve [apply (N "polygon"); simpl; tauto]
                      | solve [apply (N "bsc"); simpl; tauto]
                      | solve [apply (N "arbitrum"); simpl; tauto]
                      | solve [apply (N "optimism"); simpl; tauto] ]|]
           end.
    reflexivity.
Qed.

Lemma format_network_name_supported_witness :
  lower (format_network_name 56) = "bsc" /\
  format_network_name 8453 = "Chain 8453".
Proof.
  split.
  - apply (proj1 (format_network_name_supported "bsc" 56)). simpl. tauto.
  - apply (proj2 (format_network_name_supported "" 8453)).
    intros key H. simpl in H.
    repeat (destruct H as [H|H]; [discriminate H|]). exact H.
Defined.

(** ** The wallet page of the data processor *)

(** X25: [_generate_wallet_html] shows the number of all tokens it was
    given but renders cards for the first ten only: tokens after the tenth
    change the count and nothing else. *)
Theorem generate_wallet_html_first_ten :
  forall rt py_float (tokens extra : list token_data) wallet_address total_value,
  10 <= List.length tokens ->
  _generate_wallet_html rt py_float (tokens ++ extra) wallet_address total_value
  = wallet_html_document rt wallet_address
      (List.length tokens + List.length extra) total_value
      (wallet_html_cards rt py_float (firstn 10 tokens)).
Proof.
  intros rt py_float tokens extra wallet_address total_value H.
  unfold _generate_wallet_html. rewrite length_app, firstn_app.
  replace (10 - List.length tokens) with 0 by lia.
  now rewrite firstn_O, app_nil_r.
Qed.

Lemma generate_wallet_html_first_ten_witness :
  let token := {| symbol := "MATIC"; name := "Matic"; balance := "0";
                  usd_value := "0"; contract_address := "0x1010";
                  network := "polygon"; decimals := 18 |} in
  _generate_wallet_html sample_runtime (fun _ => None)
    (repeat token 10 ++ [token; token]) sample_address 0%float
  = wallet_html_document sample_runtime sample_address 12 0%float
      (wallet_html_cards sample_runtime (fun _ => None) (repeat token 10)).
Proof.
  intros token.
  apply (generate_wallet_html_first_ten sample_runtime (fun _ => None)
           (repeat token 10) [token; token] sample_address 0%float).
  simpl. lia.
Defined.

(** ** Wallet types *)

(** X26: the label of [detect_wallet_type] by its two thresholds that cut
    across the activity scale: more than 10000 transactions is
    [High Activity Wallet] whatever the balance; [Whale Wallet] is given
    exactly to a balance above 100000 with at most 10000 transactions; and
    [Inactive Wallet] exactly to no transactions with a balance that is not
    above 100000.  The address plays no part. *)
Theorem detect_wallet_type_labels :
  forall (address : string) (transaction_count : Z) (balance : float),
  ((10000 < transaction_count)%Z ->
   detect_wallet_type address transaction_count balance = "High Activity Wallet") /\
  (detect_wallet_type address transaction_count balance = "Whale Wallet" <->
   (transaction_count <= 10000)%Z /\ PrimFloat.ltb 100000%float balance = true) /\
  (detect_wallet_type address transaction_count balance = "Inactive Wallet" <->
   (transaction_count <= 0)%Z /\ PrimFloat.ltb 100000%float balance = false) /\
  (forall other, detect_wallet_type other transaction_count balance
                 = detect_wallet_type address transaction_count balance).
Proof.
  intros address n b. unfold detect_wallet_type.
  destruct (Z.ltb_spec 10000 n); [repeat split; try reflexivity; try lia;
                                  try discriminate; intros [? ?]; lia|].
  destruct (PrimFloat.ltb 100000%float b);
    [repeat split; try reflexivity; try lia; try discriminate;
     intros [? ?]; discriminate|].
  destruct (Z.ltb_spec 1000 n); [repeat split; try reflexivity; try lia;
                                 try discriminate; intros [? ?]; (lia || discriminate)|].
  destruct (Z.ltb_spec 100 n); [repeat split; try reflexivity; try lia;
                                try discriminate; intros [? ?]; (lia || discriminate)|].
  destruct (Z.ltb_spec 10 n); [repeat split; try reflexivity; try lia;
                               try discriminate; intros [? ?]; (lia || discriminate)|].
  destruct (Z.ltb_spec 0 n); repeat split; try reflexivity; try lia;
    try discriminate; intros [? ?]; (lia || discriminate).
Qed.

Lemma detect_wallet_type_labels_witness :
  detect_wallet_type sample_address 20000 5000000%float = "High Activity Wallet" /\
  detect_wallet_type sample_address 0 5000000%float = "Whale Wallet".
Proof.
  split.
  - apply (proj1 (detect_wallet_type_labels sample_address 20000 5000000%float)).
    lia.
  - apply (proj1 (proj2 (detect_wallet_type_labels sample_address 0 5000000%float))).
    split; [lia | reflexivity].
Defined.

(** ** Query parameters *)

Lemma contains_free (c : ascii) (d s : string) :
  free_of c s -> contains (String c d) s = false.
Proof.
  induction s as [|x s IH]; intros F; [reflexivity|].
  cbn [contains]. rewrite (startswith_free c d _ F).
  apply free_of_cons in F as [_ F]. now apply IH.
Qed.

Lemma eth_address_no_w (a : string) : eth_address a -> free_of "w" a.
Proof.
  intros (h & -> & _ & Hf). apply free_of_cons. split; [discriminate|].
  apply free_of_cons. split; [discriminate|].
  unfold free_of. intros Hin. rewrite Forall_forall in Hf.
  specialize (Hf _ Hin). unfold hex_digit in Hf. simpl in Hf.
  repeat (destruct Hf as [Hf|Hf]; [discriminate Hf|]). exact Hf.
Qed.

(** X27: for an address of the 0x-and-40-digits form, every endpoint of
    [get_nft_holdings] is asked with the query parameter [address], and so
    are the endpoints of [get_transaction_history] except the third,
    [/transactions/<address>], which is asked without any parameter. *)
Theorem list_fetch_parameters : forall address : string,
  eth_address address ->
  map (fun endpoint => wallet_params endpoint address) (nft_endpoints address)
  = repeat [("address", JStr address)] 4 /\
  map (fun endpoint => wallet_params endpoint address) (tx_endpoints address)
  = [ [("address", JStr address)]; [("address", JStr address)]; [];
      [("address", JStr address)] ].
Proof.
  intros address Ha. split; [reflexivity|].
  unfold tx_endpoints. cbn [map].
  assert (E : wallet_params (base_url ++ "/transactions/" ++ address) address = []).
  { unfold wallet_params. rewrite contains_free; [reflexivity|].
    rewrite !free_of_append. repeat split; try literal_free.
    now apply eth_address_no_w. }
  rewrite E. reflexivity.
Qed.

Lemma list_fetch_parameters_witness :
  map (fun endpoint => wallet_params endpoint sample_address)
    (tx_endpoints sample_address)
  = [ [("address", JStr sample_address)]; [("address", JStr sample_address)]; [];
      [("address", JStr sample_address)] ].
Proof.
  exact (proj2 (list_fetch_parameters sample_address sample_address_is_address)).
Defined.
